(** * gocesiumtiler: LAS reader and 3D-Tiles writer

    A shallow embedding of the LAS point reader
    ([lasread/tiler_las_reader.go]) and of the tile writer
    ([Consume], [doWork], [writeBinaryPnts], [createTilesetJson],
    [computeGeometricError] and the two JSON header generators), with the
    properties of the specification proved or refuted on it. *)

From Stdlib Require Import ZArith List String Ascii Lia Lra Reals Floats DecimalString.
From Stdlib.Strings Require Import Byte.
From stdpp Require Import gmap strings list.

Local Open Scope Z_scope.

(* ===================================================================== *)
(** * Go run-time conventions                                            *)
(* ===================================================================== *)

(** Go's [error] values are only compared with [nil] (and [io.EOF]) by the
    code under study; a message is all we keep of them. *)
Definition error : Type := string.

(** What a Go call can do: return normally, return a non-nil [error],
    panic at run time (index out of range, nil dereference, division by
    zero), end the process through [log.Fatal], or still be running when
    the fuel given to the model is used up. *)
Inductive outcome (A : Type) : Type :=
| Ret (a : A)
| Err (e : error)
| Panic (msg : string)
| Fatal (e : error)
| OutOfFuel.
Arguments Ret {A} a.
Arguments Err {A} e.
Arguments Panic {A} msg.
Arguments Fatal {A} e.
Arguments OutOfFuel {A}.

#[global] Instance outcome_bind : MBind outcome := fun A B f m =>
  match m with
  | Ret a => f a
  | Err e => Err e
  | Panic msg => Panic msg
  | Fatal e => Fatal e
  | OutOfFuel => OutOfFuel
  end.

(** Go's [int] is 64 bits wide on the platforms the tiler is built for. *)
Definition wrap64 (z : Z) : Z := (z + 2 ^ 63) mod 2 ^ 64 - 2 ^ 63.

Definition int64_range (z : Z) : Prop := - 2 ^ 63 <= z < 2 ^ 63.

(** [len] of a slice or of a string, as a Go [int]. *)
Definition len {A} (l : list A) : Z := Z.of_nat (length l).
Definition len_string (s : string) : Z := Z.of_nat (String.length s).

(** ** Strings *)

(** The double-quote character (ASCII 34). *)
Definition dq : string := String (ascii_of_nat 34) EmptyString.

(** A JSON key or string value: the text between double quotes. *)
Definition quoted (s : string) : string := dq +:+ s +:+ dq.

(** [strconv.Itoa]. *)
Definition strconv_Itoa (i : Z) : string := NilZero.string_of_int (Z.to_int i).

Fixpoint repeat_string (s : string) (n : nat) : string :=
  match n with
  | O => EmptyString
  | S n => s +:+ repeat_string s n
  end.

(** [strings.Repeat]; it panics on a negative count. *)
Definition strings_Repeat (s : string) (count : Z) : outcome string :=
  if count <? 0 then Panic "strings: negative Repeat count"
  else Ret (repeat_string s (Z.to_nat count)).

(** ** Bytes *)

Definition byte_of_Z (z : Z) : byte :=
  match Byte.of_N (Z.to_N (z mod 256)) with
  | Some b => b
  | None => Byte.x00
  end.

Definition Z_of_byte (b : byte) : Z := Z.of_N (Byte.to_N b).

(** [binary.LittleEndian.PutUint32] of [uint32(i)]. *)
Definition PutUint32 (i : Z) : list byte :=
  let u := i mod 2 ^ 32 in
  [byte_of_Z u; byte_of_Z (u / 2 ^ 8); byte_of_Z (u / 2 ^ 16); byte_of_Z (u / 2 ^ 24)].

(** [binary.LittleEndian.Uint16] and [Uint32] of the bytes of a slice
    [b[off:off+n]]; taking the slice panics when it leaves the buffer. *)
Definition slice (b : list byte) (lo hi : Z) : outcome (list byte) :=
  if (lo <? 0) || (hi <? lo) || (len b <? hi) then Panic "slice bounds out of range"
  else Ret (take (Z.to_nat (hi - lo)) (drop (Z.to_nat lo) b)).

Definition index (b : list byte) (i : Z) : outcome byte :=
  if i <? 0 then Panic "index out of range"
  else match b !! Z.to_nat i with
       | Some x => Ret x
       | None => Panic "index out of range"
       end.

Fixpoint le_decode (bs : list byte) : Z :=
  match bs with
  | [] => 0
  | x :: bs => Z_of_byte x + 2 ^ 8 * le_decode bs
  end.

Definition Uint16 (bs : list byte) : Z := le_decode (take 2 bs).
Definition Uint32 (bs : list byte) : Z := le_decode (take 4 bs).

(** The conversion [int32(u)] of a [uint32]. *)
Definition int32_of_uint32 (u : Z) : Z := if u <? 2 ^ 31 then u else u - 2 ^ 32.

(** [[]byte(s)] *)
Definition bytes_of_string (s : string) : list byte := list_byte_of_string s.

(** ** float64 *)

(** [float64] values are the primitive binary64 floats; [+], [-], [*], [/]
    on them are the IEEE operations, as in Go. *)

(** The conversion [float64(i)] of an integer. *)
Definition float64_of_int (i : Z) : float :=
  if i <? 0 then PrimFloat.opp (PrimFloat.of_uint63 (Uint63.of_Z (- i)))
  else PrimFloat.of_uint63 (Uint63.of_Z i).

Definition pad_left_zeros (width : nat) (s : string) : string :=
  repeat_string "0" (width - String.length s) +:+ s.

(** The digits of [m * 2^e] with six decimals, the exact value being
    rounded to the nearest multiple of 10^-6, ties to even. *)
Definition fixed6 (m : positive) (e : Z) : string :=
  let num := Z.pos m * 10 ^ 6 * (if 0 <=? e then 2 ^ e else 1) in
  let den := if 0 <=? e then 1 else 2 ^ (- e) in
  let q0 := num / den in
  let r := num mod den in
  let q := if (den <? 2 * r) || ((2 * r =? den) && Z.odd q0) then q0 + 1 else q0 in
  strconv_Itoa (q / 10 ^ 6) +:+ "." +:+ pad_left_zeros 6 (strconv_Itoa (q mod 10 ^ 6)).

(** [fmt.Sprintf] with the verb [%f]: fixed notation with six decimals, [NaN],
    [+Inf] and [-Inf] for the special values. *)
Definition Sprintf_f (x : float) : string :=
  match Prim2SF x with
  | S754_nan => "NaN"
  | S754_infinity false => "+Inf"
  | S754_infinity true => "-Inf"
  | S754_zero false => "0.000000"
  | S754_zero true => "-0.000000"
  | S754_finite false m e => fixed6 m e
  | S754_finite true m e => "-" +:+ fixed6 m e
  end.

(* ===================================================================== *)
(** * The JSON headers of a pnts tile                                     *)
(* ===================================================================== *)

Module Headers.

(** The text [sb] that [generateFeatureTableJson] builds, given the
    characters [pad] that [strings.Repeat] returned for [spaceNo]. *)
Definition featureTableSb (x y z : float) (pointNo : Z) (pad : string) : string :=
  let sb := EmptyString in
  let sb := sb +:+ ("{" +:+ quoted "POINTS_LENGTH" +:+ ":" +:+ strconv_Itoa pointNo +:+ ",") in
  let sb := sb +:+ (quoted "RTC_CENTER" +:+ ":[" +:+ Sprintf_f x +:+ pad) in
  let sb := sb +:+ ("," +:+ Sprintf_f y +:+ "," +:+ Sprintf_f z +:+ "],") in
  let sb := sb +:+ (quoted "POSITION" +:+ ":" +:+ "{" +:+ quoted "byteOffset" +:+ ":" +:+ "0" +:+ "},") in
  let sb := sb +:+ (quoted "RGB" +:+ ":" +:+ "{" +:+ quoted "byteOffset" +:+ ":"
                    +:+ strconv_Itoa (wrap64 (pointNo * 12)) +:+ "}}") in
  sb.

(** [generateFeatureTableJson]: the recursion of the source, one unit of
    fuel per call. *)
Fixpoint generateFeatureTableJson (fuel : nat) (x y z : float) (pointNo spaceNo : Z)
  : outcome string :=
  match fuel with
  | O => OutOfFuel
  | S fuel =>
    pad ← strings_Repeat "0" spaceNo;
    let sb := featureTableSb x y z pointNo pad in
    let headerByteLength := len_string sb in
    let paddingSize := Z.rem headerByteLength 4 in
    if negb (paddingSize =? 0)
    then generateFeatureTableJson fuel x y z pointNo (4 - paddingSize)
    else Ret sb
  end.

(** The text [sb] of [generateBatchTableJson] before the spaces are added. *)
Definition batchTableSb (pointNumber : Z) : string :=
  let sb := EmptyString in
  let sb := sb +:+ ("{" +:+ quoted "INTENSITY" +:+ ":" +:+ "{" +:+ quoted "byteOffset" +:+ ":" +:+ "0"
                    +:+ ", " +:+ quoted "componentType" +:+ ":" +:+ quoted "UNSIGNED_BYTE"
                    +:+ ", " +:+ quoted "type" +:+ ":" +:+ quoted "SCALAR" +:+ "},") in
  let sb := sb +:+ (quoted "CLASSIFICATION" +:+ ":" +:+ "{" +:+ quoted "byteOffset" +:+ ":"
                    +:+ strconv_Itoa pointNumber
                    +:+ ", " +:+ quoted "componentType" +:+ ":" +:+ quoted "UNSIGNED_BYTE"
                    +:+ ", " +:+ quoted "type" +:+ ":" +:+ quoted "SCALAR" +:+ "}}") in
  sb.

(** [generateBatchTableJson]. *)
Fixpoint generateBatchTableJson (fuel : nat) (pointNumber spaceNumber : Z) : outcome string :=
  match fuel with
  | O => OutOfFuel
  | S fuel =>
    spaces ← strings_Repeat " " spaceNumber;
    let sb := batchTableSb pointNumber +:+ spaces in
    let headerByteLength := len_string sb in
    let paddingSize := Z.rem headerByteLength 4 in
    if negb (paddingSize =? 0)
    then generateBatchTableJson fuel pointNumber (4 - paddingSize)
    else Ret sb
  end.

(** The number of padding characters that brings a text of [n] bytes to
    the next multiple of four. *)
Definition padding (n : Z) : Z := (4 - n mod 4) mod 4.

(** The feature table text up to and including the x coordinate of
    [RTC_CENTER], and the text that follows it. *)
Definition featureTableHead (x : float) (pointNo : Z) : string :=
  "{" +:+ quoted "POINTS_LENGTH" +:+ ":" +:+ strconv_Itoa pointNo +:+ ","
  +:+ quoted "RTC_CENTER" +:+ ":[" +:+ Sprintf_f x.

Definition featureTableTail (y z : float) (pointNo : Z) : string :=
  "," +:+ Sprintf_f y +:+ "," +:+ Sprintf_f z +:+ "],"
  +:+ quoted "POSITION" +:+ ":" +:+ "{" +:+ quoted "byteOffset" +:+ ":" +:+ "0" +:+ "},"
  +:+ quoted "RGB" +:+ ":" +:+ "{" +:+ quoted "byteOffset" +:+ ":"
  +:+ strconv_Itoa (wrap64 (pointNo * 12)) +:+ "}}".

(** A header [result] that is the text [base] followed by spaces only, up
    to a length that is a multiple of four. *)
Definition space_padded (base result : string) : Prop :=
  exists k : nat, result = base +:+ repeat_string " " k /\ len_string result mod 4 = 0.

End Headers.


(* ===================================================================== *)
(** * Octree data, as the tile writer reads it                            *)
(* ===================================================================== *)

Module Octree.

(** [octree.OctElement]: a point with its colour, intensity and class.
    The fields X, Y, Z, R, G, B, Intensity and Classification of the
    source carry the prefix [e] here. *)
Record OctElement : Type := {
  eX : float; eY : float; eZ : float;
  eR : byte; eG : byte; eB : byte;
  eIntensity : byte; eClassification : byte
}.

(** [octree.NewOctElement] *)
Definition NewOctElement (x y z : float) (r g b intensity classification : byte) : OctElement :=
  {| eX := x; eY := y; eZ := z; eR := r; eG := g; eB := b;
     eIntensity := intensity; eClassification := classification |}.

(** [structs.Coordinate] *)
Record Coordinate : Type := { cX : float; cY : float; cZ : float }.

(** A [*OctNode]: an address in the store of nodes; [None] is [nil]. *)
Definition ptr : Type := nat.

(** [octree.OctNode], with the fields that the writer reads. The type of
    bounding boxes is left open: the writer only hands boxes to
    [GetVolume], [CanContain] and the coordinate converter. *)
Record OctNode (BBox : Type) : Type := {
  BoundingBox : BBox;
  Children : list (option ptr);
  Items : list OctElement;
  Parent : option ptr;
  LocalChildrenCount : Z;
  GlobalChildrenCount : Z;
  IsLeaf : bool
}.
Arguments BoundingBox {BBox} _.
Arguments Children {BBox} _.
Arguments Items {BBox} _.
Arguments Parent {BBox} _.
Arguments LocalChildrenCount {BBox} _.
Arguments GlobalChildrenCount {BBox} _.
Arguments IsLeaf {BBox} _.

(** [octree.TilerOptions]; only [Srid] is read here. *)
Record TilerOptions : Type := { Srid : Z }.

End Octree.
Export Octree.

(* ===================================================================== *)
(** * The tile writer                                                     *)
(* ===================================================================== *)

(** The float64 operations of [computeGeometricError]. [math.Pow] has no
    primitive counterpart, so the metric is written against this
    interface; it has a binary64 instance (given an implementation of
    [math.Pow]) and an instance over the real numbers. *)
Class Float64 (F : Type) : Type := {
  f64_of_int64 : Z -> F;
  f64_div : F -> F -> F;
  f64_sub : F -> F -> F;
  math_Pow : F -> F -> F;
  f64_0_333 : F
}.

#[local] Set Warnings "-inexact-float".
Definition Float64_binary64 (pow : float -> float -> float) : Float64 float :=
  {| f64_of_int64 := float64_of_int;
     f64_div := PrimFloat.div;
     f64_sub := PrimFloat.sub;
     math_Pow := pow;
     f64_0_333 := 0.333%float |}.
#[local] Set Warnings "inexact-float".

(** Exact arithmetic on the reals, [x^y] being [exp (y * ln x)]. *)
Definition Float64_real : Float64 R :=
  {| f64_of_int64 := IZR;
     f64_div := Rdiv;
     f64_sub := Rminus;
     math_Pow := Rpower;
     f64_0_333 := 0.333%R |}.

Module TileWriter.

(** [io.WorkUnit]; the fields OctNode, Opts and BasePath carry the prefix
    [w]. *)
Record WorkUnit : Type := {
  wOctNode : ptr;
  wOpts : TilerOptions;
  wBasePath : string
}.

(** ** The file system *)

(** The directories that exist, and the files: with each file its
    contents and the permission argument of the call that wrote it last.
    That argument is not the mode of the file: the system gives a file the
    argument less the umask when the call creates it, and leaves the mode
    of a file that exists as it is. The model keeps no modes. *)
Record FileSys : Type := {
  fs_dirs : gset string;
  fs_files : gmap string (list byte * Z)
}.

Definition io (A : Type) : Type := FileSys -> outcome A * FileSys.

Definition io_ret {A} (a : A) : io A := fun fs => (Ret a, fs).

Definition io_lift {A} (o : outcome A) : io A := fun fs => (o, fs).

Definition io_bind {A B} (m : io A) (f : A -> io B) : io B := fun fs =>
  match m fs with
  | (Ret a, fs') => f a fs'
  | (Err e, fs') => (Err e, fs')
  | (Panic msg, fs') => (Panic msg, fs')
  | (Fatal e, fs') => (Fatal e, fs')
  | (OutOfFuel, fs') => (OutOfFuel, fs')
  end.

Notation "x <-- m ;; k" := (io_bind m (fun x => k))
  (at level 100, m at next level, right associativity).

(** The proper ancestors of a slash-separated path, outermost first;
    [acc] is the part of the path that has been read. *)
Fixpoint ancestorsFrom (acc s : string) : list string :=
  match s with
  | EmptyString => []
  | String c rest =>
    if Ascii.eqb c "/"
    then match acc with
         | EmptyString => ancestorsFrom (String c EmptyString) rest
         | _ => acc :: ancestorsFrom (acc +:+ String c EmptyString) rest
         end
    else ancestorsFrom (acc +:+ String c EmptyString) rest
  end.

(** The directories that [os.MkdirAll] sees to: the ancestors of the path
    and the path itself. *)
Definition pathsTo (name : string) : list string :=
  ancestorsFrom EmptyString name ++ [name].

(** [os.IsNotExist] of the error of [os.Stat]. *)
Definition os_IsNotExist (fs : FileSys) (name : string) : bool :=
  negb (bool_decide (name ∈ fs_dirs fs) || bool_decide (is_Some (fs_files fs !! name))).

(** ** The records of tileset.json

    Their declarations are not among the sources; the fields are those
    that [createTilesetJson] assigns. *)
Record Content : Type := { Url : string }.
Record Asset : Type := { Version : string }.
Record BoundingVolume (F : Type) : Type := { Region : list F }.
Arguments Region {F} _.
Record Child (F : Type) : Type := {
  child_Content : Content;
  child_BoundingVolume : BoundingVolume F;
  child_GeometricError : F;
  child_Refine : string
}.
Arguments child_Content {F} _.
Arguments child_BoundingVolume {F} _.
Arguments child_GeometricError {F} _.
Arguments child_Refine {F} _.
Record Root (F : Type) : Type := {
  root_Children : list (Child F);
  root_Content : Content;
  root_BoundingVolume : BoundingVolume F;
  root_GeometricError : F;
  root_Refine : string
}.
Arguments root_Children {F} _.
Arguments root_Content {F} _.
Arguments root_BoundingVolume {F} _.
Arguments root_GeometricError {F} _.
Arguments root_Refine {F} _.
Record Tileset (F : Type) : Type := {
  tileset_Asset : Asset;
  tileset_GeometricError : F;
  tileset_Root : Root F
}.
Arguments tileset_Asset {F} _.
Arguments tileset_GeometricError {F} _.
Arguments tileset_Root {F} _.

(** What a tile-writer worker leaves behind when it returns: the errors
    it sent on the error channel and the number of work units it took
    from the work channel. *)
Record Consumed : Type := { sent : list error; taken : nat }.

Section Writer.

(** The outside world: failures of the operating system, the coordinate
    converter, the geometry of bounding boxes, the JSON encoder, [path.Join]
    and the narrowing of a float64 to the bits of a float32. *)
Context {F : Type} {FO : Float64 F} {BBox : Type}.

(** [MkdirAll_fault fs d]: the error, if any, with which the creation of
    the directory [d] fails in the course of [os.MkdirAll].
    [WriteFile_fault fs name]: the error, if any, with which
    [ioutil.WriteFile] fails on the file, together with what the call had
    done by then: [None] when the file could not be opened, [Some n] when
    it was created or truncated and [n] bytes were written. *)
Variable MkdirAll_fault : FileSys -> string -> option error.
Variable WriteFile_fault : FileSys -> string -> option (error * option nat).
Variable path_Join : string -> string -> string.
Variable ConvertToWGS84Cartesian : Coordinate -> Z -> outcome Coordinate.
Variable Convert2DBoundingboxToWGS84Region : BBox -> Z -> outcome (list F).
Variable GetVolume : BBox -> F.
Variable CanContain : BBox -> OctElement -> bool.
Variable Float32bits : float -> Z.

(** The octree is not modified while tiles are written. *)
Variable nodes : gmap ptr (OctNode BBox).

Definition deref (p : ptr) : outcome (OctNode BBox) :=
  match nodes !! p with
  | Some n => Ret n
  | None => Panic "invalid memory address or nil pointer dereference"
  end.

(** The directories [ds] are seen to one after the other: one that
    exists is left alone, a name that is taken by a file is an error, and
    any other is created, unless the system refuses. What was created
    before a failure stays. *)
Fixpoint mkdirs (ds : list string) : io unit := fun fs =>
  match ds with
  | [] => (Ret tt, fs)
  | d :: ds =>
    if bool_decide (d ∈ fs_dirs fs) then mkdirs ds fs
    else if bool_decide (is_Some (fs_files fs !! d)) then (Err "not a directory", fs)
    else match MkdirAll_fault fs d with
         | Some e => (Err e, fs)
         | None => mkdirs ds {| fs_dirs := {[d]} ∪ fs_dirs fs; fs_files := fs_files fs |}
         end
  end.

(** [os.MkdirAll]: the path with every ancestor that is missing. *)
Definition os_MkdirAll (name : string) : io unit := mkdirs (pathsTo name).

(** [ioutil.WriteFile]: the file is opened for writing, created if it is
    missing and truncated if it is not; the data is written; the file is
    closed. A call that fails after the file was opened leaves the file
    with the bytes written until then. *)
Definition ioutil_WriteFile (name : string) (data : list byte) (perm : Z) : io unit := fun fs =>
  match WriteFile_fault fs name with
  | Some (e, None) => (Err e, fs)
  | Some (e, Some n) =>
    (Err e, {| fs_dirs := fs_dirs fs;
               fs_files := <[name := (take n data, perm)]> (fs_files fs) |})
  | None => (Ret tt, {| fs_dirs := fs_dirs fs; fs_files := <[name := (data, perm)]> (fs_files fs) |})
  end.

(** Modelled from the spec: [utils.ConvertIntToByteArray], which is not
    among the sources; the header fields it writes are 4 bytes wide,
    unsigned and little-endian. *)
Definition ConvertIntToByteArray (i : Z) : list byte := PutUint32 i.

(** Modelled from the spec: [utils.ConvertTruncateFloat64ToFloat32ByteArray],
    which is not among the sources; every coordinate is emitted as a
    float32, little-endian, four bytes each. *)
Definition ConvertTruncateFloat64ToFloat32ByteArray (coords : list float) : list byte :=
  concat (map (fun c => PutUint32 (Float32bits c)) coords).

(** ** content.pnts *)

(** The four slices that the first loop of [writeBinaryPnts] fills. *)
Record Sublists : Type := {
  coords : list float;
  colors : list byte;
  intensities : list byte;
  classifications : list byte
}.

(** The first loop, from index [i] on: each element is converted and its
    properties are stored at their positions. *)
Fixpoint decompose (srid : Z) (items : list OctElement) (i : nat) (acc : Sublists)
  : outcome Sublists :=
  match items with
  | [] => Ret acc
  | element :: rest =>
    let srcCoord := {| cX := eX element; cY := eY element; cZ := eZ element |} in
    outCrd ← ConvertToWGS84Cartesian srcCoord srid;
    let acc :=
      {| coords := <[(i * 3 + 2)%nat := cZ outCrd]>
                     (<[(i * 3 + 1)%nat := cY outCrd]> (<[(i * 3)%nat := cX outCrd]> (coords acc)));
         colors := <[(i * 3 + 2)%nat := eB element]>
                     (<[(i * 3 + 1)%nat := eG element]> (<[(i * 3)%nat := eR element]> (colors acc)));
         intensities := <[i := eIntensity element]> (intensities acc);
         classifications := <[i := eClassification element]> (classifications acc) |} in
    decompose srid rest (S i) acc
  end.

(** The second loop: the running sums of the coordinates. *)
Definition sumCoords (coords : list float) (pointNo : nat) : float * float * float :=
  fold_left
    (fun '(avgX, avgY, avgZ) i =>
       ((avgX + nth (i * 3) coords 0)%float,
        (avgY + nth (i * 3 + 1) coords 0)%float,
        (avgZ + nth (i * 3 + 2) coords 0)%float))
    (seq 0 pointNo) (0%float, 0%float, 0%float).

(** The third loop: coordinates relative to the average. *)
Definition normalize (coords : list float) (pointNo : nat) (avgX avgY avgZ : float) : list float :=
  fold_left
    (fun coords i =>
       let coords := <[(i * 3)%nat := (nth (i * 3) coords 0 - avgX)%float]> coords in
       let coords := <[(i * 3 + 1)%nat := (nth (i * 3 + 1) coords 0 - avgY)%float]> coords in
       <[(i * 3 + 2)%nat := (nth (i * 3 + 2) coords 0 - avgZ)%float]> coords)
    (seq 0 pointNo) coords.

(** The averages [avgX], [avgY], [avgZ] of [writeBinaryPnts]. *)
Definition averages (coords : list float) (pointNo : nat) : float * float * float :=
  let '(avgX, avgY, avgZ) := sumCoords coords pointNo in
  ((avgX / float64_of_int (Z.of_nat pointNo))%float,
   (avgY / float64_of_int (Z.of_nat pointNo))%float,
   (avgZ / float64_of_int (Z.of_nat pointNo))%float).

(** The bytes of the tile: everything [writeBinaryPnts] does between
    choosing the file name and writing the file. *)
Definition pntsBytes (fuel : nat) (srid : Z) (items : list OctElement) : outcome (list byte) :=
  let pointNo := length items in
  let acc := {| coords := replicate (pointNo * 3) 0%float;
                colors := replicate (pointNo * 3) Byte.x00;
                intensities := replicate pointNo Byte.x00;
                classifications := replicate pointNo Byte.x00 |} in
  acc ← decompose srid items 0 acc;
  let '(avgX, avgY, avgZ) := averages (coords acc) pointNo in
  let coords := normalize (coords acc) pointNo avgX avgY avgZ in
  let positionBytes := ConvertTruncateFloat64ToFloat32ByteArray coords in
  featureTableStr ← Headers.generateFeatureTableJson fuel avgX avgY avgZ (Z.of_nat pointNo) 0;
  let featureTableLen := len_string featureTableStr in
  let featureTableBytes := bytes_of_string featureTableStr in
  batchTableStr ← Headers.generateBatchTableJson fuel (Z.of_nat pointNo) 0;
  let batchTableLen := len_string batchTableStr in
  let batchTableBytes := bytes_of_string batchTableStr in
  let outputByte := [] in
  let outputByte := outputByte ++ bytes_of_string "pnts" in
  let outputByte := outputByte ++ ConvertIntToByteArray 1 in
  let byteLength := 28 + featureTableLen + len positionBytes + len (colors acc) in
  let outputByte := outputByte ++ ConvertIntToByteArray byteLength in
  let outputByte := outputByte ++ ConvertIntToByteArray featureTableLen in
  let outputByte := outputByte ++ ConvertIntToByteArray (len positionBytes + len (colors acc)) in
  let outputByte := outputByte ++ ConvertIntToByteArray batchTableLen in
  let outputByte := outputByte
                    ++ ConvertIntToByteArray (len (intensities acc) + len (classifications acc)) in
  let outputByte := outputByte ++ featureTableBytes in
  let outputByte := outputByte ++ positionBytes in
  let outputByte := outputByte ++ colors acc in
  let outputByte := outputByte ++ batchTableBytes in
  let outputByte := outputByte ++ intensities acc in
  let outputByte := outputByte ++ classifications acc in
  Ret outputByte.

(** Creating the base folder when [os.Stat] reports that it is missing. *)
Definition ensureFolder (parentFolder : string) : io unit := fun fs =>
  if os_IsNotExist fs parentFolder then os_MkdirAll parentFolder fs else (Ret tt, fs).

(** [writeBinaryPnts] *)
Definition writeBinaryPnts (fuel : nat) (workUnit : WorkUnit) : io unit :=
  let parentFolder := wBasePath workUnit in
  _ <-- ensureFolder parentFolder ;;
  let pntsFilePath := path_Join parentFolder "content.pnts" in
  node <-- io_lift (deref (wOctNode workUnit)) ;;
  outputByte <-- io_lift (pntsBytes fuel (Srid (wOpts workUnit)) (Items node)) ;;
  ioutil_WriteFile pntsFilePath outputByte 511.

(** ** tileset.json *)

(** [json.MarshalIndent] of a tileset; it fails on values that JSON cannot
    hold. *)
Variable MarshalIndent : Tileset F -> outcome (list byte).

(** The loops of [computeGeometricError]: up the chain of parents, counting
    in each the items that the box can contain. One unit of fuel per
    parent. *)
Fixpoint countRendered (fuel : nat) (bbox : BBox) (parent : option ptr)
  (totalRenderedPoints : Z) : outcome Z :=
  match parent with
  | None => Ret totalRenderedPoints
  | Some p =>
    match fuel with
    | O => OutOfFuel
    | S fuel =>
      parentNode ← deref p;
      let totalRenderedPoints :=
        fold_left (fun total e => if CanContain bbox e then wrap64 (total + 1) else total)
                  (Items parentNode) totalRenderedPoints in
      countRendered fuel bbox (Parent parentNode) totalRenderedPoints
    end
  end.

(** [computeGeometricError] *)
Definition computeGeometricError (fuel : nat) (node : OctNode BBox) : outcome F :=
  let volume := GetVolume (BoundingBox node) in
  let totalRenderedPoints := LocalChildrenCount node in
  totalRenderedPoints ← countRendered fuel (BoundingBox node) (Parent node) totalRenderedPoints;
  let densityWithAllPoints :=
    math_Pow (f64_div volume
                (f64_of_int64
                   (wrap64 (wrap64 (totalRenderedPoints + GlobalChildrenCount node)
                            - LocalChildrenCount node))))
             f64_0_333 in
  let densityWIthOnlyThisTile :=
    math_Pow (f64_div volume (f64_of_int64 totalRenderedPoints)) f64_0_333 in
  Ret (f64_sub densityWIthOnlyThisTile densityWithAllPoints).

(** The [range] loop of [createTilesetJson] over the child slots, from
    slot [i] on. *)
Fixpoint childrenJson (fuel : nat) (srid : Z) (i : Z) (children : list (option ptr))
  (acc : list (Child F)) : outcome (list (Child F)) :=
  match children with
  | [] => Ret acc
  | None :: rest => childrenJson fuel srid (i + 1) rest acc
  | Some c :: rest =>
    child ← deref c;
    if 0 <? GlobalChildrenCount child then
      let filename := if IsLeaf child then "content.pnts" else "tileset.json" in
      let content := {| Url := strconv_Itoa i +:+ "/" +:+ filename |} in
      reg ← Convert2DBoundingboxToWGS84Region (BoundingBox child) srid;
      geometricError ← computeGeometricError fuel child;
      let childJson := {| child_Content := content;
                          child_BoundingVolume := {| Region := reg |};
                          child_GeometricError := geometricError;
                          child_Refine := "add" |} in
      childrenJson fuel srid (i + 1) rest (acc ++ [childJson])
    else childrenJson fuel srid (i + 1) rest acc
  end.

(** The tileset that [createTilesetJson] hands to the JSON encoder. *)
Definition buildTileset (fuel : nat) (node : OctNode BBox) (opts : TilerOptions)
  : outcome (Tileset F) :=
  tilesetError ← computeGeometricError fuel node;
  children ← childrenJson fuel (Srid opts) 0 (Children node) [];
  reg ← Convert2DBoundingboxToWGS84Region (BoundingBox node) (Srid opts);
  rootError ← computeGeometricError fuel node;
  Ret {| tileset_Asset := {| Version := "0.0" |};
         tileset_GeometricError := tilesetError;
         tileset_Root := {| root_Children := children;
                            root_Content := {| Url := "content.pnts" |};
                            root_BoundingVolume := {| Region := reg |};
                            root_GeometricError := rootError;
                            root_Refine := "add" |} |}.

(** [createTilesetJson] *)
Definition createTilesetJson (fuel : nat) (node : OctNode BBox) (opts : TilerOptions)
  : outcome (list byte) :=
  if negb (IsLeaf node) then
    tileset ← buildTileset fuel node opts;
    MarshalIndent tileset
  else Err "this node is a leaf, cannot create tileset json for it".

(** [writeJsonTileset] *)
Definition writeJsonTileset (fuel : nat) (workUnit : WorkUnit) : io unit :=
  let parentFolder := wBasePath workUnit in
  _ <-- ensureFolder parentFolder ;;
  let file := path_Join parentFolder "tileset.json" in
  node <-- io_lift (deref (wOctNode workUnit)) ;;
  jsonData <-- io_lift (createTilesetJson fuel node (wOpts workUnit)) ;;
  ioutil_WriteFile file jsonData 438.

(** ** Workers *)

(** [doWork] *)
Definition doWork (fuel : nat) (workUnit : WorkUnit) : io unit :=
  _ <-- writeBinaryPnts fuel workUnit ;;
  node <-- io_lift (deref (wOctNode workUnit)) ;;
  if negb (IsLeaf node) then writeJsonTileset fuel workUnit else io_ret tt.

(** [Consume], for one worker: [workchan] holds the work units that this
    worker receives, in order, before it finds the channel closed. The
    worker stops at the first unit whose work fails, after sending the
    error. *)
Fixpoint Consume (fuel : nat) (workchan : list WorkUnit) (n : nat) : io Consumed := fun fs =>
  match workchan with
  | [] => (Ret {| sent := []; taken := n |}, fs)
  | work :: workchan =>
    match doWork fuel work fs with
    | (Ret _, fs') => Consume fuel workchan (S n) fs'
    | (Err err, fs') => (Ret {| sent := [err]; taken := S n |}, fs')
    | (Panic msg, fs') => (Panic msg, fs')
    | (Fatal e, fs') => (Fatal e, fs')
    | (OutOfFuel, fs') => (OutOfFuel, fs')
    end
  end.

End Writer.
End TileWriter.

(* ===================================================================== *)
(** * The LAS reader                                                      *)
(* ===================================================================== *)

Module Lidario.

(** [LasHeader], with the fields that the reader for the tiler uses. Its
    declaration is not among the sources; the fields are unsigned in the
    file and are held as integers. *)
Record LasHeader : Type := {
  PointFormatID : Z;
  PointRecordLength : Z;
  NumberPoints : Z;
  OffsetToPoints : Z;
  XScaleFactor : float; YScaleFactor : float; ZScaleFactor : float;
  XOffset : float; YOffset : float; ZOffset : float
}.

(** An open [*os.File], seen through [ReadAt]: asked for [n] bytes at
    offset [off] it delivers the bytes it could read, at most [n], and the
    error it reports, if any. *)
Record File : Type := { ReadAt : Z -> Z -> list byte * option error }.

Definition io_EOF : error := "EOF".

(** A file with the given contents and a sound device: a read that reaches
    the end of the file is short and reports [io.EOF]. *)
Definition fileOfBytes (contents : list byte) : File :=
  {| ReadAt := fun n off =>
       let data := take (Z.to_nat n) (drop (Z.to_nat off) contents) in
       (data, if len data <? n then Some io_EOF else None) |}.

(** A file on a device that fails: the read delivers [data] and reports
    the error [e]. *)
Definition fileFailing (data : list byte) (e : error) : File :=
  {| ReadAt := fun n off => (take (Z.to_nat n) data, Some e) |}.

(** [LasFile], with the fields that the reader for the tiler uses. *)
Record LasFile : Type := {
  fileName : string;
  fileMode : string;
  Header : LasHeader;
  usePointIntensity : bool;
  usePointUserdata : bool
}.

Definition recLengths : list (list Z) :=
  [[20; 18; 19; 17]; [28; 26; 27; 25]; [26; 24; 25; 23]; [34; 32; 33; 31]].

(** [recLengths[id][k]]; an index outside the table panics. *)
Definition recLength (id : Z) (k : nat) : outcome Z :=
  if id <? 0 then Panic "index out of range"
  else match recLengths !! Z.to_nat id with
       | None => Panic "index out of range"
       | Some row =>
         match row !! k with
         | None => Panic "index out of range"
         | Some n => Ret n
         end
       end.

(** The chain of comparisons of the record length with the row of the
    table, which [readForOctree] and [readPointsOctElem] both contain. It
    has no final [else]: when no entry matches, the two flags of [las]
    keep their values. *)
Definition selectOptionalFields (las : LasFile) : outcome LasFile :=
  let h := Header las in
  let set (i u : bool) :=
    {| fileName := fileName las; fileMode := fileMode las; Header := Header las;
       usePointIntensity := i; usePointUserdata := u |} in
  r0 ← recLength (PointFormatID h) 0;
  if PointRecordLength h =? r0 then Ret (set true true) else
  r1 ← recLength (PointFormatID h) 1;
  if PointRecordLength h =? r1 then Ret (set false true) else
  r2 ← recLength (PointFormatID h) 2;
  if PointRecordLength h =? r2 then Ret (set true false) else
  r3 ← recLength (PointFormatID h) 3;
  if PointRecordLength h =? r3 then Ret (set false false) else
  Ret las.

(** The loop of [readPointsOctElem] that cuts the range of point indices
    into blocks [(startingPoint, endingPoint)], ends included, one per
    goroutine. One unit of fuel per block. *)
Fixpoint blocks (fuel : nat) (NumberPoints blockSize startingPoint : Z)
  : outcome (list (Z * Z)) :=
  if startingPoint <? NumberPoints then
    match fuel with
    | O => OutOfFuel
    | S fuel =>
      let endingPoint := startingPoint + blockSize in
      let endingPoint :=
        if NumberPoints <=? endingPoint then NumberPoints - 1 else endingPoint in
      rest ← blocks fuel NumberPoints blockSize (endingPoint + 1);
      Ret ((startingPoint, endingPoint) :: rest)
    end
  else Ret [].

Section Reader.

(** The outside world: opening the file, the header and VLR parsers of the
    library (not among the sources), the projection, the elevation
    correction and the number of processors. *)
Variable os_Open : string -> outcome File.
Variable readHeader : File -> outcome LasHeader.
Variable readVLRs : File -> LasHeader -> outcome unit.
Variable Convert : Z -> Z -> Coordinate -> outcome Coordinate.
Variable zCorrection : float -> float -> float -> float.
Variable inSrid : Z.
Variable NumCPU : Z.

(** The conversion [float64(int32(u))] followed by scaling. *)
Definition scaled (bs : list byte) (scale offset : float) : float :=
  (float64_of_int (int32_of_uint32 (Uint32 bs)) * scale + offset)%float.

(** The body of the inner loop of a worker: the record of point [i] is
    decoded from the buffer [b] and handed to the loader. *)
Definition parsePoint (las : LasFile) (b : list byte) (i : Z) : outcome OctElement :=
  let h := Header las in
  let offset := i * PointRecordLength h in
  bs ← slice b offset (offset + 4);
  let X := scaled bs (XScaleFactor h) (XOffset h) in
  let offset := offset + 4 in
  bs ← slice b offset (offset + 4);
  let Y := scaled bs (YScaleFactor h) (YOffset h) in
  let offset := offset + 4 in
  bs ← slice b offset (offset + 4);
  let Z := scaled bs (ZScaleFactor h) (ZOffset h) in
  let offset := offset + 4 in
  '(Intensity, offset) ←
    (if usePointIntensity las
     then bs ← slice b offset (offset + 2); Ret (byte_of_Z (Uint16 bs / 256), offset + 2)
     else Ret (Byte.x00, offset));
  let offset := offset + 1 in
  Classification ← index b offset;
  let offset := offset + 1 in
  let offset := offset + 1 in
  let offset := if usePointUserdata las then offset + 1 else offset in
  let offset := offset + 2 in
  let offset :=
    if (PointFormatID h =? 1) || (PointFormatID h =? 3) then offset + 8 else offset in
  '(R, G, B) ←
    (if (PointFormatID h =? 2) || (PointFormatID h =? 3)
     then
       bs ← slice b offset (offset + 2);
       let R := byte_of_Z (Uint16 bs / 256) in
       let offset := offset + 2 in
       bs ← slice b offset (offset + 2);
       let G := byte_of_Z (Uint16 bs / 256) in
       let offset := offset + 2 in
       bs ← slice b offset (offset + 2);
       let B := byte_of_Z (Uint16 bs / 256) in
       Ret (R, G, B)
     else Ret (Byte.x00, Byte.x00, Byte.x00));
  match Convert inSrid 4326 {| cX := X; cY := Y; cZ := Z |} with
  | Ret tr =>
    Ret (NewOctElement (cX tr) (cY tr) (zCorrection (cX tr) (cY tr) (cZ tr))
           R G B Intensity Classification)
  | Err err => Fatal err
  | Panic msg => Panic msg
  | Fatal e => Fatal e
  | OutOfFuel => OutOfFuel
  end.

(** A worker: the points [pointSt] to [pointEnd], both included, are
    added to the loader one after the other. *)
Definition worker (las : LasFile) (b : list byte) (loader : list OctElement)
  (block : Z * Z) : outcome (list OctElement) :=
  let '(pointSt, pointEnd) := block in
  fold_left
    (fun acc k =>
       loader ← acc;
       elem ← parsePoint las b (pointSt + Z.of_nat k);
       Ret (loader ++ [elem]))
    (seq 0 (Z.to_nat (pointEnd - pointSt + 1))) (Ret loader).

(** [readPointsOctElem]. The workers are run one after the other, in the
    order in which they were started: the loader receives the points of
    one of the schedules of the goroutines. The value returned is the
    [error] of the source together with the file and the loader as the
    call leaves them. *)
Definition readPointsOctElem (fuel : nat) (las : LasFile) (f : File)
  (loader : list OctElement) : outcome (LasFile * list OctElement) :=
  let h := Header las in
  let pointsLength := NumberPoints h * PointRecordLength h in
  if pointsLength <? 0 then Panic "makeslice: len out of range" else
  let b := replicate (Z.to_nat pointsLength) Byte.x00 in
  let '(data, err) := ReadAt f pointsLength (OffsetToPoints h) in
  let b := take (Z.to_nat pointsLength) (data ++ drop (length data) b) in
  (* the error of ReadAt is tested and then dropped: the return statement
     of the source is commented out *)
  let _ := match err with Some e => negb (String.eqb e io_EOF) | None => false end in
  las ← selectOptionalFields las;
  let numCPUs := NumCPU in
  if numCPUs =? 0 then Panic "integer divide by zero" else
  let blockSize := Z.quot (NumberPoints h) numCPUs in
  bl ← blocks fuel (NumberPoints h) blockSize 0;
  loader ← fold_left (fun acc block => loader ← acc; worker las b loader block)
                     bl (Ret loader);
  Ret (las, loader).

(** [readForOctree] *)
Definition readForOctree (fuel : nat) (las : LasFile) (loader : list OctElement)
  : outcome (LasFile * list OctElement) :=
  f ← os_Open (fileName las);
  header ← readHeader f;
  let las := {| fileName := fileName las; fileMode := fileMode las; Header := header;
                usePointIntensity := usePointIntensity las;
                usePointUserdata := usePointUserdata las |} in
  _ ← readVLRs f header;
  if negb (String.eqb (fileMode las) "rh") then
    las ← selectOptionalFields las;
    readPointsOctElem fuel las f loader
  else Ret (las, loader).

(** The zero value of [LasHeader]. *)
Definition emptyHeader : LasHeader :=
  {| PointFormatID := 0; PointRecordLength := 0; NumberPoints := 0; OffsetToPoints := 0;
     XScaleFactor := 0; YScaleFactor := 0; ZScaleFactor := 0;
     XOffset := 0; YOffset := 0; ZOffset := 0 |}.

(** [NewLasFileForTiler] *)
Definition NewLasFileForTiler (fuel : nat) (fileName : string) (loader : list OctElement)
  : outcome (LasFile * list OctElement) :=
  let las := {| fileName := fileName; fileMode := "r"; Header := emptyHeader;
                usePointIntensity := false; usePointUserdata := false |} in
  readForOctree fuel las loader.

End Reader.

(** The four legal record lengths of a point format. *)
Definition legalLengths (id : Z) : list Z :=
  match recLengths !! Z.to_nat id with
  | Some row => row
  | None => []
  end.

(** The number of records in a block. *)
Definition blockLen (block : Z * Z) : Z := snd block - fst block + 1.

(** Blocks that follow one another from index [st] up to, but not
    including, index [n], none of them empty. *)
Inductive contiguous : Z -> Z -> list (Z * Z) -> Prop :=
| contiguous_nil (n : Z) : contiguous n n []
| contiguous_cons (st en n : Z) (bl : list (Z * Z)) :
    st <= en -> contiguous (en + 1) n bl -> contiguous st n ((st, en) :: bl).

(** Blocks of [size] records each, but for the last one, which has between
    one and [size] records. *)
Fixpoint fullButLast (size : Z) (bl : list (Z * Z)) : Prop :=
  match bl with
  | [] => True
  | b :: rest =>
    match rest with
    | [] => 1 <= blockLen b <= size
    | _ :: _ => blockLen b = size /\ fullButLast size rest
    end
  end.

End Lidario.

(* ===================================================================== *)
(** * The LAS reader that keeps the points in the file structure          *)
(* ===================================================================== *)

(** The sources hold a second version of the reader, in which
    [readPointsOctElem] stores every point at its index in a slice of the
    [LasFile], to be fetched with [GetOctElement]; there is no projection
    and no loader. *)
Module LidarioV1.
Import Lidario.

(** [LasFile] of this version: the fields of [Lidario.LasFile] and the
    slice [pointDataOctElement]. *)
Record LasFile : Type := {
  fields : Lidario.LasFile;
  pointDataOctElement : list OctElement
}.

(** The zero value of [octree.OctElement]. *)
Definition zeroOctElement : OctElement :=
  NewOctElement 0 0 0 Byte.x00 Byte.x00 Byte.x00 Byte.x00 Byte.x00.

(** The assignment [s[i] = x] to an element of a slice. *)
Definition assign {A} (s : list A) (i : Z) (x : A) : outcome (list A) :=
  if (i <? 0) || (len s <=? i) then Panic "index out of range"
  else Ret (<[Z.to_nat i := x]> s).

(** The body of the inner loop of a worker, up to the assignment: the
    record of point [i] is decoded from the buffer [b]. *)
Definition decodePoint (las : Lidario.LasFile) (b : list byte) (i : Z) : outcome OctElement :=
  let h := Header las in
  let offset := i * PointRecordLength h in
  bs ← slice b offset (offset + 4);
  let X := (float64_of_int (int32_of_uint32 (Uint32 bs)) * XScaleFactor h + XOffset h)%float in
  let offset := offset + 4 in
  bs ← slice b offset (offset + 4);
  let Y := (float64_of_int (int32_of_uint32 (Uint32 bs)) * YScaleFactor h + YOffset h)%float in
  let offset := offset + 4 in
  bs ← slice b offset (offset + 4);
  let Z := (float64_of_int (int32_of_uint32 (Uint32 bs)) * ZScaleFactor h + ZOffset h)%float in
  let offset := offset + 4 in
  '(Intensity, offset) ←
    (if usePointIntensity las
     then bs ← slice b offset (offset + 2); Ret (byte_of_Z (Uint16 bs / 256), offset + 2)
     else Ret (Byte.x00, offset));
  let offset := offset + 1 in
  Classification ← index b offset;
  let offset := offset + 1 in
  let offset := offset + 1 in
  let offset := if usePointUserdata las then offset + 1 else offset in
  let offset := offset + 2 in
  let offset :=
    if (PointFormatID h =? 1) || (PointFormatID h =? 3) then offset + 8 else offset in
  '(R, G, B) ←
    (if (PointFormatID h =? 2) || (PointFormatID h =? 3)
     then
       bs ← slice b offset (offset + 2);
       let R := byte_of_Z (Uint16 bs / 256) in
       let offset := offset + 2 in
       bs ← slice b offset (offset + 2);
       let G := byte_of_Z (Uint16 bs / 256) in
       let offset := offset + 2 in
       bs ← slice b offset (offset + 2);
       let B := byte_of_Z (Uint16 bs / 256) in
       Ret (R, G, B)
     else Ret (Byte.x00, Byte.x00, Byte.x00));
  Ret (NewOctElement X Y Z R G B Intensity Classification).

(** A worker: the points [pointSt] to [pointEnd], both included, are
    decoded and stored at their indices. *)
Definition worker (las : Lidario.LasFile) (b : list byte) (data : list OctElement)
  (block : Z * Z) : outcome (list OctElement) :=
  let '(pointSt, pointEnd) := block in
  fold_left
    (fun acc k =>
       data ← acc;
       elem ← decodePoint las b (pointSt + Z.of_nat k);
       assign data (pointSt + Z.of_nat k) elem)
    (seq 0 (Z.to_nat (pointEnd - pointSt + 1))) (Ret data).

Section Reader.

Variable os_Open : string -> outcome File.
Variable readHeader : File -> outcome LasHeader.
Variable readVLRs : File -> LasHeader -> outcome unit.
Variable NumCPU : Z.

(** [readPointsOctElem]; the workers are run one after the other, in the
    order in which they were started. *)
Definition readPointsOctElem (fuel : nat) (las : LasFile) (f : File) : outcome LasFile :=
  let h := Header (fields las) in
  if NumberPoints h <? 0 then Panic "makeslice: len out of range" else
  let data := replicate (Z.to_nat (NumberPoints h)) zeroOctElement in
  let pointsLength := NumberPoints h * PointRecordLength h in
  if pointsLength <? 0 then Panic "makeslice: len out of range" else
  let b := replicate (Z.to_nat pointsLength) Byte.x00 in
  let '(read, err) := ReadAt f pointsLength (OffsetToPoints h) in
  let b := take (Z.to_nat pointsLength) (read ++ drop (length read) b) in
  (* here too the error of ReadAt is tested and dropped *)
  let _ := match err with Some e => negb (String.eqb e io_EOF) | None => false end in
  fl ← selectOptionalFields (fields las);
  let numCPUs := NumCPU in
  if numCPUs =? 0 then Panic "integer divide by zero" else
  let blockSize := Z.quot (NumberPoints h) numCPUs in
  bl ← blocks fuel (NumberPoints h) blockSize 0;
  data ← fold_left (fun acc block => data ← acc; worker fl b data block) bl (Ret data);
  Ret {| fields := fl; pointDataOctElement := data |}.

(** [readForOctree] *)
Definition readForOctree (fuel : nat) (las : LasFile) : outcome LasFile :=
  f ← os_Open (fileName (fields las));
  header ← readHeader f;
  let fl := {| fileName := fileName (fields las); fileMode := fileMode (fields las);
               Header := header;
               usePointIntensity := usePointIntensity (fields las);
               usePointUserdata := usePointUserdata (fields las) |} in
  let las := {| fields := fl; pointDataOctElement := pointDataOctElement las |} in
  _ ← readVLRs f header;
  if negb (String.eqb (fileMode fl) "rh") then
    fl ← selectOptionalFields fl;
    readPointsOctElem fuel {| fields := fl; pointDataOctElement := pointDataOctElement las |} f
  else Ret las.

(** [NewLasFileForTiler] *)
Definition NewLasFileForTiler (fuel : nat) (fileName : string) : outcome LasFile :=
  let las := {| fields := {| Lidario.fileName := fileName; fileMode := "r";
                             Header := emptyHeader;
                             usePointIntensity := false; usePointUserdata := false |};
                pointDataOctElement := [] |} in
  readForOctree fuel las.

End Reader.

(** [GetOctElement]; an index outside the slice panics. *)
Definition GetOctElement (las : LasFile) (index : Z) : outcome OctElement :=
  if index <? 0 then Panic "index out of range"
  else match pointDataOctElement las !! Z.to_nat index with
       | Some e => Ret e
       | None => Panic "index out of range"
       end.

(** [GetOctElements] *)
Definition GetOctElements (las : LasFile) : list OctElement := pointDataOctElement las.

End LidarioV1.

(* ===================================================================== *)
(** * Notions used to state the properties                                *)
(* ===================================================================== *)

(** A call that does not come back with a non-nil [error]. *)
Definition neverErr {A} (o : outcome A) : Prop := forall e : error, o <> Err e.

(** The 32-bit little-endian field that starts at byte [off] of a file. *)
Definition headerField (out : list byte) (off : Z) : Z :=
  Uint32 (drop (Z.to_nat off) out).

(** The parts of a pnts tile: the two JSON headers and the four binary
    arrays. *)
Record PntsLayout : Type := {
  l_featureTable : string;
  l_batchTable : string;
  l_positions : list byte;
  l_colors : list byte;
  l_intensities : list byte;
  l_classifications : list byte
}.

(** The bytes of a tile with the given parts, in the order in which
    [writeBinaryPnts] appends them. *)
Definition layoutBytes (l : PntsLayout) : list byte :=
  bytes_of_string "pnts" ++ TileWriter.ConvertIntToByteArray 1
  ++ TileWriter.ConvertIntToByteArray
       (28 + len_string (l_featureTable l) + len (l_positions l) + len (l_colors l))
  ++ TileWriter.ConvertIntToByteArray (len_string (l_featureTable l))
  ++ TileWriter.ConvertIntToByteArray (len (l_positions l) + len (l_colors l))
  ++ TileWriter.ConvertIntToByteArray (len_string (l_batchTable l))
  ++ TileWriter.ConvertIntToByteArray (len (l_intensities l) + len (l_classifications l))
  ++ bytes_of_string (l_featureTable l) ++ l_positions l ++ l_colors l
  ++ bytes_of_string (l_batchTable l) ++ l_intensities l ++ l_classifications l.

(** The feature table of a tile without points, as the writer produces
    it. *)
Definition emptyTileFeatureTable : string :=
  "{" +:+ quoted "POINTS_LENGTH" +:+ ":0," +:+ quoted "RTC_CENTER" +:+ ":[NaN000,NaN,NaN],"
  +:+ quoted "POSITION" +:+ ":{" +:+ quoted "byteOffset" +:+ ":0},"
  +:+ quoted "RGB" +:+ ":{" +:+ quoted "byteOffset" +:+ ":0}}".

Definition emptyTileLayout : PntsLayout :=
  {| l_featureTable := emptyTileFeatureTable;
     l_batchTable := Headers.batchTableSb 0;
     l_positions := []; l_colors := []; l_intensities := []; l_classifications := [] |}.

(** ** The rendered points of a node *)

Section RenderedPoints.
Context {BBox : Type}.
Variable CanContain : BBox -> OctElement -> bool.
Variable nodes : gmap ptr (OctNode BBox).

(** The chain of ancestors that starts at the pointer [parent]: the node
    it points to, the parent of that node, and so on up to the root. *)
Inductive ancestors : option ptr -> list (OctNode BBox) -> Prop :=
| ancestors_root : ancestors None []
| ancestors_parent (p : ptr) (parent : OctNode BBox) (ps : list (OctNode BBox)) :
    nodes !! p = Some parent -> ancestors (Parent parent) ps ->
    ancestors (Some p) (parent :: ps).

(** The number of items of [n] that lie inside the box. *)
Definition itemsInside (bbox : BBox) (n : OctNode BBox) : Z :=
  len (List.filter (CanContain bbox) (Items n)).

(** The count T of the specification: the local points of the node and,
    for every ancestor, its items inside the box of the node. *)
Definition renderedPoints (node : OctNode BBox) (ps : list (OctNode BBox)) : Z :=
  LocalChildrenCount node + foldr Z.add 0 (map (itemsInside (BoundingBox node)) ps).

(** ** The children that a tileset lists *)




End RenderedPoints.

(** ** The contents of a tile *)

(** The coordinates of a list of points, three numbers per point. *)
Definition xyz (cs : list Coordinate) : list float :=
  flat_map (fun c => [cX c; cY c; cZ c]) cs.

(** The colours of a list of elements, three bytes per element. *)
Definition rgb (items : list OctElement) : list byte :=
  flat_map (fun e => [eR e; eG e; eB e]) items.

(** The centre of a list of points: per axis, the coordinates added up
    from zero in the order of the list, divided by the number of points. *)
Definition centre (cs : list Coordinate) : float * float * float :=
  let n := float64_of_int (len cs) in
  ((fold_left (fun a c => a + cX c) cs 0 / n)%float,
   (fold_left (fun a c => a + cY c) cs 0 / n)%float,
   (fold_left (fun a c => a + cZ c) cs 0 / n)%float).

(** The coordinates of the points relative to a centre. *)
Definition relativeTo (o : float * float * float) (cs : list Coordinate) : list float :=
  flat_map (fun c => [(cX c - o.1.1)%float; (cY c - o.1.2)%float; (cZ c - o.2)%float]) cs.

(** The elements of a node and the coordinates that the converter returns
    for them. *)
Definition convertedTo (ConvertToWGS84Cartesian : Coordinate -> Z -> outcome Coordinate)
    (srid : Z) (items : list OctElement) (cs : list Coordinate) : Prop :=
  Forall2 (fun e c => ConvertToWGS84Cartesian {| cX := eX e; cY := eY e; cZ := eZ e |} srid
                      = Ret c) items cs.

(** ** The records of a LAS file *)

(** The number of bytes of a record that the parser steps over: three
    coordinates, the intensity when it is present, the bit field, the
    classification, the scan angle, the user data when it is present, the
    point source, the GPS time of the formats 1 and 3 and the colour of
    the formats 2 and 3. *)
Definition recordSize (id : Z) (intensity userdata : bool) : Z :=
  4 + 4 + 4 + (if intensity then 2 else 0) + 1 + 1 + 1 + (if userdata then 1 else 0) + 2
  + (if (id =? 1) || (id =? 3) then 8 else 0)
  + (if (id =? 2) || (id =? 3) then 6 else 0).

(** The number of bytes of a record, from its start, that the parser
    reads: up to the classification for the formats 0 and 1, whose later
    fields it only steps over, and up to the colour, at the end of the
    record, for the formats 2 and 3. *)
Definition recordReach (id : Z) (intensity userdata : bool) : Z :=
  if (id =? 2) || (id =? 3) then recordSize id intensity userdata
  else 4 + 4 + 4 + (if intensity then 2 else 0) + 1 + 1.

(** A call that returns a value or panics. *)
Definition halts {A} (o : outcome A) : Prop :=
  (exists a : A, o = Ret a) \/ (exists msg : string, o = Panic msg).

(** The buffer that [readPointsOctElem] parses: the bytes that [ReadAt]
    delivered, followed by the zeros of the fresh slice. *)
Definition pointBuffer (las : Lidario.LasFile) (f : Lidario.File) : list byte :=
  let h := Lidario.Header las in
  let pointsLength := Lidario.NumberPoints h * Lidario.PointRecordLength h in
  let data := (Lidario.ReadAt f pointsLength (Lidario.OffsetToPoints h)).1 in
  take (Z.to_nat pointsLength)
       (data ++ drop (length data) (replicate (Z.to_nat pointsLength) Byte.x00)).

(** The points with the indices [ixs], parsed by [parse] and added to a
    loader one after the other, as long as nothing fails. *)
Definition loadAll (parse : Z -> outcome OctElement) (ixs : list Z)
    (loader : outcome (list OctElement)) : outcome (list OctElement) :=
  fold_left (fun acc i => loader ← acc; elem ← parse i; Ret (loader ++ [elem])) ixs loader.

(** The points with the indices [ixs], decoded by [decode] and stored at
    their indices one after the other, as long as nothing fails. *)
Definition storeAll (decode : Z -> outcome OctElement) (ixs : list Z)
    (data : outcome (list OctElement)) : outcome (list OctElement) :=
  fold_left (fun acc i => data ← acc; elem ← decode i; LidarioV1.assign data i elem) ixs data.

(** The indices of a block. *)
Definition blockIndices (block : Z * Z) : list Z :=
  seqZ block.1 (block.2 - block.1 + 1).


(** ** Work that went well *)

Section WorkDone.
Import TileWriter.
Context {F : Type} {FO : Float64 F} {BBox : Type}.
Variable MkdirAll_fault : FileSys -> string -> option error.
Variable WriteFile_fault : FileSys -> string -> option (error * option nat).
Variable path_Join : string -> string -> string.
Variable ConvertToWGS84Cartesian : Coordinate -> Z -> outcome Coordinate.
Variable Convert2DBoundingboxToWGS84Region : BBox -> Z -> outcome (list F).
Variable GetVolume : BBox -> F.
Variable CanContain : BBox -> OctElement -> bool.
Variable Float32bits : float -> Z.
Variable nodes : gmap ptr (OctNode BBox).
Variable MarshalIndent : Tileset F -> outcome (list byte).
Variable fuel : nat.

(** [allDone us fs fs']: [doWork] succeeds on every unit of [us] in turn,
    taking the file system from [fs] to [fs']. *)
Inductive allDone : list WorkUnit -> FileSys -> FileSys -> Prop :=
| allDone_nil (fs : FileSys) : allDone [] fs fs
| allDone_cons (u : WorkUnit) (us : list WorkUnit) (fs fs1 fs2 : FileSys) :
    doWork MkdirAll_fault WriteFile_fault path_Join ConvertToWGS84Cartesian
      Convert2DBoundingboxToWGS84Region GetVolume CanContain Float32bits nodes
      MarshalIndent fuel u fs = (Ret tt, fs1) ->
    allDone us fs1 fs2 ->
    allDone (u :: us) fs fs2.


End WorkDone.

(* ===================================================================== *)
(** * A small world to run the code in                                    *)
(* ===================================================================== *)

Module Example.
Import TileWriter.

(** An operating system without failures, and one whose disk is too full
    for one file: the file is created and no byte of it is written. *)
Definition noFault {A : Type} : FileSys -> string -> option A := fun _ _ => None.

Definition refuse (name : string) (e : error) : FileSys -> string -> option (error * option nat) :=
  fun _ n => if String.eqb n name then Some (e, Some 0%nat) else None.

(** [path.Join] on a clean directory name and a file name. *)
Definition join (dir name : string) : string := dir +:+ "/" +:+ name.

(** A converter for coordinates that are geocentric already. *)
Definition keep : Coordinate -> Z -> outcome Coordinate := fun c _ => Ret c.

(** A narrowing to float32 that is exact on zero only; the tiles of the
    examples have their points in the origin. *)
Definition zeroBits : float -> Z := fun _ => 0.

Definition emptyDisk : FileSys := {| fs_dirs := ∅; fs_files := ∅ |}.

Definition origin : OctElement :=
  NewOctElement 0 0 0 Byte.x00 Byte.x00 Byte.x00 Byte.x00 Byte.x00.

(** Two leaves. A box is given by its volume. *)
Definition emptyLeaf : OctNode R :=
  {| BoundingBox := 1%R; Children := []; Items := []; Parent := None;
     LocalChildrenCount := 0; GlobalChildrenCount := 0; IsLeaf := true |}.

Definition onePointLeaf : OctNode R :=
  {| BoundingBox := 1%R; Children := []; Items := [origin]; Parent := None;
     LocalChildrenCount := 1; GlobalChildrenCount := 1; IsLeaf := true |}.

Definition leaves : gmap ptr (OctNode R) :=
  {[ 0%nat := emptyLeaf; 1%nat := onePointLeaf ]}.

Definition unit_of (p : ptr) (folder : string) : WorkUnit :=
  {| wOctNode := p; wOpts := {| Srid := 4978 |}; wBasePath := folder |}.

(** ** A tree with boxes: a root with two children

    Every box contains every point. The root holds two points, its first child is a leaf with eight points of
    its own, its second child an inner node with eight points of its own
    and sixty-four below it. *)
Definition root : OctNode R :=
  {| BoundingBox := 64%R; Children := [Some 1%nat; None; Some 2%nat]; Items := [origin; origin];
     Parent := None; LocalChildrenCount := 2; GlobalChildrenCount := 82; IsLeaf := false |}.

Definition firstChild : OctNode R :=
  {| BoundingBox := 8%R; Children := []; Items := []; Parent := Some 0%nat;
     LocalChildrenCount := 8; GlobalChildrenCount := 8; IsLeaf := true |}.

Definition secondChild : OctNode R :=
  {| BoundingBox := 8%R; Children := []; Items := []; Parent := Some 0%nat;
     LocalChildrenCount := 8; GlobalChildrenCount := 72; IsLeaf := false |}.

Definition tree : gmap ptr (OctNode R) :=
  {[ 0%nat := root; 1%nat := firstChild; 2%nat := secondChild ]}.

(** A node without a parent, with eight points of its own out of
    sixty-four, in a box of volume 8. *)
Definition dense : OctNode R :=
  {| BoundingBox := 8%R; Children := []; Items := []; Parent := None;
     LocalChildrenCount := 8; GlobalChildrenCount := 64; IsLeaf := false |}.

Definition volume : R -> R := fun v => v.

Definition everything : R -> OctElement -> bool := fun _ _ => true.

(** A converter of boxes and a JSON encoder whose results are not looked
    at. *)
Definition noRegion : R -> Z -> outcome (list R) := fun _ _ => Ret [].

Definition noJson : Tileset R -> outcome (list byte) := fun _ => Ret [].

(** ** A LAS file with one record of format 0 *)

Definition header (recordLength : Z) : Lidario.LasHeader :=
  {| Lidario.PointFormatID := 0; Lidario.PointRecordLength := recordLength;
     Lidario.NumberPoints := 1; Lidario.OffsetToPoints := 0;
     Lidario.XScaleFactor := 1; Lidario.YScaleFactor := 1; Lidario.ZScaleFactor := 1;
     Lidario.XOffset := 0; Lidario.YOffset := 0; Lidario.ZOffset := 0 |}.

Definition zeros (n : nat) : list byte := replicate n Byte.x00.

(** A header with the given format, record length and number of
    points. *)
Definition headerOf (format recordLength numberPoints : Z) : Lidario.LasHeader :=
  {| Lidario.PointFormatID := format; Lidario.PointRecordLength := recordLength;
     Lidario.NumberPoints := numberPoints; Lidario.OffsetToPoints := 0;
     Lidario.XScaleFactor := 1; Lidario.YScaleFactor := 1; Lidario.ZScaleFactor := 1;
     Lidario.XOffset := 0; Lidario.YOffset := 0; Lidario.ZOffset := 0 |}.

(** The file as [NewLasFileForTiler] sets it up, with a header. *)
Definition lasWith (h : Lidario.LasHeader) : Lidario.LasFile :=
  {| Lidario.fileName := "cloud.las"; Lidario.fileMode := "r"; Lidario.Header := h;
     Lidario.usePointIntensity := false; Lidario.usePointUserdata := false |}.


(** A projection for coordinates that are in EPSG 4326 already, and no
    correction of the elevation. *)
Definition sameCoordinate : Z -> Z -> Coordinate -> outcome Coordinate := fun _ _ c => Ret c.

Definition noCorrection : float -> float -> float -> float := fun _ _ z => z.

End Example.
(* ===================================================================== *)
(** * Facts about strings, bytes and machine integers                     *)
(* ===================================================================== *)

Lemma length_append (s t : string) :
  String.length (s +:+ t) = (String.length s + String.length t)%nat.
Proof.
  induction s as [|c s IH]; [reflexivity|].
  change (String c s +:+ t) with (String c (s +:+ t)). simpl. now rewrite IH.
Qed.

Lemma append_assoc (s t u : string) : (s +:+ t) +:+ u = s +:+ (t +:+ u).
Proof.
  induction s as [|c s IH]; [reflexivity|].
  change (String c s +:+ t) with (String c (s +:+ t)).
  change (String c (s +:+ t) +:+ u) with (String c ((s +:+ t) +:+ u)).
  change (String c s +:+ (t +:+ u)) with (String c (s +:+ (t +:+ u))).
  now rewrite IH.
Qed.

Lemma append_nil_l (s : string) : EmptyString +:+ s = s.
Proof. reflexivity. Qed.

Lemma append_nil_r (s : string) : s +:+ EmptyString = s.
Proof.
  induction s as [|c s IH]; [reflexivity|].
  change (String c s +:+ EmptyString) with (String c (s +:+ EmptyString)).
  now rewrite IH.
Qed.

Lemma len_string_append (s t : string) : len_string (s +:+ t) = len_string s + len_string t.
Proof. unfold len_string. rewrite length_append. lia. Qed.

Lemma repeat_string_length (c : ascii) (n : nat) :
  String.length (repeat_string (String c EmptyString) n) = n.
Proof.
  induction n as [|n IH]; [reflexivity|].
  simpl. rewrite length_append, IH. reflexivity.
Qed.

Lemma strings_Repeat_nonneg (s : string) (count : Z) :
  0 <= count -> strings_Repeat s count = Ret (repeat_string s (Z.to_nat count)).
Proof.
  intros H. unfold strings_Repeat.
  destruct (count <? 0) eqn:E; [apply Z.ltb_lt in E; lia | reflexivity].
Qed.

Lemma bytes_of_string_length (s : string) : length (bytes_of_string s) = String.length s.
Proof.
  unfold bytes_of_string, list_byte_of_string.
  rewrite length_map. induction s as [|c s IH]; simpl; [reflexivity | now rewrite IH].
Qed.

Lemma len_bytes_of_string (s : string) : len (bytes_of_string s) = len_string s.
Proof. unfold len, len_string. now rewrite bytes_of_string_length. Qed.

Lemma PutUint32_length (i : Z) : length (PutUint32 i) = 4%nat.
Proof. reflexivity. Qed.

Lemma Z_of_byte_of_Z (z : Z) : Z_of_byte (byte_of_Z z) = z mod 256.
Proof.
  unfold Z_of_byte, byte_of_Z.
  assert (Hr : 0 <= z mod 256 < 256) by (apply Z.mod_pos_bound; lia).
  destruct (Byte.of_N (Z.to_N (z mod 256))) as [b|] eqn:E.
  - apply Byte.to_of_N in E. rewrite E. lia.
  - apply Byte.of_N_None_iff in E. lia.
Qed.

(** Decoding the four bytes written by [PutUint32] gives the value back,
    reduced to 32 bits. *)
Lemma Uint32_PutUint32 (i : Z) (rest : list byte) :
  Uint32 (PutUint32 i ++ rest) = i mod 2 ^ 32.
Proof.
  unfold Uint32, PutUint32. cbn [take app le_decode].
  rewrite !Z_of_byte_of_Z.
  assert (Hr : 0 <= i mod 2 ^ 32 < 2 ^ 32) by (apply Z.mod_pos_bound; lia).
  set (u := i mod 2 ^ 32) in *. clearbody u.
  change (2 ^ 32) with 4294967296 in Hr.
  change (2 ^ 8) with 256. change (2 ^ 16) with 65536. change (2 ^ 24) with 16777216.
  assert (E1 : u / 65536 = u / 256 / 256) by (rewrite Z.div_div by lia; reflexivity).
  assert (E2 : u / 16777216 = u / 256 / 256 / 256) by (rewrite !Z.div_div by lia; reflexivity).
  rewrite E1, E2.
  pose proof (Z.div_mod u 256 ltac:(lia)).
  pose proof (Z.div_mod (u / 256) 256 ltac:(lia)).
  pose proof (Z.div_mod (u / 256 / 256) 256 ltac:(lia)).
  assert (Hs : (u / 256 / 256 / 256) mod 256 = u / 256 / 256 / 256).
  { apply Z.mod_small. rewrite <- E2.
    split; [apply Z.div_pos; lia | apply Z.div_lt_upper_bound; lia]. }
  rewrite Hs. change (le_decode (take 0 rest)) with 0. lia.
Qed.

Lemma wrap64_small (z : Z) : int64_range z -> wrap64 z = z.
Proof.
  unfold int64_range, wrap64. intros H.
  rewrite Z.mod_small by lia. lia.
Qed.

Lemma Ret_inj {A} (a b : A) : Ret a = Ret b -> a = b.
Proof. intros H. injection H. trivial. Qed.

Lemma rem4_nonneg (n : Z) : 0 <= n -> Z.rem n 4 = n mod 4.
Proof. intros H. apply Z.rem_mod_nonneg; lia. Qed.

(* ===================================================================== *)
(** * The JSON headers                                                    *)
(* ===================================================================== *)

Section HeaderFacts.
Import Headers.

Lemma featureTableSb_split (x y z : float) (pointNo : Z) (pad : string) :
  featureTableSb x y z pointNo pad
  = featureTableHead x pointNo +:+ pad +:+ featureTableTail y z pointNo.
Proof.
  unfold featureTableSb, featureTableHead, featureTableTail.
  rewrite append_nil_l. rewrite !append_assoc. reflexivity.
Qed.

Lemma featureTableSb_len (x y z : float) (pointNo : Z) (pad : string) :
  len_string (featureTableSb x y z pointNo pad)
  = len_string (featureTableSb x y z pointNo EmptyString) + len_string pad.
Proof.
  rewrite !featureTableSb_split, !len_string_append.
  change (len_string EmptyString) with 0. lia.
Qed.

Lemma len_string_nonneg (s : string) : 0 <= len_string s.
Proof. unfold len_string. lia. Qed.

Lemma len_repeat_char (c : ascii) (k : Z) :
  0 <= k -> len_string (repeat_string (String c EmptyString) (Z.to_nat k)) = k.
Proof. intros H. unfold len_string. rewrite repeat_string_length. lia. Qed.

Lemma padding_spec (n : Z) : 0 <= padding n < 4 /\ (n + padding n) mod 4 = 0.
Proof.
  unfold padding.
  pose proof (Z.mod_pos_bound n 4 ltac:(lia)).
  pose proof (Z.mod_pos_bound (4 - n mod 4) 4 ltac:(lia)).
  split; [lia|].
  rewrite Z.add_mod_idemp_r by lia.
  replace (n + (4 - n mod 4)) with (n - n mod 4 + 1 * 4) by lia.
  rewrite Z.mod_add by lia.
  rewrite Zminus_mod_idemp_r, Z.sub_diag. reflexivity.
Qed.

Lemma padding_cases (n : Z) :
  (n mod 4 = 0 /\ padding n = 0) \/ (n mod 4 <> 0 /\ padding n = 4 - n mod 4).
Proof.
  unfold padding. pose proof (Z.mod_pos_bound n 4 ltac:(lia)).
  destruct (Z.eq_dec (n mod 4) 0) as [E|E].
  - left. rewrite E. split; reflexivity.
  - right. split; [assumption|]. apply Z.mod_small. lia.
Qed.

(** Two calls are enough for [generateFeatureTableJson] started with no
    padding: the second call adds exactly the missing characters. *)
Lemma generateFeatureTableJson_result (fuel : nat) (x y z : float) (pointNo : Z) :
  generateFeatureTableJson (S (S fuel)) x y z pointNo 0
  = Ret (featureTableSb x y z pointNo
           (repeat_string "0"
              (Z.to_nat (padding (len_string (featureTableSb x y z pointNo EmptyString)))))).
Proof.
  set (L0 := len_string (featureTableSb x y z pointNo EmptyString)).
  pose proof (len_string_nonneg (featureTableSb x y z pointNo EmptyString)) as HL0.
  fold L0 in HL0.
  pose proof (Z.mod_pos_bound L0 4 ltac:(lia)) as Hm.
  cbn [generateFeatureTableJson].
  rewrite (strings_Repeat_nonneg "0" 0) by lia.
  cbn [mbind outcome_bind]. change (repeat_string "0" (Z.to_nat 0)) with EmptyString.
  fold L0. rewrite (rem4_nonneg L0 HL0).
  destruct (padding_cases L0) as [[E Ep]|[E Ep]]; rewrite Ep.
  - rewrite E. reflexivity.
  - destruct (L0 mod 4 =? 0) eqn:Eb; [apply Z.eqb_eq in Eb; contradiction|].
    cbn [negb]. rewrite strings_Repeat_nonneg by lia.
    cbn [mbind outcome_bind].
    rewrite featureTableSb_len. fold L0.
    rewrite len_repeat_char by lia.
    rewrite rem4_nonneg by lia.
    replace (L0 + (4 - L0 mod 4)) with (L0 - L0 mod 4 + 1 * 4) by lia.
    rewrite Z.mod_add by lia.
    rewrite Zminus_mod_idemp_r, Z.sub_diag. reflexivity.
Qed.

Lemma generateBatchTableJson_result (fuel : nat) (pointNumber : Z) :
  generateBatchTableJson (S (S fuel)) pointNumber 0
  = Ret (batchTableSb pointNumber
         +:+ repeat_string " " (Z.to_nat (padding (len_string (batchTableSb pointNumber))))).
Proof.
  set (L0 := len_string (batchTableSb pointNumber)).
  pose proof (len_string_nonneg (batchTableSb pointNumber)) as HL0. fold L0 in HL0.
  pose proof (Z.mod_pos_bound L0 4 ltac:(lia)) as Hm.
  cbn [generateBatchTableJson].
  rewrite (strings_Repeat_nonneg " " 0) by lia.
  cbn [mbind outcome_bind]. change (repeat_string " " (Z.to_nat 0)) with EmptyString.
  rewrite append_nil_r. fold L0. rewrite (rem4_nonneg L0 HL0).
  destruct (padding_cases L0) as [[E Ep]|[E Ep]]; rewrite Ep.
  - rewrite E. cbn [negb Z.eqb]. change (repeat_string " " (Z.to_nat 0)) with EmptyString.
    now rewrite append_nil_r.
  - destruct (L0 mod 4 =? 0) eqn:Eb; [apply Z.eqb_eq in Eb; contradiction|].
    cbn [negb]. rewrite strings_Repeat_nonneg by lia.
    cbn [mbind outcome_bind].
    rewrite len_string_append. fold L0.
    rewrite len_repeat_char by lia.
    rewrite rem4_nonneg by lia.
    replace (L0 + (4 - L0 mod 4)) with (L0 - L0 mod 4 + 1 * 4) by lia.
    rewrite Z.mod_add by lia.
    rewrite Zminus_mod_idemp_r, Z.sub_diag. reflexivity.
Qed.

Lemma generateFeatureTableJson_len (fuel : nat) (x y z : float) (pointNo : Z) (s : string) :
  generateFeatureTableJson (S (S fuel)) x y z pointNo 0 = Ret s -> len_string s mod 4 = 0.
Proof.
  rewrite generateFeatureTableJson_result. intros H. apply Ret_inj in H. subst s.
  rewrite featureTableSb_len.
  destruct (padding_spec (len_string (featureTableSb x y z pointNo EmptyString))) as [Hk Hm].
  rewrite len_repeat_char by lia. exact Hm.
Qed.

Lemma generateBatchTableJson_len (fuel : nat) (pointNumber : Z) (s : string) :
  generateBatchTableJson (S (S fuel)) pointNumber 0 = Ret s -> len_string s mod 4 = 0.
Proof.
  rewrite generateBatchTableJson_result. intros H. apply Ret_inj in H. subst s.
  rewrite len_string_append.
  destruct (padding_spec (len_string (batchTableSb pointNumber))) as [Hk Hm].
  rewrite len_repeat_char by lia. exact Hm.
Qed.

(** C4, as amended. The batch table is padded with trailing spaces, but the
    feature table is padded with the character 0 inserted right after the
    x coordinate of RTC_CENTER; in both cases the padding is the least
    number of characters (0 to 3) that makes the byte length a multiple of
    four and the rest of the text is the unpadded text. *)
Theorem json_headers_padding (fuel : nat) (x y z : float) (pointNo : Z) :
  let k := padding (len_string (featureTableHead x pointNo +:+ featureTableTail y z pointNo)) in
  let k' := padding (len_string (batchTableSb pointNo)) in
  let ft := featureTableHead x pointNo +:+ repeat_string "0" (Z.to_nat k)
            +:+ featureTableTail y z pointNo in
  let bt := batchTableSb pointNo +:+ repeat_string " " (Z.to_nat k') in
  generateFeatureTableJson (S (S fuel)) x y z pointNo 0 = Ret ft
  /\ generateBatchTableJson (S (S fuel)) pointNo 0 = Ret bt
  /\ len_string ft mod 4 = 0 /\ len_string bt mod 4 = 0
  /\ 0 <= k < 4 /\ 0 <= k' < 4.
Proof.
  intros k k' ft bt.
  assert (Hft : generateFeatureTableJson (S (S fuel)) x y z pointNo 0 = Ret ft).
  { rewrite generateFeatureTableJson_result, !featureTableSb_split.
    rewrite append_nil_l. reflexivity. }
  assert (Hbt : generateBatchTableJson (S (S fuel)) pointNo 0 = Ret bt)
    by apply generateBatchTableJson_result.
  split; [exact Hft|]. split; [exact Hbt|].
  split; [exact (generateFeatureTableJson_len _ _ _ _ _ _ Hft)|].
  split; [exact (generateBatchTableJson_len _ _ _ Hbt)|].
  split; apply padding_spec.
Qed.

(** C4, as stated, fails for the feature table: for one point at the
    origin the unpadded header has 113 bytes and the three padding
    characters are zeros inside the RTC_CENTER array, not spaces. *)
Lemma feature_table_not_space_padded :
  ~ (forall s, generateFeatureTableJson 2 0 0 0 1 0 = Ret s ->
               space_padded (featureTableSb 0 0 0 1 EmptyString) s).
Proof.
  intros H. destruct (H _ eq_refl) as [k [Hk _]].
  assert (Hlen := f_equal String.length Hk).
  rewrite length_append, repeat_string_length in Hlen.
  vm_compute in Hlen.
  assert (k = 3%nat) by lia. subst k.
  vm_compute in Hk. discriminate Hk.
Qed.

End HeaderFacts.

(* ===================================================================== *)
(** * The layout of a pnts tile                                           *)
(* ===================================================================== *)

Lemma headerField_skip4 (p rest : list byte) (off : Z) :
  length p = 4%nat -> 4 <= off -> headerField (p ++ rest) off = headerField rest (off - 4).
Proof.
  intros Hp Hoff. unfold headerField.
  replace (Z.to_nat off) with (length p + Z.to_nat (off - 4))%nat by lia.
  now rewrite drop_app_add.
Qed.

Lemma headerField_PutUint32 (i : Z) (rest : list byte) :
  headerField (PutUint32 i ++ rest) 0 = i mod 2 ^ 32.
Proof. unfold headerField. change (Z.to_nat 0) with 0%nat. rewrite drop_0. apply Uint32_PutUint32. Qed.

Ltac zbool :=
  repeat match goal with
  | H : (_ <? _) = true |- _ => apply Z.ltb_lt in H
  | H : (_ <? _) = false |- _ => apply Z.ltb_ge in H
  | H : (_ <=? _) = true |- _ => apply Z.leb_le in H
  | H : (_ <=? _) = false |- _ => apply Z.leb_gt in H
  | H : (_ =? _) = true |- _ => apply Z.eqb_eq in H
  | H : (_ =? _) = false |- _ => apply Z.eqb_neq in H
  end.

Lemma slice_skip (p rest : list byte) (lo hi : Z) :
  len p <= lo -> slice (p ++ rest) lo hi = slice rest (lo - len p) (hi - len p).
Proof.
  intros Hp. unfold slice, len in *. rewrite length_app.
  assert (E : Z.to_nat lo = (length p + Z.to_nat (lo - Z.of_nat (length p)))%nat) by lia.
  rewrite E, drop_app_add.
  replace (hi - Z.of_nat (length p) - (lo - Z.of_nat (length p))) with (hi - lo) by lia.
  destruct (lo <? 0) eqn:E1, (lo - Z.of_nat (length p) <? 0) eqn:E2,
           (hi <? lo) eqn:E3, (hi - Z.of_nat (length p) <? lo - Z.of_nat (length p)) eqn:E4,
           (Z.of_nat (length p + length rest) <? hi) eqn:E5,
           (Z.of_nat (length rest) <? hi - Z.of_nat (length p)) eqn:E6;
    try reflexivity; zbool; lia.
Qed.

Lemma slice_prefix (mid post : list byte) :
  slice (mid ++ post) 0 (len mid) = Ret mid.
Proof.
  unfold slice, len. rewrite length_app.
  destruct (0 <? 0) eqn:E1; [zbool; lia|].
  destruct (Z.of_nat (length mid) <? 0) eqn:E2; [zbool; lia|].
  destruct (Z.of_nat (length mid + length post) <? Z.of_nat (length mid)) eqn:E3; [zbool; lia|].
  cbn [orb]. change (Z.to_nat 0) with 0%nat. rewrite drop_0.
  replace (Z.to_nat (Z.of_nat (length mid) - 0)) with (length mid) by lia.
  now rewrite take_app_length.
Qed.

Lemma len_app {A} (l k : list A) : len (l ++ k) = len l + len k.
Proof. unfold len. rewrite length_app. lia. Qed.

Lemma len_magic : len (bytes_of_string "pnts") = 4.
Proof. reflexivity. Qed.

Lemma len_ConvertIntToByteArray (i : Z) : len (TileWriter.ConvertIntToByteArray i) = 4.
Proof. reflexivity. Qed.

Ltac skip4 := rewrite headerField_skip4 by (first [reflexivity | lia]).

Lemma layout_field_8 (l : PntsLayout) :
  headerField (layoutBytes l) 8
  = (28 + len_string (l_featureTable l) + len (l_positions l) + len (l_colors l)) mod 2 ^ 32.
Proof.
  unfold layoutBytes. do 2 skip4. change (8 - 4 - 4) with 0. apply headerField_PutUint32.
Qed.

Lemma layout_field_12 (l : PntsLayout) :
  headerField (layoutBytes l) 12 = len_string (l_featureTable l) mod 2 ^ 32.
Proof.
  unfold layoutBytes. do 3 skip4. change (12 - 4 - 4 - 4) with 0. apply headerField_PutUint32.
Qed.

Lemma layout_field_16 (l : PntsLayout) :
  headerField (layoutBytes l) 16 = (len (l_positions l) + len (l_colors l)) mod 2 ^ 32.
Proof.
  unfold layoutBytes. do 4 skip4. change (16 - 4 - 4 - 4 - 4) with 0. apply headerField_PutUint32.
Qed.

Lemma layout_field_20 (l : PntsLayout) :
  headerField (layoutBytes l) 20 = len_string (l_batchTable l) mod 2 ^ 32.
Proof.
  unfold layoutBytes. do 5 skip4. change (20 - 4 - 4 - 4 - 4 - 4) with 0.
  apply headerField_PutUint32.
Qed.

Lemma layout_field_24 (l : PntsLayout) :
  headerField (layoutBytes l) 24 = (len (l_intensities l) + len (l_classifications l)) mod 2 ^ 32.
Proof.
  unfold layoutBytes. do 6 skip4. change (24 - 4 - 4 - 4 - 4 - 4 - 4) with 0.
  apply headerField_PutUint32.
Qed.

Ltac skip_slice4 :=
  rewrite slice_skip by (first [rewrite len_magic | rewrite len_ConvertIntToByteArray]; lia);
  first [rewrite len_magic | rewrite len_ConvertIntToByteArray].

Lemma layout_slice_byteLength (l : PntsLayout) :
  slice (layoutBytes l) 8 12
  = Ret (TileWriter.ConvertIntToByteArray
           (28 + len_string (l_featureTable l) + len (l_positions l) + len (l_colors l))).
Proof.
  unfold layoutBytes. do 2 skip_slice4.
  change (8 - 4 - 4) with 0.
  rewrite <- (len_ConvertIntToByteArray
                (28 + len_string (l_featureTable l) + len (l_positions l) + len (l_colors l))).
  apply slice_prefix.
Qed.

Lemma layout_slice_featureTable (l : PntsLayout) :
  slice (layoutBytes l) 28 (28 + len_string (l_featureTable l))
  = Ret (bytes_of_string (l_featureTable l)).
Proof.
  unfold layoutBytes. pose proof (len_string_nonneg (l_featureTable l)).
  do 7 skip_slice4.
  replace (28 - 4 - 4 - 4 - 4 - 4 - 4 - 4) with 0 by lia.
  replace (28 + len_string (l_featureTable l) - 4 - 4 - 4 - 4 - 4 - 4 - 4)
    with (len (bytes_of_string (l_featureTable l))) by (rewrite len_bytes_of_string; lia).
  apply slice_prefix.
Qed.

Lemma layout_len (l : PntsLayout) :
  len (layoutBytes l)
  = 28 + len_string (l_featureTable l) + len (l_positions l) + len (l_colors l)
    + len_string (l_batchTable l) + len (l_intensities l) + len (l_classifications l).
Proof.
  unfold layoutBytes. rewrite !len_app, !len_bytes_of_string, !len_ConvertIntToByteArray.
  change (len_string "pnts") with 4. lia.
Qed.


(* ===================================================================== *)
(** * writeBinaryPnts                                                     *)
(* ===================================================================== *)

Section WriterFacts.
Import TileWriter Headers.
Context {BBox : Type}.
Variable MkdirAll_fault : FileSys -> string -> option error.
Variable WriteFile_fault : FileSys -> string -> option (error * option nat).
Variable path_Join : string -> string -> string.
Variable ConvertToWGS84Cartesian : Coordinate -> Z -> outcome Coordinate.
Variable Float32bits : float -> Z.
Variable nodes : gmap ptr (OctNode BBox).

Lemma decompose_lengths (srid : Z) (items : list OctElement) (i : nat) (acc acc' : Sublists) :
  decompose ConvertToWGS84Cartesian srid items i acc = Ret acc' ->
  length (coords acc') = length (coords acc)
  /\ length (colors acc') = length (colors acc)
  /\ length (intensities acc') = length (intensities acc)
  /\ length (classifications acc') = length (classifications acc).
Proof.
  revert i acc. induction items as [|element rest IH]; intros i acc H.
  - cbn in H. apply Ret_inj in H. subst acc'. auto.
  - cbn [decompose] in H.
    destruct (ConvertToWGS84Cartesian _ srid) as [outCrd| | | |]; cbn [mbind outcome_bind] in H;
      try discriminate H.
    apply IH in H. cbn [coords colors intensities classifications] in H.
    rewrite !length_insert in H. exact H.
Qed.

Lemma normalize_length (cs : list float) (pointNo : nat) (avgX avgY avgZ : float) :
  length (normalize cs pointNo avgX avgY avgZ) = length cs.
Proof.
  unfold normalize. generalize (seq 0 pointNo) as l. intros l. revert cs.
  induction l as [|i l IH]; intros cs; [reflexivity|].
  cbn [fold_left]. rewrite IH, !length_insert. reflexivity.
Qed.

Lemma ConvertTruncate_length (cs : list float) :
  length (ConvertTruncateFloat64ToFloat32ByteArray Float32bits cs) = (4 * length cs)%nat.
Proof.
  unfold ConvertTruncateFloat64ToFloat32ByteArray.
  induction cs as [|c cs IH]; [reflexivity|].
  cbn [map concat]. rewrite length_app, IH, PutUint32_length. cbn [length]. lia.
Qed.


Lemma pntsBytes_layout (fuel : nat) (srid : Z) (items : list OctElement) (out : list byte) :
  pntsBytes ConvertToWGS84Cartesian Float32bits (S (S fuel)) srid items = Ret out ->
  exists (l : PntsLayout) (x y z : float),
    out = layoutBytes l
    /\ generateFeatureTableJson (S (S fuel)) x y z (len items) 0 = Ret (l_featureTable l)
    /\ generateBatchTableJson (S (S fuel)) (len items) 0 = Ret (l_batchTable l)
    /\ len (l_positions l) = 12 * len items /\ len (l_colors l) = 3 * len items
    /\ len (l_intensities l) = len items /\ len (l_classifications l) = len items.
Proof.
  unfold pntsBytes. intros H.
  destruct (decompose ConvertToWGS84Cartesian srid items 0 _) as [acc| | | |] eqn:Hd;
    cbn [mbind outcome_bind] in H; try discriminate H.
  destruct (averages (coords acc) (length items)) as [[avgX avgY] avgZ].
  fold (len items) in H.
  destruct (generateFeatureTableJson (S (S fuel)) avgX avgY avgZ (len items) 0)
    as [ft| | | |] eqn:Hft; cbn [mbind outcome_bind] in H; try discriminate H.
  destruct (generateBatchTableJson (S (S fuel)) (len items) 0)
    as [bt| | | |] eqn:Hbt; cbn [mbind outcome_bind] in H; try discriminate H.
  apply Ret_inj in H.
  apply decompose_lengths in Hd. cbn [coords colors intensities classifications] in Hd.
  rewrite !length_replicate in Hd. destruct Hd as (Hc & Hk & Hi & Hcl).
  set (pos := ConvertTruncateFloat64ToFloat32ByteArray Float32bits _) in H.
  assert (Hpos : length pos = (4 * (length items * 3))%nat).
  { unfold pos. now rewrite ConvertTruncate_length, normalize_length, Hc. }
  clearbody pos.
  exists {| l_featureTable := ft; l_batchTable := bt; l_positions := pos; l_colors := colors acc;
            l_intensities := intensities acc; l_classifications := classifications acc |}, avgX, avgY, avgZ.
  unfold layoutBytes. cbn [l_featureTable l_batchTable l_positions l_colors l_intensities l_classifications].
  split; [rewrite <- H, <- !app_assoc; reflexivity|].
  split; [exact Hft|]. split; [reflexivity|].
  unfold len. rewrite Hpos, Hk, Hi, Hcl. lia.
Qed.

#[local] Abbreviation writeBinaryPnts' :=
  (writeBinaryPnts MkdirAll_fault WriteFile_fault path_Join ConvertToWGS84Cartesian
     Float32bits nodes).

(** What a successful call of [writeBinaryPnts] has done. *)
Lemma writeBinaryPnts_Ret (fuel : nat) (wu : WorkUnit) (fs fs' : FileSys) (u : unit) :
  writeBinaryPnts' fuel wu fs = (Ret u, fs') ->
  exists (node : OctNode BBox) (out : list byte) (fs1 : FileSys),
    ensureFolder MkdirAll_fault (wBasePath wu) fs = (Ret tt, fs1)
    /\ nodes !! wOctNode wu = Some node
    /\ pntsBytes ConvertToWGS84Cartesian Float32bits fuel (Srid (wOpts wu)) (Items node) = Ret out
    /\ WriteFile_fault fs1 (path_Join (wBasePath wu) "content.pnts") = None
    /\ fs' = {| fs_dirs := fs_dirs fs1;
                fs_files := <[path_Join (wBasePath wu) "content.pnts" := (out, 511)]>
                              (fs_files fs1) |}.
Proof.
  unfold writeBinaryPnts, io_bind, io_lift, deref, ioutil_WriteFile. intros H.
  destruct (ensureFolder MkdirAll_fault (wBasePath wu) fs) as [[[]| | | |] fs1] eqn:He;
    try (inversion H; fail).
  destruct (nodes !! wOctNode wu) as [node|] eqn:Hn; [|inversion H].
  destruct (pntsBytes _ _ fuel _ (Items node)) as [out| | | |] eqn:Hp; try (inversion H; fail).
  destruct (WriteFile_fault fs1 _) as [[e [n|]]|] eqn:Hw; [inversion H | inversion H |].
  exists node, out, fs1. repeat split; try assumption. now inversion H.
Qed.

(** The file that a successful call of [writeBinaryPnts] leaves behind. *)
Lemma writeBinaryPnts_file (fuel : nat) (wu : WorkUnit) (fs fs' : FileSys) (u : unit) :
  writeBinaryPnts' (S (S fuel)) wu fs = (Ret u, fs') ->
  exists (node : OctNode BBox) (l : PntsLayout) (x y z : float),
    nodes !! wOctNode wu = Some node
    /\ fs_files fs' !! path_Join (wBasePath wu) "content.pnts" = Some (layoutBytes l, 511)
    /\ generateFeatureTableJson (S (S fuel)) x y z (len (Items node)) 0 = Ret (l_featureTable l)
    /\ generateBatchTableJson (S (S fuel)) (len (Items node)) 0 = Ret (l_batchTable l)
    /\ len (l_positions l) = 12 * len (Items node) /\ len (l_colors l) = 3 * len (Items node)
    /\ len (l_intensities l) = len (Items node)
    /\ len (l_classifications l) = len (Items node).
Proof.
  intros H. apply writeBinaryPnts_Ret in H.
  destruct H as (node & out & fs1 & _ & Hn & Hp & _ & ->).
  apply pntsBytes_layout in Hp. destruct Hp as (l & x & y & z & -> & Hrest).
  exists node, l, x, y, z. split; [exact Hn|]. split; [|exact Hrest].
  cbn [fs_files]. apply lookup_insert_eq.
Qed.

(** C6. In the content.pnts file that [writeBinaryPnts] writes for a node
    with N items, the four bytes at offset 8 are the encoding of
    28 + featureTableJSONlen + 12 N + 3 N, where featureTableJSONlen is the
    length of the feature table JSON that starts at offset 28; read back as
    a 32-bit little-endian integer the field is that number (reduced modulo
    2^32, the width of the field). *)
Theorem pnts_byteLength_field (fuel : nat) (wu : WorkUnit) (fs fs' : FileSys) :
  writeBinaryPnts' (S (S fuel)) wu fs = (Ret tt, fs') ->
  exists (node : OctNode BBox) (out : list byte) (ft : string) (x y z : float),
    let N := len (Items node) in
    nodes !! wOctNode wu = Some node
    /\ fs_files fs' !! path_Join (wBasePath wu) "content.pnts" = Some (out, 511)
    /\ generateFeatureTableJson (S (S fuel)) x y z N 0 = Ret ft
    /\ slice out 28 (28 + len_string ft) = Ret (bytes_of_string ft)
    /\ slice out 8 12 = Ret (ConvertIntToByteArray (28 + len_string ft + 12 * N + 3 * N))
    /\ headerField out 8 = (28 + len_string ft + 12 * N + 3 * N) mod 2 ^ 32.
Proof.
  intros H. apply writeBinaryPnts_file in H.
  destruct H as (node & l & x & y & z & Hn & Hf & Hft & _ & Hpos & Hcol & _).
  exists node, (layoutBytes l), (l_featureTable l), x, y, z. cbn zeta.
  split; [exact Hn|]. split; [exact Hf|]. split; [exact Hft|].
  split; [apply layout_slice_featureTable|].
  rewrite <- Hpos, <- Hcol.
  split; [apply layout_slice_byteLength | apply layout_field_8].
Qed.

(** C3, as amended. The two JSON length fields (offsets 12 and 20) are
    multiples of 4; the two binary length fields (offsets 16 and 24) hold
    15 N and 2 N, the sizes of the unpadded arrays. *)
Theorem pnts_length_fields (fuel : nat) (wu : WorkUnit) (fs fs' : FileSys) :
  writeBinaryPnts' (S (S fuel)) wu fs = (Ret tt, fs') ->
  exists (node : OctNode BBox) (out : list byte),
    let N := len (Items node) in
    nodes !! wOctNode wu = Some node
    /\ fs_files fs' !! path_Join (wBasePath wu) "content.pnts" = Some (out, 511)
    /\ headerField out 12 mod 4 = 0
    /\ headerField out 20 mod 4 = 0
    /\ headerField out 16 = (15 * N) mod 2 ^ 32
    /\ headerField out 24 = (2 * N) mod 2 ^ 32.
Proof.
  intros H. apply writeBinaryPnts_file in H.
  destruct H as (node & l & x & y & z & Hn & Hf & Hft & Hbt & Hpos & Hcol & Hint & Hcl).
  exists node, (layoutBytes l). cbn zeta.
  split; [exact Hn|]. split; [exact Hf|].
  apply generateFeatureTableJson_len in Hft. apply generateBatchTableJson_len in Hbt.
  rewrite layout_field_12, layout_field_20, layout_field_16, layout_field_24.
  rewrite Hpos, Hcol, Hint, Hcl.
  assert (Hmod : forall a, a mod 4 = 0 -> (a mod 2 ^ 32) mod 4 = 0).
  { intros a Ha. rewrite Z.mod_mod_divide; [exact Ha|]. exists (2 ^ 30). reflexivity. }
  repeat split; try (apply Hmod; assumption); f_equal; lia.
Qed.

Lemma pntsBytes_nil (fuel : nat) (srid : Z) :
  pntsBytes ConvertToWGS84Cartesian Float32bits (S (S fuel)) srid [] = Ret (layoutBytes emptyTileLayout).
Proof. vm_compute. reflexivity. Qed.

(** C10. For a node without items [writeBinaryPnts] meets no error of its
    own: the three averages are 0/0, that is NaN, and, unless creating the
    folder or writing the file fails, the file content.pnts is written with
    a feature table whose RTC_CENTER holds NaN three times. *)
Theorem writeBinaryPnts_empty_node (fuel : nat) (wu : WorkUnit) (node : OctNode BBox)
    (fs fs1 : FileSys) :
  nodes !! wOctNode wu = Some node ->
  Items node = [] ->
  ensureFolder MkdirAll_fault (wBasePath wu) fs = (Ret tt, fs1) ->
  WriteFile_fault fs1 (path_Join (wBasePath wu) "content.pnts") = None ->
  writeBinaryPnts' (S (S fuel)) wu fs
  = (Ret tt, {| fs_dirs := fs_dirs fs1;
                fs_files := <[path_Join (wBasePath wu) "content.pnts"
                              := (layoutBytes emptyTileLayout, 511)]> (fs_files fs1) |})
  /\ averages [] 0 = (nan, nan, nan)
  /\ generateFeatureTableJson (S (S fuel)) nan nan nan 0 0 = Ret emptyTileFeatureTable
  /\ PrimFloat.is_nan (0 / float64_of_int 0) = true.
Proof.
  intros Hn Hi He Hw. split; [|repeat split; vm_compute; reflexivity].
  unfold writeBinaryPnts, io_bind, io_lift, deref, ioutil_WriteFile.
  rewrite He, Hn, Hi, pntsBytes_nil, Hw. reflexivity.
Qed.

End WriterFacts.

(** ** The writer at work on a leaf with one point *)

Section PntsExamples.
Import TileWriter Headers Example.

Lemma pnts_byteLength_field_witness :
  let wu := unit_of 1%nat "out" in
  let run := writeBinaryPnts noFault noFault join keep zeroBits leaves 2%nat wu emptyDisk in
  run = (Ret tt, snd run)
  /\ exists (node : OctNode R) (out : list byte) (ft : string) (x y z : float),
       let N := len (Items node) in
       leaves !! wOctNode wu = Some node
       /\ fs_files (snd run) !! join (wBasePath wu) "content.pnts" = Some (out, 511)
       /\ generateFeatureTableJson 2%nat x y z N 0 = Ret ft
       /\ slice out 28 (28 + len_string ft) = Ret (bytes_of_string ft)
       /\ slice out 8 12 = Ret (ConvertIntToByteArray (28 + len_string ft + 12 * N + 3 * N))
       /\ headerField out 8 = (28 + len_string ft + 12 * N + 3 * N) mod 2 ^ 32.
Proof.
  split; [vm_compute; reflexivity|].
  apply (pnts_byteLength_field noFault noFault join keep zeroBits leaves 0%nat
           (unit_of 1%nat "out") emptyDisk).
  vm_compute. reflexivity.
Defined.

Lemma pnts_length_fields_witness :
  let wu := unit_of 1%nat "out" in
  let run := writeBinaryPnts noFault noFault join keep zeroBits leaves 2%nat wu emptyDisk in
  run = (Ret tt, snd run)
  /\ exists (node : OctNode R) (out : list byte),
       let N := len (Items node) in
       leaves !! wOctNode wu = Some node
       /\ fs_files (snd run) !! join (wBasePath wu) "content.pnts" = Some (out, 511)
       /\ headerField out 12 mod 4 = 0
       /\ headerField out 20 mod 4 = 0
       /\ headerField out 16 = (15 * N) mod 2 ^ 32
       /\ headerField out 24 = (2 * N) mod 2 ^ 32.
Proof.
  split; [vm_compute; reflexivity|].
  apply (pnts_length_fields noFault noFault join keep zeroBits leaves 0%nat
           (unit_of 1%nat "out") emptyDisk).
  vm_compute. reflexivity.
Defined.

(** C3, as stated, fails: in the tile of a leaf with one point the
    feature table binary length (offset 16) is 15 and the batch table
    binary length (offset 24) is 2. *)
Lemma binary_lengths_not_multiples_of_4 :
  let run := writeBinaryPnts noFault noFault join keep zeroBits leaves 2%nat
               (unit_of 1%nat "out") emptyDisk in
  exists out : list byte,
    fst run = Ret tt
    /\ fs_files (snd run) !! "out/content.pnts" = Some (out, 511)
    /\ headerField out 16 = 15 /\ headerField out 24 = 2
    /\ headerField out 16 mod 4 <> 0 /\ headerField out 24 mod 4 <> 0.
Proof.
  eexists. split; [vm_compute; reflexivity|].
  split; [vm_compute; reflexivity|].
  repeat split; vm_compute; congruence.
Qed.

Lemma writeBinaryPnts_empty_node_witness :
  let wu := unit_of 0%nat "out" in
  let fs1 := {| fs_dirs := {["out"]} ∪ ∅; fs_files := ∅ |} in
  writeBinaryPnts noFault noFault join keep zeroBits leaves 2%nat wu emptyDisk
  = (Ret tt, {| fs_dirs := fs_dirs fs1;
                fs_files := <[join (wBasePath wu) "content.pnts"
                              := (layoutBytes emptyTileLayout, 511)]> (fs_files fs1) |})
  /\ averages [] 0 = (nan, nan, nan)
  /\ generateFeatureTableJson 2%nat nan nan nan 0 0 = Ret emptyTileFeatureTable
  /\ PrimFloat.is_nan (0 / float64_of_int 0) = true.
Proof.
  intros wu fs1.
  apply (writeBinaryPnts_empty_node noFault noFault join keep zeroBits leaves 0%nat
           wu emptyLeaf emptyDisk fs1);
    vm_compute; reflexivity.
Defined.

End PntsExamples.

(* ===================================================================== *)
(** * The LAS reader: the blocks of the workers                           *)
(* ===================================================================== *)

Section BlockFacts.
Import Lidario.

Lemma blocks_done (fuel : nat) (N bs : Z) : blocks fuel N bs N = Ret [].
Proof.
  destruct fuel; cbn [blocks]; rewrite Z.ltb_irrefl; reflexivity.
Qed.

Lemma blocks_step (fuel : nat) (N bs st : Z) :
  st < N ->
  blocks (S fuel) N bs st
  = let en := if N <=? st + bs then N - 1 else st + bs in
    rest ← blocks fuel N bs (en + 1); Ret ((st, en) :: rest).
Proof.
  intros H. cbn [blocks]. apply Z.ltb_lt in H. rewrite H. reflexivity.
Qed.

(** From any starting point the loop covers what is left with blocks of
    [bs + 1] records, the last one possibly shorter. *)
Lemma blocks_from (N bs : Z) (fuel : nat) :
  0 <= bs ->
  forall st : Z, 0 <= st <= N -> (Z.to_nat (N - st) <= fuel)%nat ->
  exists bl : list (Z * Z),
    blocks fuel N bs st = Ret bl
    /\ contiguous st N bl
    /\ fullButLast (bs + 1) bl
    /\ len bl = (N - st + bs) / (bs + 1).
Proof.
  intros Hbs. induction fuel as [|fuel IH]; intros st Hst Hfuel.
  - assert (st = N) by lia. subst st. exists []. rewrite blocks_done.
    repeat split; [constructor|].
    replace (N - N + bs) with bs by lia. cbn [length len]. symmetry.
    apply Z.div_small. lia.
  - destruct (Z.eq_dec st N) as [->|Hne].
    + exists []. rewrite blocks_done. repeat split; [constructor|].
      replace (N - N + bs) with bs by lia. cbn [length len]. symmetry.
      apply Z.div_small. lia.
    + rewrite blocks_step by lia. cbn zeta.
      destruct (N <=? st + bs) eqn:E; zbool.
      * replace (N - 1 + 1) with N by lia. rewrite blocks_done. cbn [mbind outcome_bind].
        exists [(st, N - 1)]. split; [reflexivity|].
        split; [constructor; [lia|]; replace (N - 1 + 1) with N by lia; constructor|].
        split; [cbn [fullButLast]; unfold blockLen; cbn [fst snd]; lia|].
        change (len [(st, N - 1)]) with 1.
        apply Z.div_unique with (r := N - st - 1); lia.
      * destruct (IH (st + bs + 1)) as (rest & Hr & Hc & Hf & Hl); [lia|lia|].
        rewrite Hr. cbn [mbind outcome_bind].
        exists ((st, st + bs) :: rest). split; [reflexivity|].
        split; [constructor; [lia|exact Hc]|].
        split.
        { cbn [fullButLast]. destruct rest as [|b rest].
          - unfold blockLen; cbn [fst snd]; lia.
          - split; [unfold blockLen; cbn [fst snd]; lia | exact Hf]. }
        unfold len in *. cbn [length]. rewrite Nat2Z.inj_succ, Hl.
        replace (N - st + bs) with (N - (st + bs + 1) + bs + 1 * (bs + 1)) by lia.
        rewrite Z.div_add by lia. lia.
Qed.

(** C8, as amended. For N >= 1 points and numCPU >= 1 processors the loop
    of [readPointsOctElem] cuts the indices 0 .. N-1 into contiguous
    blocks of N/numCPU + 1 records each, the last block holding what is
    left (at least one record, at most N/numCPU + 1); there are
    ceil (N / (N/numCPU + 1)) blocks, which is at least one and at most
    numCPU. *)
Theorem blocks_partition (N numCPU : Z) (fuel : nat) :
  1 <= N -> 1 <= numCPU -> (Z.to_nat N <= fuel)%nat ->
  let blockSize := Z.quot N numCPU in
  exists bl : list (Z * Z),
    blocks fuel N blockSize 0 = Ret bl
    /\ contiguous 0 N bl
    /\ fullButLast (blockSize + 1) bl
    /\ len bl = (N + blockSize) / (blockSize + 1)
    /\ 1 <= len bl <= numCPU.
Proof.
  intros HN Hc Hfuel blockSize.
  assert (Hq : blockSize = N / numCPU) by (apply Z.quot_div_nonneg; lia).
  assert (Hbs : 0 <= blockSize) by (rewrite Hq; apply Z.div_pos; lia).
  destruct (blocks_from N blockSize fuel Hbs 0) as (bl & Hr & Hct & Hf & Hl);
    [lia | rewrite Z.sub_0_r; exact Hfuel |].
  rewrite Z.sub_0_r in Hl.
  exists bl. repeat split; try assumption; rewrite Hl.
  - apply Z.div_le_lower_bound; lia.
  - assert (N < numCPU * (blockSize + 1)).
    { rewrite Hq. pose proof (Z.div_mod N numCPU ltac:(lia)).
      pose proof (Z.mod_pos_bound N numCPU ltac:(lia)). lia. }
    assert ((N + blockSize) / (blockSize + 1) < numCPU + 1); [|lia].
    apply Z.div_lt_upper_bound; nia.
Qed.

Lemma blocks_partition_witness :
  exists bl : list (Z * Z),
    blocks 10 10 (Z.quot 10 4) 0 = Ret bl
    /\ contiguous 0 10 bl
    /\ fullButLast (Z.quot 10 4 + 1) bl
    /\ len bl = (10 + Z.quot 10 4) / (Z.quot 10 4 + 1)
    /\ 1 <= len bl <= 4.
Proof. apply (blocks_partition 10 4 10); lia. Defined.

(** C8, as stated, fails: eight points on four processors are cut into
    three blocks, of three, three and two records. *)
Lemma blocks_fewer_than_numCPU :
  blocks 8 8 (Z.quot 8 4) 0 = Ret [(0, 2); (3, 5); (6, 7)]
  /\ len [(0, 2); (3, 5); (6, 7)] <> 4.
Proof. split; [reflexivity | discriminate]. Qed.

End BlockFacts.

(* ===================================================================== *)
(** * The LAS reader: errors                                              *)
(* ===================================================================== *)

Lemma neverErr_bind {A B} (m : outcome A) (f : A -> outcome B) :
  neverErr m -> (forall a, neverErr (f a)) -> neverErr (m ≫= f).
Proof.
  intros Hm Hf e. destruct m as [a| e'| | |]; cbn [mbind outcome_bind];
    try discriminate; [apply Hf | exfalso; exact (Hm e' eq_refl)].
Qed.

Lemma neverErr_Ret {A} (a : A) : neverErr (Ret a).
Proof. intros e. discriminate. Qed.

Lemma neverErr_Panic {A} (msg : string) : neverErr (@Panic A msg).
Proof. intros e. discriminate. Qed.

Lemma neverErr_Fatal {A} (e : error) : neverErr (@Fatal A e).
Proof. intros e'. discriminate. Qed.

Lemma neverErr_OutOfFuel {A} : neverErr (@OutOfFuel A).
Proof. intros e'. discriminate. Qed.

Lemma slice_neverErr (b : list byte) (lo hi : Z) : neverErr (slice b lo hi).
Proof. unfold slice. destruct (_ || _); [apply neverErr_Panic | apply neverErr_Ret]. Qed.

Lemma index_neverErr (b : list byte) (i : Z) : neverErr (index b i).
Proof.
  unfold index. destruct (i <? 0); [apply neverErr_Panic|].
  destruct (b !! Z.to_nat i); [apply neverErr_Ret | apply neverErr_Panic].
Qed.

Ltac never_err :=
  repeat first
    [ apply neverErr_Ret | apply neverErr_Panic | apply neverErr_Fatal
    | apply neverErr_OutOfFuel | apply slice_neverErr | apply index_neverErr
    | apply neverErr_bind; [|intros]
    | match goal with
      | |- neverErr (if ?b then _ else _) => destruct b
      | |- neverErr (let '(_, _) := ?p in _) => destruct p
      | |- neverErr (match ?x with _ => _ end) => destruct x
      end ].

Section ReaderFacts.
Import Lidario.
Variable os_Open : string -> outcome File.
Variable readHeader : File -> outcome LasHeader.
Variable readVLRs : File -> LasHeader -> outcome unit.
Variable Convert : Z -> Z -> Coordinate -> outcome Coordinate.
Variable zCorrection : float -> float -> float -> float.
Variable inSrid : Z.
Variable NumCPU : Z.

#[local] Abbreviation readPointsOctElem' := (readPointsOctElem Convert zCorrection inSrid NumCPU).
#[local] Abbreviation readForOctree' :=
  (readForOctree os_Open readHeader readVLRs Convert zCorrection inSrid NumCPU).

Lemma recLength_neverErr (id : Z) (k : nat) : neverErr (recLength id k).
Proof. unfold recLength. never_err. Qed.

Lemma selectOptionalFields_neverErr (las : LasFile) : neverErr (selectOptionalFields las).
Proof.
  unfold selectOptionalFields.
  repeat (apply neverErr_bind; [apply recLength_neverErr | intros ?];
          match goal with |- neverErr (if ?b then _ else _) => destruct b end;
          [apply neverErr_Ret|]).
  apply neverErr_Ret.
Qed.

Lemma blocks_neverErr (fuel : nat) (N bs st : Z) : neverErr (blocks fuel N bs st).
Proof.
  revert st. induction fuel as [|fuel IH]; intros st; cbn [blocks].
  - never_err.
  - destruct (st <? N); [|apply neverErr_Ret].
    apply neverErr_bind; [apply IH | intros; apply neverErr_Ret].
Qed.

Lemma parsePoint_neverErr (las : LasFile) (b : list byte) (i : Z) :
  neverErr (parsePoint Convert zCorrection inSrid las b i).
Proof. unfold parsePoint. never_err. Qed.

Lemma worker_neverErr (las : LasFile) (b : list byte) (loader : list OctElement)
    (block : Z * Z) :
  neverErr (worker Convert zCorrection inSrid las b loader block).
Proof.
  unfold worker. destruct block as [pointSt pointEnd].
  generalize (seq 0 (Z.to_nat (pointEnd - pointSt + 1))) as l.
  assert (H : neverErr (Ret loader : outcome (list OctElement))) by apply neverErr_Ret.
  revert H. generalize (Ret loader : outcome (list OctElement)) as acc.
  intros acc H l. revert acc H. induction l as [|k l IH]; intros acc H; [exact H|].
  cbn [fold_left]. apply IH.
  apply neverErr_bind; [exact H | intros].
  apply neverErr_bind; [apply parsePoint_neverErr | intros; apply neverErr_Ret].
Qed.

(** [readPointsOctElem] has no path on which it returns an error. *)
Lemma readPointsOctElem_neverErr (fuel : nat) (las : LasFile) (f : File)
    (loader : list OctElement) :
  neverErr (readPointsOctElem' fuel las f loader).
Proof.
  unfold readPointsOctElem.
  destruct (_ <? 0); [apply neverErr_Panic|].
  destruct (ReadAt f _ _) as [data err].
  apply neverErr_bind; [apply selectOptionalFields_neverErr | intros las'].
  destruct (NumCPU =? 0); [apply neverErr_Panic|].
  apply neverErr_bind; [apply blocks_neverErr | intros bl].
  apply neverErr_bind; [|intros; apply neverErr_Ret].
  assert (H : neverErr (Ret loader : outcome (list OctElement))) by apply neverErr_Ret.
  revert H. generalize (Ret loader : outcome (list OctElement)) as acc.
  induction bl as [|block bl IH]; intros acc H; [exact H|].
  cbn [fold_left]. apply IH.
  apply neverErr_bind; [exact H | intros; apply worker_neverErr].
Qed.

(** A record length outside the row of the format leaves the two flags
    as they are. *)
Lemma selectOptionalFields_mismatch (las : LasFile) :
  0 <= PointFormatID (Header las) <= 3 ->
  ~ In (PointRecordLength (Header las)) (legalLengths (PointFormatID (Header las))) ->
  selectOptionalFields las = Ret las.
Proof.
  intros Hid Hlen. unfold selectOptionalFields.
  assert (Hc : PointFormatID (Header las) = 0 \/ PointFormatID (Header las) = 1
               \/ PointFormatID (Header las) = 2 \/ PointFormatID (Header las) = 3) by lia.
  destruct Hc as [E|[E|[E|E]]]; rewrite E in *;
    match type of Hlen with
    | context [legalLengths ?i] =>
      let t := eval vm_compute in (legalLengths i) in change (legalLengths i) with t in Hlen
    end; cbn [In] in Hlen;
    repeat match goal with
    | |- context [recLength ?i ?k] =>
      let t := eval vm_compute in (recLength i k) in change (recLength i k) with t
    end; cbn [mbind outcome_bind];
    repeat match goal with
    | |- context [?a =? ?b] => destruct (a =? b) eqn:?; zbool; [lia|]
    end; reflexivity.
Qed.

(** The data that [ReadAt] delivers is all that [readPointsOctElem] uses of
    its result: the error it reports plays no part. *)
Lemma readPointsOctElem_ReadAt_data (fuel : nat) (las : LasFile) (f f' : File)
    (loader : list OctElement) :
  (let h := Header las in
   fst (ReadAt f (NumberPoints h * PointRecordLength h) (OffsetToPoints h))
   = fst (ReadAt f' (NumberPoints h * PointRecordLength h) (OffsetToPoints h))) ->
  readPointsOctElem' fuel las f loader = readPointsOctElem' fuel las f' loader.
Proof.
  cbn zeta. intros H. unfold readPointsOctElem.
  destruct (ReadAt f _ _) as [data err], (ReadAt f' _ _) as [data' err'].
  cbn [fst] in H. subst data'. reflexivity.
Qed.

End ReaderFacts.

Section ReaderExamples.
Import Lidario Example.

(** C1, as stated, fails: a file of format 0 whose records are 21 bytes
    long, which is none of 20, 18, 19 and 17, is read without an error and
    its point is handed to the loader. *)
Lemma mismatched_record_length_is_read :
  0 <= PointFormatID (header 21) <= 3
  /\ ~ In (PointRecordLength (header 21)) (legalLengths (PointFormatID (header 21)))
  /\ exists las : LasFile,
       NewLasFileForTiler (fun _ => Ret (fileOfBytes (zeros 21))) (fun _ => Ret (header 21))
         (fun _ _ => Ret tt) sameCoordinate noCorrection 4326 1 1 "cloud.las" []
       = Ret (las, [origin]).
Proof.
  split; [vm_compute; split; discriminate|].
  split; [vm_compute; intuition discriminate|].
  eexists. vm_compute. reflexivity.
Qed.

(** C2: the code at a failing read. The device delivers no byte and
    reports an error other than the end of the file; [readPointsOctElem]
    returns without an error all the same, and the loader receives the
    point that the untouched buffer of zeros decodes to. *)
Theorem failed_bulk_read_is_parsed :
  let las := {| fileName := "cloud.las"; fileMode := "r"; Header := header 20;
                usePointIntensity := false; usePointUserdata := false |} in
  let f := fileFailing [] "input/output error" in
  ReadAt f 20 0 = ([], Some "input/output error")
  /\ exists las' : LasFile,
       readPointsOctElem sameCoordinate noCorrection 4326 1 1 las f []
       = Ret (las', [origin]).
Proof.
  split; [reflexivity|]. eexists. vm_compute. reflexivity.
Qed.

End ReaderExamples.

(* ===================================================================== *)
(** * computeGeometricError                                               *)
(* ===================================================================== *)

Section GeometricErrorFacts.
Import TileWriter.
Context {F : Type} {FO : Float64 F} {BBox : Type}.
Variable GetVolume : BBox -> F.
Variable CanContain : BBox -> OctElement -> bool.
Variable nodes : gmap ptr (OctNode BBox).

Lemma len_nonneg {A} (l : list A) : 0 <= len l.
Proof. unfold len. lia. Qed.

(** The inner loop counts the items inside the box, as long as the
    counter stays below 2^63. *)
Lemma count_items (bbox : BBox) (items : list OctElement) (total : Z) :
  - 2 ^ 63 <= total ->
  total + len (List.filter (CanContain bbox) items) < 2 ^ 63 ->
  fold_left (fun total e => if CanContain bbox e then wrap64 (total + 1) else total) items total
  = total + len (List.filter (CanContain bbox) items).
Proof.
  revert total. induction items as [|e items IH]; intros total Hlo Hhi.
  - cbn. unfold len. cbn. lia.
  - cbn [fold_left List.filter] in *. destruct (CanContain bbox e).
    + pose proof (len_nonneg (List.filter (CanContain bbox) items)).
      unfold len in *. cbn [length] in Hhi. rewrite Nat2Z.inj_succ in Hhi.
      rewrite wrap64_small by (unfold int64_range; lia).
      rewrite IH by lia. cbn [length]. lia.
    + apply IH; assumption.
Qed.

Lemma itemsInside_nonneg (bbox : BBox) (n : OctNode BBox) : 0 <= itemsInside CanContain bbox n.
Proof. apply len_nonneg. Qed.

Lemma sum_inside_nonneg (bbox : BBox) (ps : list (OctNode BBox)) :
  0 <= foldr Z.add 0 (map (itemsInside CanContain bbox) ps).
Proof.
  induction ps as [|p ps IH]; cbn [map foldr]; [lia|].
  pose proof (itemsInside_nonneg bbox p). lia.
Qed.

(** The outer loop: one unit of fuel per ancestor is enough, and the
    result is the starting count plus the items of the ancestors that lie
    inside the box. *)
Lemma countRendered_ancestors (bbox : BBox) (parent : option ptr) (ps : list (OctNode BBox)) :
  ancestors nodes parent ps ->
  forall (fuel : nat) (total : Z),
    (length ps <= fuel)%nat ->
    - 2 ^ 63 <= total ->
    total + foldr Z.add 0 (map (itemsInside CanContain bbox) ps) < 2 ^ 63 ->
    countRendered CanContain nodes fuel bbox parent total
    = Ret (total + foldr Z.add 0 (map (itemsInside CanContain bbox) ps)).
Proof.
  induction 1 as [|p parent ps Hp Hanc IH]; intros fuel total Hfuel Hlo Hhi.
  - destruct fuel; cbn; f_equal; lia.
  - destruct fuel as [|fuel]; [cbn in Hfuel; lia|].
    cbn [countRendered]. unfold deref. rewrite Hp. cbn [mbind outcome_bind].
    cbn [map foldr] in Hhi |- *.
    pose proof (sum_inside_nonneg bbox ps).
    pose proof (itemsInside_nonneg bbox parent).
    unfold itemsInside in *.
    rewrite count_items by lia.
    rewrite IH; [f_equal; lia | cbn in Hfuel; lia | lia | lia].
Qed.

(** C5, as amended. With T the local points of the node plus the items of
    its ancestors that lie inside its box, and V the volume of the box,
    [computeGeometricError] returns
    Pow (V / T, 0.333) - Pow (V / (T + global - local), 0.333):
    the exponent is the constant 0.333, not one third. The counts are
    64-bit integers; the statement is for counts in that range. *)
Theorem computeGeometricError_formula (fuel : nat) (node : OctNode BBox)
    (ps : list (OctNode BBox)) :
  ancestors nodes (Parent node) ps ->
  (length ps <= fuel)%nat ->
  let T := renderedPoints CanContain node ps in
  let V := GetVolume (BoundingBox node) in
  int64_range (LocalChildrenCount node) ->
  int64_range T ->
  int64_range (T + GlobalChildrenCount node) ->
  int64_range (T + GlobalChildrenCount node - LocalChildrenCount node) ->
  computeGeometricError GetVolume CanContain nodes fuel node
  = Ret (f64_sub
           (math_Pow (f64_div V (f64_of_int64 T)) f64_0_333)
           (math_Pow (f64_div V (f64_of_int64
                                   (T + GlobalChildrenCount node - LocalChildrenCount node)))
                     f64_0_333)).
Proof.
  intros Hanc Hfuel T V HL HT HTG HD. unfold computeGeometricError.
  rewrite (countRendered_ancestors _ _ ps Hanc);
    [| exact Hfuel | unfold int64_range in HL; lia
     | unfold T, renderedPoints, int64_range in HT; lia].
  cbn [mbind outcome_bind]. fold (renderedPoints CanContain node ps). fold T.
  rewrite (wrap64_small (T + GlobalChildrenCount node)) by exact HTG.
  rewrite wrap64_small by exact HD. reflexivity.
Qed.

End GeometricErrorFacts.

Section GeometricErrorExamples.
Import TileWriter Example.

Lemma computeGeometricError_formula_witness :
  computeGeometricError (FO := Float64_real) volume everything tree 1 firstChild
  = Ret (Rpower (8 / IZR 10) 0.333 - Rpower (8 / IZR (10 + 8 - 8)) 0.333)%R.
Proof.
  apply (computeGeometricError_formula (FO := Float64_real) volume everything tree 1%nat
           firstChild [root]).
  - apply ancestors_parent; [reflexivity | apply ancestors_root].
  - cbn. lia.
  - vm_compute. split; [discriminate | reflexivity].
  - vm_compute. split; [discriminate | reflexivity].
  - vm_compute. split; [discriminate | reflexivity].
  - vm_compute. split; [discriminate | reflexivity].
Defined.

Lemma ln_half_negative : (ln (/ 2) < 0)%R.
Proof. rewrite <- ln_1. apply ln_increasing; lra. Qed.

(** The power 0.333 of one eighth is not one half. *)
Lemma Rpower_eighth : Rpower (/ 8) 0.333 <> (/ 2)%R.
Proof.
  intros H. apply (f_equal ln) in H. unfold Rpower in H. rewrite ln_exp in H.
  assert (E : ln (/ 8) = (3 * ln (/ 2))%R).
  { replace (/ 8)%R with (/ 2 * (/ 2 * / 2))%R by lra.
    rewrite !ln_mult by lra. lra. }
  rewrite E in H. pose proof ln_half_negative. lra.
Qed.

(** C5, as stated, fails in exact arithmetic already. For a node without
    a parent, with 8 local points out of 64 in a box of volume 8, the cube
    root of V/T = 1 is 1 and the cube root of V/(T + global - local) = 1/8
    is 1/2, but the value computed is not 1 - 1/2. *)
Lemma geometric_error_not_cube_root :
  exists r : R,
    computeGeometricError (FO := Float64_real) volume everything ∅ 0 dense = Ret r
    /\ renderedPoints everything dense [] = 8
    /\ (1 * 1 * 1 = 8 / IZR 8)%R
    /\ (/ 2 * / 2 * / 2 = 8 / IZR (8 + 64 - 8))%R
    /\ r <> (1 - / 2)%R.
Proof.
  eexists. split; [reflexivity|].
  split; [reflexivity|].
  split; [lra|]. split; [change (8 + 64 - 8) with 64; lra|].
  cbn [f64_sub f64_div f64_of_int64 math_Pow f64_0_333 Float64_real volume dense BoundingBox
       LocalChildrenCount GlobalChildrenCount].
  change (wrap64 (wrap64 (8 + 64) - 8)) with 64.
  intros H.
  assert (E1 : Rpower (8 / 8) 0.333 = 1%R).
  { replace (8 / 8)%R with 1%R by lra. unfold Rpower. rewrite ln_1, Rmult_0_r. apply exp_0. }
  assert (E2 : (8 / 64 = / 8)%R) by lra.
  rewrite E1, E2 in H. apply Rpower_eighth. lra.
Qed.

End GeometricErrorExamples.

(* ===================================================================== *)
(** * createTilesetJson, doWork and Consume                               *)
(* ===================================================================== *)

Section TilesetFacts.
Import TileWriter.
Context {F : Type} {FO : Float64 F} {BBox : Type}.
Variable MkdirAll_fault : FileSys -> string -> option error.
Variable WriteFile_fault : FileSys -> string -> option (error * option nat).
Variable path_Join : string -> string -> string.
Variable ConvertToWGS84Cartesian : Coordinate -> Z -> outcome Coordinate.
Variable Convert2DBoundingboxToWGS84Region : BBox -> Z -> outcome (list F).
Variable GetVolume : BBox -> F.
Variable CanContain : BBox -> OctElement -> bool.
Variable Float32bits : float -> Z.
Variable nodes : gmap ptr (OctNode BBox).
Variable MarshalIndent : Tileset F -> outcome (list byte).

#[local] Abbreviation createTilesetJson' :=
  (createTilesetJson Convert2DBoundingboxToWGS84Region GetVolume CanContain nodes MarshalIndent).
#[local] Abbreviation childrenJson' :=
  (childrenJson Convert2DBoundingboxToWGS84Region GetVolume CanContain nodes).
#[local] Abbreviation doWork' :=
  (doWork MkdirAll_fault WriteFile_fault path_Join ConvertToWGS84Cartesian
     Convert2DBoundingboxToWGS84Region GetVolume CanContain Float32bits nodes MarshalIndent).
#[local] Abbreviation writeBinaryPnts'' :=
  (writeBinaryPnts MkdirAll_fault WriteFile_fault path_Join ConvertToWGS84Cartesian
     Float32bits nodes).
#[local] Abbreviation Consume' :=
  (Consume MkdirAll_fault WriteFile_fault path_Join ConvertToWGS84Cartesian
     Convert2DBoundingboxToWGS84Region GetVolume CanContain Float32bits nodes MarshalIndent).





(** A worker that meets no failing unit takes them all and sends
    nothing; its count starts at [n]. *)
Lemma Consume_allDone (fuel : nat) (us : list WorkUnit) (fs fs' : FileSys) :
  allDone MkdirAll_fault WriteFile_fault path_Join ConvertToWGS84Cartesian
    Convert2DBoundingboxToWGS84Region GetVolume CanContain Float32bits nodes MarshalIndent
    fuel us fs fs' ->
  forall (post : list WorkUnit) (n : nat),
    Consume' fuel (us ++ post) n fs = Consume' fuel post (n + length us) fs'.
Proof.
  induction 1 as [fs|u us fs fs1 fs2 Hu Hus IH]; intros post n.
  - cbn [app length]. now rewrite Nat.add_0_r.
  - cbn [app Consume length]. rewrite Hu. rewrite IH. f_equal. lia.
Qed.

(** C9. A worker that receives the units [pre], on which the work
    succeeds, and then a unit [u] on which it fails with [e], sends [e]
    once, has taken no unit after [u] and leaves the file system as the
    failed unit left it, whatever units [post] were still to come. A
    worker that finds the channel closed after [pre] sends nothing. *)
Theorem Consume_first_error (fuel : nat) (pre : list WorkUnit) (n : nat) (fs fs1 : FileSys) :
  allDone MkdirAll_fault WriteFile_fault path_Join ConvertToWGS84Cartesian
    Convert2DBoundingboxToWGS84Region GetVolume CanContain Float32bits nodes MarshalIndent
    fuel pre fs fs1 ->
  Consume' fuel pre n fs = (Ret {| sent := []; taken := n + length pre |}, fs1)
  /\ forall (u : WorkUnit) (post : list WorkUnit) (e : error) (fs2 : FileSys),
       doWork' fuel u fs1 = (Err e, fs2) ->
       Consume' fuel (pre ++ u :: post) n fs
       = (Ret {| sent := [e]; taken := n + length pre + 1 |}, fs2).
Proof.
  intros Hpre. split.
  - rewrite <- (app_nil_r pre) at 1. rewrite (Consume_allDone fuel pre fs fs1 Hpre).
    reflexivity.
  - intros u post e fs2 Hu. rewrite (Consume_allDone fuel pre fs fs1 Hpre).
    cbn [Consume]. rewrite Hu. do 3 f_equal. lia.
Qed.

End TilesetFacts.

Section TilesetExamples.
Import TileWriter Example.


Lemma Consume_first_error_witness :
  let work := doWork (FO := Float64_real) noFault (refuse "b/content.pnts" "disk full") join
                keep noRegion volume everything zeroBits leaves noJson 2 in
  let consume := Consume (FO := Float64_real) noFault (refuse "b/content.pnts" "disk full") join
                   keep noRegion volume everything zeroBits leaves noJson 2 in
  let fs1 := snd (work (unit_of 0%nat "a") emptyDisk) in
  let fs2 := snd (work (unit_of 1%nat "b") fs1) in
  consume [unit_of 0%nat "a"] 0%nat emptyDisk
  = (Ret {| sent := []; taken := 0 + length [unit_of 0%nat "a"] |}, fs1)
  /\ consume ([unit_of 0%nat "a"] ++ unit_of 1%nat "b" :: [unit_of 0%nat "c"]) 0%nat emptyDisk
     = (Ret {| sent := ["disk full"]; taken := 0 + length [unit_of 0%nat "a"] + 1 |}, fs2).
Proof.
  intros work consume fs1 fs2.
  assert (Hall : allDone (FO := Float64_real) noFault (refuse "b/content.pnts" "disk full") join
                   keep noRegion volume everything zeroBits leaves noJson 2
                   [unit_of 0%nat "a"] emptyDisk fs1).
  { eapply allDone_cons; [|apply allDone_nil]. vm_compute. reflexivity. }
  destruct (Consume_first_error (FO := Float64_real) noFault
              (refuse "b/content.pnts" "disk full") join keep noRegion volume everything
              zeroBits leaves noJson 2 [unit_of 0%nat "a"] 0 emptyDisk fs1 Hall) as [H1 H2].
  split; [exact H1|]. apply H2. vm_compute. reflexivity.
Defined.

End TilesetExamples.

(* ===================================================================== *)
(** * More on the tile writer                                             *)
(* ===================================================================== *)

Section WriterMore.
Import TileWriter Headers.
Context {F : Type} {FO : Float64 F} {BBox : Type}.
Variable MkdirAll_fault : FileSys -> string -> option error.
Variable WriteFile_fault : FileSys -> string -> option (error * option nat).
Variable path_Join : string -> string -> string.
Variable ConvertToWGS84Cartesian : Coordinate -> Z -> outcome Coordinate.
Variable Convert2DBoundingboxToWGS84Region : BBox -> Z -> outcome (list F).
Variable GetVolume : BBox -> F.
Variable CanContain : BBox -> OctElement -> bool.
Variable Float32bits : float -> Z.
Variable nodes : gmap ptr (OctNode BBox).
Variable MarshalIndent : Tileset F -> outcome (list byte).

#[local] Abbreviation writePnts :=
  (writeBinaryPnts MkdirAll_fault WriteFile_fault path_Join ConvertToWGS84Cartesian
     Float32bits nodes).
#[local] Abbreviation writeTileset :=
  (writeJsonTileset MkdirAll_fault WriteFile_fault path_Join
     Convert2DBoundingboxToWGS84Region GetVolume CanContain nodes MarshalIndent).
#[local] Abbreviation work :=
  (doWork MkdirAll_fault WriteFile_fault path_Join ConvertToWGS84Cartesian
     Convert2DBoundingboxToWGS84Region GetVolume CanContain Float32bits nodes MarshalIndent).
#[local] Abbreviation consume :=
  (Consume MkdirAll_fault WriteFile_fault path_Join ConvertToWGS84Cartesian
     Convert2DBoundingboxToWGS84Region GetVolume CanContain Float32bits nodes MarshalIndent).

(** ** What the three loops of writeBinaryPnts compute *)

Lemma insert3 {A} (pre : list A) (a b c d : A) (rest : list A) (i : nat) :
  length pre = (i * 3)%nat ->
  <[(i * 3 + 2)%nat := c]> (<[(i * 3 + 1)%nat := b]> (<[(i * 3)%nat := a]>
    (pre ++ d :: d :: d :: rest)))
  = (pre ++ [a; b; c]) ++ rest.
Proof.
  intros H. rewrite <- H.
  rewrite (insert_app_r_alt pre _ (length pre)) by lia.
  rewrite (insert_app_r_alt pre _ (length pre + 1)) by lia.
  rewrite (insert_app_r_alt pre _ (length pre + 2)) by lia.
  replace (length pre - length pre)%nat with 0%nat by lia.
  replace (length pre + 1 - length pre)%nat with 1%nat by lia.
  replace (length pre + 2 - length pre)%nat with 2%nat by lia.
  cbn. now rewrite <- app_assoc.
Qed.

Lemma insert1 {A} (pre : list A) (a d : A) (rest : list A) (i : nat) :
  length pre = i -> <[i := a]> (pre ++ d :: rest) = (pre ++ [a]) ++ rest.
Proof.
  intros H. rewrite <- H. rewrite (insert_app_r_alt pre _ (length pre)) by lia.
  replace (length pre - length pre)%nat with 0%nat by lia. cbn. now rewrite <- app_assoc.
Qed.

Lemma decompose_spec (srid : Z) (items : list OctElement) (cs : list Coordinate) :
  convertedTo ConvertToWGS84Cartesian srid items cs ->
  forall (i : nat) (pc : list float) (pk pi pl : list byte),
    length pc = (i * 3)%nat -> length pk = (i * 3)%nat -> length pi = i -> length pl = i ->
    decompose ConvertToWGS84Cartesian srid items i
      {| coords := pc ++ replicate (length items * 3) 0%float;
         colors := pk ++ replicate (length items * 3) Byte.x00;
         intensities := pi ++ replicate (length items) Byte.x00;
         classifications := pl ++ replicate (length items) Byte.x00 |}
    = Ret {| coords := pc ++ xyz cs;
             colors := pk ++ rgb items;
             intensities := pi ++ map eIntensity items;
             classifications := pl ++ map eClassification items |}.
Proof.
  induction 1 as [|e c items cs Hc Hrest IH]; intros i pc pk pi pl Hpc Hpk Hpi Hpl.
  - reflexivity.
  - cbn [decompose]. rewrite Hc. cbn [mbind outcome_bind coords colors intensities classifications].
    cbn [length Nat.mul Nat.add replicate].
    rewrite !insert3 by assumption. rewrite !insert1 by assumption.
    rewrite (IH (S i)); [| rewrite length_app; cbn; lia ..].
    cbn [xyz rgb flat_map map]. rewrite <- !app_assoc. reflexivity.
Qed.

Lemma nth_app_pre {A} (pre l : list A) (n k : nat) (d : A) :
  length pre = n -> nth (n + k) (pre ++ l) d = nth k l d.
Proof.
  intros <-. rewrite List.app_nth2 by lia. f_equal. lia.
Qed.

Lemma sumCoords_from (rest : list Coordinate) :
  forall (done : list float) (i : nat) (a b c : float),
    length done = (i * 3)%nat ->
    fold_left
      (fun '(avgX, avgY, avgZ) i =>
         ((avgX + nth (i * 3) (done ++ xyz rest) 0)%float,
          (avgY + nth (i * 3 + 1) (done ++ xyz rest) 0)%float,
          (avgZ + nth (i * 3 + 2) (done ++ xyz rest) 0)%float))
      (seq i (length rest)) (a, b, c)
    = (fold_left (fun a c => a + cX c)%float rest a,
       fold_left (fun a c => a + cY c)%float rest b,
       fold_left (fun a c => a + cZ c)%float rest c).
Proof.
  induction rest as [|p rest IH]; intros done i a b c Hd; [reflexivity|].
  cbn [length seq fold_left xyz flat_map app].
  rewrite <- (Nat.add_0_r (i * 3)) at 1.
  rewrite !(nth_app_pre done _ (i * 3)) by assumption. cbn [nth].
  specialize (IH (done ++ [cX p; cY p; cZ p]) (S i) (a + cX p)%float (b + cY p)%float
                (c + cZ p)%float).
  rewrite <- app_assoc in IH. cbn [app] in IH. fold (xyz rest).
  apply IH. rewrite length_app. cbn. lia.
Qed.

Lemma averages_centre (cs : list Coordinate) :
  averages (xyz cs) (length cs) = centre cs.
Proof.
  unfold averages, sumCoords, centre.
  pose proof (sumCoords_from cs [] 0 0 0 0 eq_refl) as H. cbn [app] in H.
  rewrite H. reflexivity.
Qed.

Lemma normalize_from (o : float * float * float) (rest : list Coordinate) :
  forall (done : list float) (i : nat),
    length done = (i * 3)%nat ->
    fold_left
      (fun coords i =>
         let coords := <[(i * 3)%nat := (nth (i * 3) coords 0 - o.1.1)%float]> coords in
         let coords := <[(i * 3 + 1)%nat := (nth (i * 3 + 1) coords 0 - o.1.2)%float]> coords in
         <[(i * 3 + 2)%nat := (nth (i * 3 + 2) coords 0 - o.2)%float]> coords)
      (seq i (length rest)) (done ++ xyz rest)
    = done ++ relativeTo o rest.
Proof.
  induction rest as [|p rest IH]; intros done i Hd; [reflexivity|].
  cbn [length seq fold_left xyz flat_map app]. cbn zeta. fold (xyz rest).
  assert (E0 : nth (i * 3) (done ++ cX p :: cY p :: cZ p :: xyz rest) 0%float = cX p).
  { rewrite <- (Nat.add_0_r (i * 3)). now rewrite (nth_app_pre done _ (i * 3)). }
  rewrite E0.
  rewrite (insert_app_r_alt done _ (i * 3)) by lia.
  replace (i * 3 - length done)%nat with 0%nat by lia. cbn [insert list_insert].
  rewrite (nth_app_pre done _ (i * 3)) by assumption. cbn [nth].
  rewrite (insert_app_r_alt done _ (i * 3 + 1)) by lia.
  replace (i * 3 + 1 - length done)%nat with 1%nat by lia. cbn [insert list_insert].
  rewrite (nth_app_pre done _ (i * 3)) by assumption. cbn [nth].
  rewrite (insert_app_r_alt done _ (i * 3 + 2)) by lia.
  replace (i * 3 + 2 - length done)%nat with 2%nat by lia. cbn [insert list_insert].
  specialize (IH (done ++ [(cX p - o.1.1)%float; (cY p - o.1.2)%float; (cZ p - o.2)%float])
                (S i)).
  rewrite <- !app_assoc in IH. cbn [app] in IH.
  rewrite IH by (rewrite length_app; cbn; lia).
  reflexivity.
Qed.

Lemma xyz_length (cs : list Coordinate) : length (xyz cs) = (length cs * 3)%nat.
Proof.
  induction cs as [|c cs IH]; [reflexivity|].
  change (xyz (c :: cs)) with (cX c :: cY c :: cZ c :: xyz cs).
  cbn [length]. rewrite IH. lia.
Qed.

(** When the converter succeeds on every element, the bytes of the tile
    are those of its parts as they were meant. *)
Lemma pntsBytes_content (fuel : nat) (srid : Z) (items : list OctElement)
    (cs : list Coordinate) :
  convertedTo ConvertToWGS84Cartesian srid items cs ->
  exists ft bt : string,
    generateFeatureTableJson (S (S fuel)) (centre cs).1.1 (centre cs).1.2 (centre cs).2
      (len items) 0 = Ret ft
    /\ generateBatchTableJson (S (S fuel)) (len items) 0 = Ret bt
    /\ pntsBytes ConvertToWGS84Cartesian Float32bits (S (S fuel)) srid items
       = Ret (layoutBytes
                {| l_featureTable := ft; l_batchTable := bt;
                   l_positions :=
                     ConvertTruncateFloat64ToFloat32ByteArray Float32bits
                       (relativeTo (centre cs) cs);
                   l_colors := rgb items;
                   l_intensities := map eIntensity items;
                   l_classifications := map eClassification items |}).
Proof.
  intros Hc.
  assert (Hlen : length items = length cs) by (eapply Forall2_length; exact Hc).
  destruct (generateFeatureTableJson (S (S fuel)) (centre cs).1.1 (centre cs).1.2
              (centre cs).2 (len items) 0) as [ft| | | |] eqn:Hft;
    try (rewrite generateFeatureTableJson_result in Hft; discriminate Hft).
  destruct (generateBatchTableJson (S (S fuel)) (len items) 0) as [bt| | | |] eqn:Hbt;
    try (rewrite generateBatchTableJson_result in Hbt; discriminate Hbt).
  exists ft, bt. split; [reflexivity|]. split; [reflexivity|].
  unfold pntsBytes.
  pose proof (decompose_spec srid items cs Hc 0 [] [] [] [] eq_refl eq_refl eq_refl eq_refl)
    as Hd. cbn [app] in Hd. rewrite Hd. cbn [mbind outcome_bind coords colors intensities
                                              classifications].
  rewrite Hlen, averages_centre.
  destruct (centre cs) as [[ax ay] az] eqn:Ho. cbn [fst snd] in Hft.
  rewrite <- Hlen. fold (len items). rewrite Hft. cbn [mbind outcome_bind].
  rewrite Hbt. cbn [mbind outcome_bind].
  unfold normalize. rewrite Hlen.
  pose proof (normalize_from (ax, ay, az) cs [] 0 eq_refl) as Hn. cbn [app fst snd] in Hn.
  rewrite Hn. unfold layoutBytes.
  cbn [l_featureTable l_batchTable l_positions l_colors l_intensities l_classifications].
  rewrite <- !app_assoc. reflexivity.
Qed.

(** X1. A content.pnts file starts with the magic pnts and the version 1,
    and is 28 + featureTableJSONlen + 15 N + batchTableJSONlen + 2 N bytes
    long. The byteLength field of its header is that length less the batch
    table, JSON and binary: it is not the length of the file. *)
Theorem pnts_file_length (fuel : nat) (wu : WorkUnit) (fs fs' : FileSys) :
  writePnts (S (S fuel)) wu fs = (Ret tt, fs') ->
  exists (node : OctNode BBox) (out : list byte) (ft bt : string) (x y z : float),
    let N := len (Items node) in
    nodes !! wOctNode wu = Some node
    /\ fs_files fs' !! path_Join (wBasePath wu) "content.pnts" = Some (out, 511)
    /\ generateFeatureTableJson (S (S fuel)) x y z N 0 = Ret ft
    /\ generateBatchTableJson (S (S fuel)) N 0 = Ret bt
    /\ slice out 0 4 = Ret (bytes_of_string "pnts")
    /\ headerField out 4 = 1
    /\ len out = 28 + len_string ft + 15 * N + len_string bt + 2 * N
    /\ headerField out 8 = (len out - (len_string bt + 2 * N)) mod 2 ^ 32.
Proof.
  intros H. apply writeBinaryPnts_file in H.
  destruct H as (node & l & x & y & z & Hn & Hf & Hft & Hbt & Hpos & Hcol & Hint & Hcl).
  exists node, (layoutBytes l), (l_featureTable l), (l_batchTable l), x, y, z. cbn zeta.
  split; [exact Hn|]. split; [exact Hf|]. split; [exact Hft|]. split; [exact Hbt|].
  assert (Hlen := layout_len l). rewrite Hpos, Hcol, Hint, Hcl in Hlen.
  split.
  { unfold layoutBytes. rewrite <- len_magic at 1. apply slice_prefix. }
  split.
  { unfold layoutBytes. rewrite headerField_skip4 by (first [reflexivity | lia]).
    change (4 - 4) with 0. apply headerField_PutUint32. }
  split; [lia|].
  rewrite layout_field_8, Hpos, Hcol, Hlen. f_equal. lia.
Qed.

(** X2. When the converter succeeds on every element of the node, and the
    folder and the file can be written, [writeBinaryPnts] writes this file:
    RTC_CENTER is the centre of the converted points; the positions are
    the coordinates relative to that centre, one float32 each; the colours
    are the R, G, B bytes of the elements; the intensities and the
    classifications are those of the elements, all in the order of the
    items. *)
Theorem pnts_content (fuel : nat) (wu : WorkUnit) (node : OctNode BBox) (cs : list Coordinate)
    (fs fs1 : FileSys) :
  nodes !! wOctNode wu = Some node ->
  convertedTo ConvertToWGS84Cartesian (Srid (wOpts wu)) (Items node) cs ->
  ensureFolder MkdirAll_fault (wBasePath wu) fs = (Ret tt, fs1) ->
  WriteFile_fault fs1 (path_Join (wBasePath wu) "content.pnts") = None ->
  exists ft bt : string,
    generateFeatureTableJson (S (S fuel)) (centre cs).1.1 (centre cs).1.2 (centre cs).2
      (len (Items node)) 0 = Ret ft
    /\ generateBatchTableJson (S (S fuel)) (len (Items node)) 0 = Ret bt
    /\ writePnts (S (S fuel)) wu fs
       = (Ret tt,
          {| fs_dirs := fs_dirs fs1;
             fs_files :=
               <[path_Join (wBasePath wu) "content.pnts"
                 := (layoutBytes
                       {| l_featureTable := ft; l_batchTable := bt;
                          l_positions :=
                            ConvertTruncateFloat64ToFloat32ByteArray Float32bits
                              (relativeTo (centre cs) cs);
                          l_colors := rgb (Items node);
                          l_intensities := map eIntensity (Items node);
                          l_classifications := map eClassification (Items node) |}, 511)]>
                 (fs_files fs1) |}).
Proof.
  intros Hn Hc He Hw.
  destruct (pntsBytes_content fuel _ _ _ Hc) as (ft & bt & Hft & Hbt & Hp).
  exists ft, bt. split; [exact Hft|]. split; [exact Hbt|].
  unfold writeBinaryPnts, io_bind, io_lift, deref, ioutil_WriteFile.
  rewrite He, Hn, Hp, Hw. reflexivity.
Qed.

Lemma generateFeatureTableJson_neverErr (fuel : nat) (x y z : float) (pointNo spaceNo : Z) :
  neverErr (generateFeatureTableJson fuel x y z pointNo spaceNo).
Proof.
  revert spaceNo. induction fuel as [|fuel IH]; intros spaceNo e; [discriminate|].
  cbn [generateFeatureTableJson]. unfold strings_Repeat.
  destruct (spaceNo <? 0); cbn [mbind outcome_bind]; [discriminate|].
  destruct (negb _); [apply IH | discriminate].
Qed.

Lemma generateBatchTableJson_neverErr (fuel : nat) (pointNumber spaceNumber : Z) :
  neverErr (generateBatchTableJson fuel pointNumber spaceNumber).
Proof.
  revert spaceNumber. induction fuel as [|fuel IH]; intros spaceNumber e; [discriminate|].
  cbn [generateBatchTableJson]. unfold strings_Repeat.
  destruct (spaceNumber <? 0); cbn [mbind outcome_bind]; [discriminate|].
  destruct (negb _); [apply IH | discriminate].
Qed.

Lemma decompose_Err (srid : Z) (items : list OctElement) (e : error) :
  forall (i : nat) (acc : Sublists),
    decompose ConvertToWGS84Cartesian srid items i acc = Err e ->
    exists item : OctElement,
      In item items
      /\ ConvertToWGS84Cartesian {| cX := eX item; cY := eY item; cZ := eZ item |} srid = Err e.
Proof.
  induction items as [|item items IH]; intros i acc H; [discriminate H|].
  cbn [decompose] in H.
  destruct (ConvertToWGS84Cartesian _ srid) as [c|e'| | |] eqn:Hc;
    cbn [mbind outcome_bind] in H; try discriminate H.
  - apply IH in H. destruct H as (it & Hin & Hit). exists it. split; [now right | exact Hit].
  - inversion H; subst e'. exists item. split; [now left | exact Hc].
Qed.

Lemma pntsBytes_Err (fuel : nat) (srid : Z) (items : list OctElement) (e : error) :
  pntsBytes ConvertToWGS84Cartesian Float32bits fuel srid items = Err e ->
  exists item : OctElement,
    In item items
    /\ ConvertToWGS84Cartesian {| cX := eX item; cY := eY item; cZ := eZ item |} srid = Err e.
Proof.
  unfold pntsBytes. intros H.
  destruct (decompose ConvertToWGS84Cartesian srid items 0 _) as [acc|e'| | |] eqn:Hd;
    cbn [mbind outcome_bind] in H; try discriminate H.
  - exfalso. destruct (averages _ _) as [[ax ay] az].
    destruct (generateFeatureTableJson fuel ax ay az _ 0) as [ft|e'| | |] eqn:Hft;
      cbn [mbind outcome_bind] in H; try discriminate H.
    + destruct (generateBatchTableJson fuel _ 0) as [bt|e'| | |] eqn:Hbt;
        cbn [mbind outcome_bind] in H; try discriminate H.
      exact (generateBatchTableJson_neverErr _ _ _ _ Hbt).
    + exact (generateFeatureTableJson_neverErr _ _ _ _ _ _ _ Hft).
  - inversion H; subst e'. exact (decompose_Err _ _ _ _ _ Hd).
Qed.

(** Seeing to directories changes no file and removes no directory; when
    it fails, the error is that of a name taken by a file or that of the
    system on one of the directories. *)
Lemma mkdirs_effect (ds : list string) :
  forall (fs fs' : FileSys) (o : outcome unit),
    mkdirs MkdirAll_fault ds fs = (o, fs') ->
    fs_files fs' = fs_files fs
    /\ fs_dirs fs ⊆ fs_dirs fs'
    /\ (o = Ret tt
        \/ exists e : error,
             o = Err e
             /\ (e = "not a directory"
                 \/ exists (fs0 : FileSys) (d : string),
                      d ∈ ds /\ MkdirAll_fault fs0 d = Some e)).
Proof.
  induction ds as [|d ds IH]; intros fs fs' o H.
  - cbn in H. inversion H; subst. split; [reflexivity|]. split; [reflexivity | now left].
  - cbn [mkdirs] in H.
    destruct (bool_decide (d ∈ fs_dirs fs)).
    { apply IH in H. destruct H as (Hf & Hd & Ho). split; [exact Hf|]. split; [exact Hd|].
      destruct Ho as [->|(e & -> & [He|(fs0 & d0 & Hin & He)])]; [now left | right ..].
      - exists e. split; [reflexivity | now left].
      - exists e. split; [reflexivity|]. right. exists fs0, d0. split; [now right | exact He]. }
    destruct (bool_decide (is_Some (fs_files fs !! d))).
    { inversion H; subst. split; [reflexivity|]. split; [reflexivity|].
      right. eexists. split; [reflexivity | now left]. }
    destruct (MkdirAll_fault fs d) as [e|] eqn:Hm.
    { inversion H; subst. split; [reflexivity|]. split; [reflexivity|].
      right. exists e. split; [reflexivity|]. right. exists fs', d. split; [now left | exact Hm]. }
    apply IH in H. cbn [fs_files fs_dirs] in H. destruct H as (Hf & Hd & Ho).
    split; [exact Hf|].
    split; [intros x Hx; apply Hd; apply elem_of_union_r; exact Hx|].
    destruct Ho as [->|(e & -> & [He|(fs0 & d0 & Hin & He)])]; [now left | right ..].
    + exists e. split; [reflexivity | now left].
    + exists e. split; [reflexivity|]. right. exists fs0, d0. split; [now right | exact He].
Qed.

Lemma ensureFolder_effect (name : string) (fs fs1 : FileSys) (o : outcome unit) :
  ensureFolder MkdirAll_fault name fs = (o, fs1) ->
  fs_files fs1 = fs_files fs
  /\ fs_dirs fs ⊆ fs_dirs fs1
  /\ (o = Ret tt
      \/ exists e : error,
           o = Err e
           /\ (e = "not a directory"
               \/ exists (fs0 : FileSys) (d : string),
                    d ∈ pathsTo name /\ MkdirAll_fault fs0 d = Some e)).
Proof.
  unfold ensureFolder, os_MkdirAll. intros H.
  destruct (os_IsNotExist fs name).
  - exact (mkdirs_effect _ _ _ _ H).
  - inversion H; subst. split; [reflexivity|]. split; [reflexivity | now left].
Qed.

(** X3. When [writeBinaryPnts] returns an error, the error is that of
    seeing to the folder, that of the converter on one of the items, or
    that of [ioutil.WriteFile]. No directory has been removed and no file
    other than content.pnts has changed; content.pnts itself has changed
    only when the write failed after the file was opened, and then it
    holds the bytes of the tile that were written before the failure. *)
Theorem writeBinaryPnts_error (fuel : nat) (wu : WorkUnit) (fs fs' : FileSys) (e : error) :
  writePnts fuel wu fs = (Err e, fs') ->
  let file := path_Join (wBasePath wu) "content.pnts" in
  fs_dirs fs ⊆ fs_dirs fs'
  /\ (forall name : string, name <> file -> fs_files fs' !! name = fs_files fs !! name)
  /\ ((fs_files fs' = fs_files fs
       /\ (e = "not a directory"
           \/ exists (fs0 : FileSys) (d : string),
                d ∈ pathsTo (wBasePath wu) /\ MkdirAll_fault fs0 d = Some e))
      \/ (fs_files fs' = fs_files fs
          /\ exists (node : OctNode BBox) (item : OctElement),
               nodes !! wOctNode wu = Some node /\ In item (Items node)
               /\ ConvertToWGS84Cartesian {| cX := eX item; cY := eY item; cZ := eZ item |}
                    (Srid (wOpts wu)) = Err e)
      \/ (exists (fs1 : FileSys) (done : option nat),
            ensureFolder MkdirAll_fault (wBasePath wu) fs = (Ret tt, fs1)
            /\ WriteFile_fault fs1 file = Some (e, done)
            /\ match done with
               | None => fs_files fs' = fs_files fs
               | Some n =>
                 exists (node : OctNode BBox) (out : list byte),
                   nodes !! wOctNode wu = Some node
                   /\ pntsBytes ConvertToWGS84Cartesian Float32bits fuel (Srid (wOpts wu))
                        (Items node) = Ret out
                   /\ fst <$> fs_files fs' !! file = Some (take n out)
               end)).
Proof.
  intros H file. unfold writeBinaryPnts, io_bind, io_lift, deref, ioutil_WriteFile in H.
  destruct (ensureFolder MkdirAll_fault (wBasePath wu) fs) as [o fs1] eqn:He.
  pose proof (ensureFolder_effect _ _ _ _ He) as (Hf & Hd & Ho).
  destruct Ho as [->|(e' & -> & Horigin)].
  - destruct (nodes !! wOctNode wu) as [node|] eqn:Hn; [|inversion H].
    destruct (pntsBytes _ _ fuel _ (Items node)) as [out|e'| | |] eqn:Hp;
      try (inversion H; fail).
    + fold file in H.
      destruct (WriteFile_fault fs1 file) as [[e' [n|]]|] eqn:Hw; inversion H; subst.
      * cbn [fs_dirs fs_files]. split; [exact Hd|]. split.
        { intros name Hne. rewrite lookup_insert_ne by (intros E; apply Hne; now symmetry).
          now rewrite Hf. }
        right. right. exists fs1, (Some n). split; [reflexivity|]. split; [exact Hw|].
        exists node, out. split; [reflexivity|]. split; [exact Hp|].
        cbn [fs_files]. rewrite lookup_insert_eq. reflexivity.
      * split; [exact Hd|]. split; [intros name _; now rewrite Hf|].
        right. right. exists fs', None. split; [reflexivity|]. split; [exact Hw | exact Hf].
    + inversion H; subst. split; [exact Hd|]. split; [intros name _; now rewrite Hf|].
      right. left. split; [exact Hf|].
      apply pntsBytes_Err in Hp. destruct Hp as (item & Hin & Hit).
      exists node, item. auto.
  - inversion H; subst. split; [exact Hd|]. split; [intros name _; now rewrite Hf|].
    left. split; [exact Hf | exact Horigin].
Qed.

(** What a successful call of [writeJsonTileset] has done. *)
Lemma writeJsonTileset_Ret (fuel : nat) (wu : WorkUnit) (fs fs' : FileSys) (u : unit) :
  writeTileset fuel wu fs = (Ret u, fs') ->
  exists (node : OctNode BBox) (json : list byte) (fs1 : FileSys),
    ensureFolder MkdirAll_fault (wBasePath wu) fs = (Ret tt, fs1)
    /\ nodes !! wOctNode wu = Some node
    /\ createTilesetJson Convert2DBoundingboxToWGS84Region GetVolume CanContain nodes
         MarshalIndent fuel node (wOpts wu) = Ret json
    /\ WriteFile_fault fs1 (path_Join (wBasePath wu) "tileset.json") = None
    /\ fs' = {| fs_dirs := fs_dirs fs1;
                fs_files := <[path_Join (wBasePath wu) "tileset.json" := (json, 438)]>
                              (fs_files fs1) |}.
Proof.
  unfold writeJsonTileset, io_bind, io_lift, deref, ioutil_WriteFile. intros H.
  destruct (ensureFolder MkdirAll_fault (wBasePath wu) fs) as [[[]| | | |] fs1] eqn:He;
    try (inversion H; fail).
  destruct (nodes !! wOctNode wu) as [node|] eqn:Hn; [|inversion H].
  destruct (createTilesetJson _ _ _ _ _ fuel node _) as [json| | | |] eqn:Hj;
    try (inversion H; fail).
  destruct (WriteFile_fault fs1 _) as [[e [n|]]|] eqn:Hw; [inversion H | inversion H |].
  exists node, json, fs1. repeat split; try assumption. now inversion H.
Qed.

Lemma ensureFolder_files (name : string) (fs fs1 : FileSys) (o : outcome unit) :
  ensureFolder MkdirAll_fault name fs = (o, fs1) -> fs_files fs1 = fs_files fs.
Proof. intros H. apply ensureFolder_effect in H. apply H. Qed.

(** X4. Successful work on an inner node leaves two files in the folder
    of the unit, content.pnts holding the bytes of the tile and
    tileset.json holding the encoded tileset; every other file is as it
    was. *)
Theorem doWork_inner_node (fuel : nat) (wu : WorkUnit) (node : OctNode BBox)
    (fs fs' : FileSys) :
  nodes !! wOctNode wu = Some node ->
  IsLeaf node = false ->
  path_Join (wBasePath wu) "content.pnts" <> path_Join (wBasePath wu) "tileset.json" ->
  work fuel wu fs = (Ret tt, fs') ->
  exists pnts json : list byte,
    pntsBytes ConvertToWGS84Cartesian Float32bits fuel (Srid (wOpts wu)) (Items node) = Ret pnts
    /\ createTilesetJson Convert2DBoundingboxToWGS84Region GetVolume CanContain nodes
         MarshalIndent fuel node (wOpts wu) = Ret json
    /\ fst <$> fs_files fs' !! path_Join (wBasePath wu) "content.pnts" = Some pnts
    /\ fst <$> fs_files fs' !! path_Join (wBasePath wu) "tileset.json" = Some json
    /\ forall name : string,
         name <> path_Join (wBasePath wu) "content.pnts" ->
         name <> path_Join (wBasePath wu) "tileset.json" ->
         fs_files fs' !! name = fs_files fs !! name.
Proof.
  intros Hn Hl Hne H. unfold doWork, io_bind at 1 in H.
  destruct (writePnts fuel wu fs) as [[[]| | | |] fsA] eqn:Hp; try (inversion H; fail).
  unfold io_bind, io_lift, deref in H. rewrite Hn, Hl in H. cbn [negb] in H.
  apply writeBinaryPnts_Ret in Hp.
  destruct Hp as (node1 & pnts & fs1 & He1 & Hn1 & Hpb & _ & ->).
  rewrite Hn in Hn1. inversion Hn1; subst node1.
  apply writeJsonTileset_Ret in H.
  destruct H as (node2 & json & fs2 & He2 & Hn2 & Hj & _ & ->).
  rewrite Hn in Hn2. inversion Hn2; subst node2.
  apply ensureFolder_files in He1. apply ensureFolder_files in He2. cbn [fs_files] in *.
  exists pnts, json. split; [exact Hpb|]. split; [exact Hj|]. rewrite He2.
  split; [rewrite lookup_insert_ne by (intros E; apply Hne; now symmetry);
          rewrite lookup_insert_eq; reflexivity|].
  split; [rewrite lookup_insert_eq; reflexivity|].
  intros name H1 H2.
  rewrite lookup_insert_ne by (intros E; apply H2; now symmetry).
  rewrite lookup_insert_ne by (intros E; apply H1; now symmetry).
  now rewrite He1.
Qed.



(** X6. Whatever a worker returns with, it has sent at most one error.
    Either it sent none, took every unit and the work succeeded on all of
    them; or the units split into those on which the work succeeded, one
    on which it failed with the error sent, and those the worker never
    took. *)
Theorem Consume_outcome (fuel : nat) (us : list WorkUnit) (n : nat) (fs fs' : FileSys)
    (c : Consumed) :
  consume fuel us n fs = (Ret c, fs') ->
  (c = {| sent := []; taken := n + length us |}
   /\ allDone MkdirAll_fault WriteFile_fault path_Join ConvertToWGS84Cartesian
        Convert2DBoundingboxToWGS84Region GetVolume CanContain Float32bits nodes MarshalIndent
        fuel us fs fs')
  \/ (exists (pre : list WorkUnit) (u : WorkUnit) (post : list WorkUnit) (e : error)
             (fs1 : FileSys),
        us = pre ++ u :: post
        /\ allDone MkdirAll_fault WriteFile_fault path_Join ConvertToWGS84Cartesian
             Convert2DBoundingboxToWGS84Region GetVolume CanContain Float32bits nodes
             MarshalIndent fuel pre fs fs1
        /\ work fuel u fs1 = (Err e, fs')
        /\ c = {| sent := [e]; taken := n + length pre + 1 |}).
Proof.
  revert n fs. induction us as [|u us IH]; intros n fs H.
  - cbn in H. inversion H; subst. left. rewrite Nat.add_0_r. split; [reflexivity | constructor].
  - cbn [Consume] in H.
    destruct (work fuel u fs) as [[[]|e| | |] fsA] eqn:Hu; try (inversion H; fail).
    + apply IH in H. destruct H as [[-> Hall]|(pre & u' & post & e & fs1 & -> & Hall & He & ->)].
      * left. split; [cbn [length]; f_equal; lia | econstructor; eassumption].
      * right. exists (u :: pre), u', post, e, fs1.
        split; [reflexivity|]. split; [econstructor; eassumption|].
        split; [exact He|]. cbn [length]. f_equal; lia.
    + inversion H; subst. right. exists [], u, us, e, fs.
      split; [reflexivity|]. split; [constructor|]. split; [exact Hu|].
      cbn [length]. f_equal; lia.
Qed.

(** X7. The padding recursion of [generateFeatureTableJson] is entered by
    its caller with no padding, and then ends in at most two calls. Entered
    with two padding characters on a text whose unpadded length is a
    multiple of four, it calls itself with the same arguments for ever. *)
Theorem generateFeatureTableJson_loops (x y z : float) (pointNo : Z) :
  len_string (featureTableSb x y z pointNo EmptyString) mod 4 = 0 ->
  forall fuel : nat, generateFeatureTableJson fuel x y z pointNo 2 = OutOfFuel.
Proof.
  intros H fuel. induction fuel as [|fuel IH]; [reflexivity|].
  cbn [generateFeatureTableJson]. rewrite strings_Repeat_nonneg by lia.
  cbn [mbind outcome_bind]. rewrite featureTableSb_len.
  rewrite len_repeat_char by lia.
  pose proof (len_string_nonneg (featureTableSb x y z pointNo EmptyString)).
  rewrite rem4_nonneg by lia.
  replace ((len_string (featureTableSb x y z pointNo EmptyString) + 2) mod 4) with 2.
  - cbn [Z.eqb negb]. change (4 - 2) with 2. exact IH.
  - rewrite Z.add_mod by lia. rewrite H. reflexivity.
Qed.

End WriterMore.

(* ===================================================================== *)
(** * More on the LAS reader                                              *)
(* ===================================================================== *)

Lemma slice_Ret (b : list byte) (lo hi : Z) :
  0 <= lo -> lo <= hi -> hi <= len b ->
  slice b lo hi = Ret (take (Z.to_nat (hi - lo)) (drop (Z.to_nat lo) b)).
Proof.
  intros H1 H2 H3. unfold slice.
  destruct (lo <? 0) eqn:E1; [zbool; lia|].
  destruct (hi <? lo) eqn:E2; [zbool; lia|].
  destruct (len b <? hi) eqn:E3; [zbool; lia|]. reflexivity.
Qed.

Lemma index_Ret (b : list byte) (i : Z) :
  0 <= i < len b -> exists x : byte, index b i = Ret x.
Proof.
  intros H. unfold index. destruct (i <? 0) eqn:E; [zbool; lia|].
  destruct (b !! Z.to_nat i) as [x|] eqn:Hx; [now exists x|].
  apply lookup_ge_None in Hx. unfold len in H. lia.
Qed.

Section ReaderMore.
Import Lidario.
Variable os_Open : string -> outcome File.
Variable readHeader : File -> outcome LasHeader.
Variable readVLRs : File -> LasHeader -> outcome unit.
Variable Convert : Z -> Z -> Coordinate -> outcome Coordinate.
Variable zCorrection : float -> float -> float -> float.
Variable inSrid : Z.
Variable NumCPU : Z.

#[local] Abbreviation readPoints := (readPointsOctElem Convert zCorrection inSrid NumCPU).
#[local] Abbreviation readOctree :=
  (readForOctree os_Open readHeader readVLRs Convert zCorrection inSrid NumCPU).
#[local] Abbreviation parse := (parsePoint Convert zCorrection inSrid).

(** A legal record length selects the two flags, and is then the number
    of bytes that the parser steps over. *)
Lemma selectOptionalFields_legal (las : LasFile) :
  0 <= PointFormatID (Header las) <= 3 ->
  In (PointRecordLength (Header las)) (legalLengths (PointFormatID (Header las))) ->
  exists intensity userdata : bool,
    selectOptionalFields las
    = Ret {| fileName := fileName las; fileMode := fileMode las; Header := Header las;
             usePointIntensity := intensity; usePointUserdata := userdata |}
    /\ PointRecordLength (Header las)
       = recordSize (PointFormatID (Header las)) intensity userdata.
Proof.
  intros Hid Hlen. unfold selectOptionalFields.
  assert (Hc : PointFormatID (Header las) = 0 \/ PointFormatID (Header las) = 1
               \/ PointFormatID (Header las) = 2 \/ PointFormatID (Header las) = 3) by lia.
  destruct Hc as [E|[E|[E|E]]]; rewrite E in *;
    match type of Hlen with
    | context [legalLengths ?i] =>
      let t := eval vm_compute in (legalLengths i) in change (legalLengths i) with t in Hlen
    end; cbn [In] in Hlen;
    repeat match goal with
    | |- context [recLength ?i ?k] =>
      let t := eval vm_compute in (recLength i k) in change (recLength i k) with t
    end; cbn [mbind outcome_bind];
    destruct Hlen as [H|[H|[H|[H|[]]]]]; rewrite <- H; cbn [Z.eqb Pos.eqb];
    eexists _, _; (split; [reflexivity | reflexivity]).
Qed.

(** With the flags that belong to the record length, the parser stays
    inside the record, and so inside a buffer that holds the record: what
    it returns is decided by the projection alone. *)
Lemma parsePoint_decoded (las : LasFile) (b : list byte) (i : Z) :
  0 <= PointFormatID (Header las) <= 3 ->
  PointRecordLength (Header las)
  = recordSize (PointFormatID (Header las)) (usePointIntensity las) (usePointUserdata las) ->
  0 <= i ->
  (i + 1) * PointRecordLength (Header las) <= len b ->
  exists (c : Coordinate) (R G B Intensity Classification : byte),
    parse las b i
    = match Convert inSrid 4326 c with
      | Ret tr =>
        Ret (NewOctElement (cX tr) (cY tr) (zCorrection (cX tr) (cY tr) (cZ tr))
               R G B Intensity Classification)
      | Err err => Fatal err
      | Panic msg => Panic msg
      | Fatal e => Fatal e
      | OutOfFuel => OutOfFuel
      end.
Proof.
  intros Hid HL Hi Hb. unfold parsePoint.
  set (L := PointRecordLength (Header las)) in *.
  set (P := i * L) in *.
  assert (HP : 0 <= P /\ P + L <= len b /\ 15 <= L).
  { assert (15 <= L).
    { rewrite HL. unfold recordSize.
      destruct (usePointIntensity las), (usePointUserdata las), (_ || _), (_ || _); lia. }
    unfold P. split; [apply Z.mul_nonneg_nonneg; lia|]. split; [lia | assumption]. }
  destruct HP as (HP0 & HPL & HL15). clearbody P.
  unfold recordSize in HL.
  assert (Hc : PointFormatID (Header las) = 0 \/ PointFormatID (Header las) = 1
               \/ PointFormatID (Header las) = 2 \/ PointFormatID (Header las) = 3) by lia.
  destruct Hc as [E|[E|[E|E]]]; rewrite E in *; cbn [Z.eqb Pos.eqb orb] in HL |- *;
    destruct (usePointIntensity las), (usePointUserdata las);
    repeat first
      [ rewrite slice_Ret by lia; cbn [mbind outcome_bind]
      | match goal with
        | |- context [index b ?k] =>
          let H := fresh in
          destruct (index_Ret b k) as [? H]; [lia|]; rewrite H; cbn [mbind outcome_bind]
        end ];
    do 6 eexists; reflexivity.
Qed.

Lemma parsePoint_in_bounds (las : LasFile) (b : list byte) (i : Z) :
  0 <= PointFormatID (Header las) <= 3 ->
  PointRecordLength (Header las)
  = recordSize (PointFormatID (Header las)) (usePointIntensity las) (usePointUserdata las) ->
  0 <= i ->
  (i + 1) * PointRecordLength (Header las) <= len b ->
  (forall c : Coordinate, exists tr : Coordinate, Convert inSrid 4326 c = Ret tr) ->
  exists e : OctElement, parse las b i = Ret e.
Proof.
  intros Hid HL Hi Hb HC.
  destruct (parsePoint_decoded las b i Hid HL Hi Hb) as (c & R & G & B & I & C & ->).
  destruct (HC c) as [tr ->]. eexists; reflexivity.
Qed.

Lemma loadAll_stuck (p : Z -> outcome OctElement) (ixs : list Z) (o : outcome (list OctElement)) :
  (forall l, o <> Ret l) -> loadAll p ixs o = o.
Proof.
  intros H. unfold loadAll. induction ixs as [|i ixs IH]; [reflexivity|].
  cbn [fold_left]. destruct o as [l| | | |]; cbn [mbind outcome_bind]; try exact IH.
  exfalso. exact (H l eq_refl).
Qed.

Lemma loadAll_app (p : Z -> outcome OctElement) (l1 l2 : list Z)
    (o : outcome (list OctElement)) :
  loadAll p (l1 ++ l2) o = loadAll p l2 (loadAll p l1 o).
Proof. unfold loadAll. apply fold_left_app. Qed.

Lemma loadAll_Ret (p : Z -> outcome OctElement) (ixs : list Z) :
  (forall i, i ∈ ixs -> exists e, p i = Ret e) ->
  forall loader : list OctElement,
  exists elems : list OctElement,
    loadAll p ixs (Ret loader) = Ret (loader ++ elems)
    /\ Forall2 (fun i e => p i = Ret e) ixs elems.
Proof.
  unfold loadAll. induction ixs as [|i ixs IH]; intros Hp loader.
  - exists []. rewrite app_nil_r. split; [reflexivity | constructor].
  - destruct (Hp i) as [e He]; [left|].
    cbn [fold_left mbind outcome_bind]. rewrite He. cbn [mbind outcome_bind].
    destruct (IH (fun j Hj => Hp j (list_elem_of_further _ _ _ Hj)) (loader ++ [e]))
      as (elems & Hf & Hall).
    exists (e :: elems). rewrite Hf, <- app_assoc. split; [reflexivity|].
    constructor; assumption.
Qed.

Lemma worker_loadAll (las : LasFile) (b : list byte) (loader : list OctElement)
    (block : Z * Z) :
  worker Convert zCorrection inSrid las b loader block
  = loadAll (parse las b) (blockIndices block) (Ret loader).
Proof.
  destruct block as [st en]. unfold worker, loadAll, blockIndices, seqZ. cbn [fst snd].
  generalize (seq 0 (Z.to_nat (en - st + 1))) as ks.
  generalize (Ret loader : outcome (list OctElement)) as acc.
  intros acc ks. revert acc. induction ks as [|k ks IH]; intros acc; [reflexivity|].
  cbn [fold_left fmap list_fmap]. rewrite IH.
  replace (Z.of_nat k + st) with (st + Z.of_nat k) by lia. reflexivity.
Qed.

Lemma workers_loadAll (las : LasFile) (b : list byte) (bl : list (Z * Z)) :
  forall acc : outcome (list OctElement),
    fold_left (fun acc block => loader ← acc; worker Convert zCorrection inSrid las b loader block)
              bl acc
    = loadAll (parse las b) (concat (map blockIndices bl)) acc.
Proof.
  induction bl as [|block bl IH]; intros acc; [reflexivity|].
  cbn [fold_left map concat]. rewrite IH, loadAll_app. f_equal.
  destruct acc as [loader| | | |]; cbn [mbind outcome_bind];
    try (symmetry; apply loadAll_stuck; discriminate).
  apply worker_loadAll.
Qed.

Lemma contiguous_indices (st n : Z) (bl : list (Z * Z)) :
  contiguous st n bl -> st <= n /\ concat (map blockIndices bl) = seqZ st (n - st).
Proof.
  induction 1 as [n|st en n bl Hle Hc [Hn IH]].
  - split; [lia|]. rewrite Z.sub_diag. reflexivity.
  - split; [lia|]. cbn [map concat]. rewrite IH. unfold blockIndices. cbn [fst snd].
    replace (n - st) with ((en - st + 1) + (n - (en + 1))) by lia.
    rewrite (seqZ_app st (en - st + 1) (n - (en + 1))) by lia.
    replace (st + (en - st + 1)) with (en + 1) by lia. reflexivity.
Qed.

Lemma pointBuffer_len (las : LasFile) (f : File) :
  0 <= NumberPoints (Header las) * PointRecordLength (Header las) ->
  len (pointBuffer las f) = NumberPoints (Header las) * PointRecordLength (Header las).
Proof.
  intros H. unfold pointBuffer, len. cbn zeta.
  rewrite length_take, length_app, length_drop, length_replicate. lia.
Qed.

(** What [readPointsOctElem] comes to, for a legal header. *)
Lemma readPointsOctElem_loadAll (fuel : nat) (las : LasFile) (f : File)
    (loader : list OctElement) :
  0 <= PointFormatID (Header las) <= 3 ->
  In (PointRecordLength (Header las)) (legalLengths (PointFormatID (Header las))) ->
  0 <= NumberPoints (Header las) ->
  1 <= NumCPU ->
  (Z.to_nat (NumberPoints (Header las)) <= fuel)%nat ->
  exists las' : LasFile,
    selectOptionalFields las = Ret las'
    /\ Header las' = Header las
    /\ PointRecordLength (Header las)
       = recordSize (PointFormatID (Header las)) (usePointIntensity las')
           (usePointUserdata las')
    /\ readPoints fuel las f loader
       = (elems ← loadAll (parse las' (pointBuffer las f))
                    (seqZ 0 (NumberPoints (Header las))) (Ret loader);
          Ret (las', elems)).
Proof.
  intros Hid Hlen HN Hcpu Hfuel.
  destruct (selectOptionalFields_legal las Hid Hlen) as (iy & ud & Hs & HL).
  eexists. split; [exact Hs|]. split; [reflexivity|]. split; [exact HL|].
  assert (H15 : 15 <= PointRecordLength (Header las)).
  { rewrite HL. unfold recordSize. destruct iy, ud, (_ || _), (_ || _); lia. }
  unfold readPointsOctElem.
  destruct (_ <? 0) eqn:E; [zbool; nia|]. clear E.
  unfold pointBuffer. cbn zeta.
  destruct (ReadAt f _ _) as [data err]. cbn [fst].
  rewrite Hs. cbn [mbind outcome_bind].
  destruct (NumCPU =? 0) eqn:E; [zbool; lia|]. clear E.
  assert (Hq : 0 <= Z.quot (NumberPoints (Header las)) NumCPU).
  { rewrite Z.quot_div_nonneg by lia. apply Z.div_pos; lia. }
  destruct (blocks_from (NumberPoints (Header las)) _ fuel Hq 0) as (bl & Hbl & Hc & _);
    [lia | rewrite Z.sub_0_r; exact Hfuel |].
  rewrite Hbl. cbn [mbind outcome_bind].
  rewrite workers_loadAll.
  apply contiguous_indices in Hc. destruct Hc as [_ ->]. rewrite Z.sub_0_r. reflexivity.
Qed.

(** X8. For a header with a legal record length and a projection that is
    defined everywhere, [readPointsOctElem] returns without an error and
    has added to the loader exactly the NumberPoints points of the file,
    each parsed from its own record; in the schedule in which the workers
    run one after the other they come in the order of the file. *)
Theorem readPointsOctElem_loads_every_point (fuel : nat) (las : LasFile) (f : File)
    (loader : list OctElement) :
  0 <= PointFormatID (Header las) <= 3 ->
  In (PointRecordLength (Header las)) (legalLengths (PointFormatID (Header las))) ->
  0 <= NumberPoints (Header las) ->
  1 <= NumCPU ->
  (Z.to_nat (NumberPoints (Header las)) <= fuel)%nat ->
  (forall c : Coordinate, exists tr : Coordinate, Convert inSrid 4326 c = Ret tr) ->
  exists (las' : LasFile) (elems : list OctElement),
    readPoints fuel las f loader = Ret (las', loader ++ elems)
    /\ selectOptionalFields las = Ret las'
    /\ len elems = NumberPoints (Header las)
    /\ Forall2 (fun i e => parse las' (pointBuffer las f) i = Ret e)
         (seqZ 0 (NumberPoints (Header las))) elems.
Proof.
  intros Hid Hlen HN Hcpu Hfuel HC.
  destruct (readPointsOctElem_loadAll fuel las f loader Hid Hlen HN Hcpu Hfuel)
    as (las' & Hs & Hh & HL & Hr).
  assert (H15 : 15 <= PointRecordLength (Header las)).
  { rewrite HL. unfold recordSize.
    destruct (usePointIntensity las'), (usePointUserdata las'), (_ || _), (_ || _); lia. }
  destruct (loadAll_Ret (parse las' (pointBuffer las f)) (seqZ 0 (NumberPoints (Header las))))
    with (loader := loader) as (elems & Hload & Hall).
  { intros i Hin. apply elem_of_seqZ in Hin.
    apply parsePoint_in_bounds; rewrite ?Hh; try assumption; try lia.
    rewrite pointBuffer_len by nia. nia. }
  exists las', elems. rewrite Hr, Hload. cbn [mbind outcome_bind].
  split; [reflexivity|]. split; [exact Hs|]. split; [|exact Hall].
  apply Forall2_length in Hall. rewrite length_seqZ in Hall. unfold len. lia.
Qed.


(** X10. [readPointsOctElem] never returns an error, and of what [ReadAt]
    returns it uses the bytes only: two files that deliver the same bytes
    are read alike, whatever errors they report. *)
Theorem readPointsOctElem_returns_nil (fuel : nat) (las : LasFile) (f : File)
    (loader : list OctElement) :
  neverErr (readPoints fuel las f loader)
  /\ forall f' : File,
       (ReadAt f (NumberPoints (Header las) * PointRecordLength (Header las))
          (OffsetToPoints (Header las))).1
       = (ReadAt f' (NumberPoints (Header las) * PointRecordLength (Header las))
            (OffsetToPoints (Header las))).1 ->
       readPoints fuel las f loader = readPoints fuel las f' loader.
Proof.
  split; [apply readPointsOctElem_neverErr|].
  intros f' H. apply readPointsOctElem_ReadAt_data. exact H.
Qed.

(** X11. The errors that [readForOctree] returns are those of opening the
    file, of reading the header and of reading the variable length
    records, and no others. *)
Theorem readForOctree_error (fuel : nat) (las : LasFile) (loader : list OctElement)
    (e : error) :
  readOctree fuel las loader = Err e
  <-> os_Open (fileName las) = Err e
      \/ (exists f : File, os_Open (fileName las) = Ret f /\ readHeader f = Err e)
      \/ (exists (f : File) (h : LasHeader),
            os_Open (fileName las) = Ret f /\ readHeader f = Ret h
            /\ readVLRs f h = Err e).
Proof.
  unfold readForOctree. split.
  - intros H.
    destruct (os_Open (fileName las)) as [f|e1| | |] eqn:Ho; cbn [mbind outcome_bind] in H;
      try discriminate H; [|inversion H; subst; now left].
    destruct (readHeader f) as [h|e1| | |] eqn:Hh; cbn [mbind outcome_bind] in H;
      try discriminate H; [|inversion H; subst; right; left; exists f; auto].
    destruct (readVLRs f h) as [[]|e1| | |] eqn:Hv; cbn [mbind outcome_bind] in H;
      try discriminate H; [|inversion H; subst; right; right; exists f, h; auto].
    exfalso. destruct (negb _); [|discriminate H].
    revert H. apply neverErr_bind; [apply selectOptionalFields_neverErr|].
    intros las'. apply readPointsOctElem_neverErr.
  - intros [H|[(f & Ho & Hh)|(f & h & Ho & Hh & Hv)]].
    + rewrite H. reflexivity.
    + rewrite Ho. cbn [mbind outcome_bind]. rewrite Hh. reflexivity.
    + rewrite Ho. cbn [mbind outcome_bind]. rewrite Hh. cbn [mbind outcome_bind].
      rewrite Hv. reflexivity.
Qed.

Lemma recLength_unknown (id : Z) (k : nat) :
  ~ 0 <= id <= 3 -> recLength id k = Panic "index out of range".
Proof.
  intros H. unfold recLength. destruct (id <? 0) eqn:E; [reflexivity|]. zbool.
  assert (Hn : (4 <= Z.to_nat id)%nat) by lia.
  destruct (recLengths !! Z.to_nat id) as [row|] eqn:Hr; [|reflexivity].
  apply lookup_lt_Some in Hr. cbn in Hr. lia.
Qed.

(** X12. A point format other than 0, 1, 2 and 3 is not reported as an
    error either: the look-up in the table of record lengths is out of
    range and [readForOctree] panics. *)
Theorem unknown_point_format_panics (fuel : nat) (las : LasFile) (f : File)
    (header : LasHeader) (loader : list OctElement) :
  os_Open (fileName las) = Ret f ->
  readHeader f = Ret header ->
  readVLRs f header = Ret tt ->
  fileMode las <> "rh" ->
  ~ 0 <= PointFormatID header <= 3 ->
  readOctree fuel las loader = Panic "index out of range".
Proof.
  intros Ho Hh Hv Hm Hid. unfold readForOctree.
  rewrite Ho. cbn [mbind outcome_bind]. rewrite Hh. cbn [mbind outcome_bind].
  rewrite Hv. cbn [mbind outcome_bind fileMode].
  destruct (String.eqb (fileMode las) "rh") eqn:E; [apply String.eqb_eq in E; contradiction|].
  cbn [negb]. unfold selectOptionalFields. cbn [Header].
  rewrite (recLength_unknown _ 0) by exact Hid. reflexivity.
Qed.

(** X13. The two flags are selected twice, by [readForOctree] and again
    by [readPointsOctElem]; the second selection changes nothing. *)
Theorem selectOptionalFields_twice (las las' : LasFile) :
  selectOptionalFields las = Ret las' -> selectOptionalFields las' = Ret las'.
Proof.
  unfold selectOptionalFields. intros H.
  destruct (recLength (PointFormatID (Header las)) 0) as [r0| | | |] eqn:E0;
    cbn [mbind outcome_bind] in H; try discriminate H.
  destruct (PointRecordLength (Header las) =? r0) eqn:T0.
  { apply Ret_inj in H. subst las'. cbn [Header]. rewrite E0. cbn [mbind outcome_bind].
    rewrite T0. reflexivity. }
  destruct (recLength (PointFormatID (Header las)) 1) as [r1| | | |] eqn:E1;
    cbn [mbind outcome_bind] in H; try discriminate H.
  destruct (PointRecordLength (Header las) =? r1) eqn:T1.
  { apply Ret_inj in H. subst las'. cbn [Header]. rewrite E0. cbn [mbind outcome_bind].
    rewrite T0, E1. cbn [mbind outcome_bind]. rewrite T1. reflexivity. }
  destruct (recLength (PointFormatID (Header las)) 2) as [r2| | | |] eqn:E2;
    cbn [mbind outcome_bind] in H; try discriminate H.
  destruct (PointRecordLength (Header las) =? r2) eqn:T2.
  { apply Ret_inj in H. subst las'. cbn [Header]. rewrite E0. cbn [mbind outcome_bind].
    rewrite T0, E1. cbn [mbind outcome_bind]. rewrite T1, E2. cbn [mbind outcome_bind].
    rewrite T2. reflexivity. }
  destruct (recLength (PointFormatID (Header las)) 3) as [r3| | | |] eqn:E3;
    cbn [mbind outcome_bind] in H; try discriminate H.
  destruct (PointRecordLength (Header las) =? r3) eqn:T3.
  { apply Ret_inj in H. subst las'. cbn [Header]. rewrite E0. cbn [mbind outcome_bind].
    rewrite T0, E1. cbn [mbind outcome_bind]. rewrite T1, E2. cbn [mbind outcome_bind].
    rewrite T2, E3. cbn [mbind outcome_bind]. rewrite T3. reflexivity. }
  apply Ret_inj in H. subst las'. rewrite E0. cbn [mbind outcome_bind].
  rewrite T0, E1. cbn [mbind outcome_bind]. rewrite T1, E2. cbn [mbind outcome_bind].
  rewrite T2, E3. cbn [mbind outcome_bind]. rewrite T3. reflexivity.
Qed.

(** X14. For each format the four legal record lengths are the sizes of
    the record with and without the two optional fields: the flags that a
    legal length selects make the fields that the parser steps over add up
    to that length. *)
Theorem legal_length_is_sum_of_fields (las : LasFile) :
  0 <= PointFormatID (Header las) <= 3 ->
  In (PointRecordLength (Header las)) (legalLengths (PointFormatID (Header las))) ->
  exists las' : LasFile,
    selectOptionalFields las = Ret las'
    /\ Header las' = Header las
    /\ PointRecordLength (Header las)
       = recordSize (PointFormatID (Header las)) (usePointIntensity las')
           (usePointUserdata las').
Proof.
  intros Hid Hlen. destruct (selectOptionalFields_legal las Hid Hlen) as (i & u & Hs & HL).
  eexists. split; [exact Hs|]. split; [reflexivity | exact HL].
Qed.

End ReaderMore.

(* ===================================================================== *)
(** * The LAS reader on a record length that is not legal                 *)
(* ===================================================================== *)

Lemma slice_Panic (b : list byte) (lo hi : Z) :
  len b < hi -> slice b lo hi = Panic "slice bounds out of range".
Proof.
  intros H. unfold slice. destruct (len b <? hi) eqn:E; [|zbool; lia].
  now rewrite !orb_true_r.
Qed.

Lemma index_Panic (b : list byte) (i : Z) :
  len b <= i -> index b i = Panic "index out of range".
Proof.
  intros H. unfold index. destruct (i <? 0); [reflexivity|].
  rewrite lookup_ge_None_2; [reflexivity|]. unfold len in H. lia.
Qed.

Lemma halts_bind {A B} (m : outcome A) (f : A -> outcome B) :
  halts m -> (forall a, halts (f a)) -> halts (m ≫= f).
Proof.
  intros [[a ->]|[msg ->]] Hf; cbn [mbind outcome_bind]; [apply Hf|].
  right. now exists msg.
Qed.

Lemma halts_Ret {A} (a : A) : halts (Ret a).
Proof. left. now exists a. Qed.

Lemma halts_Panic {A} (msg : string) : halts (@Panic A msg).
Proof. right. now exists msg. Qed.

Lemma slice_halts (b : list byte) (lo hi : Z) : halts (slice b lo hi).
Proof. unfold slice. destruct (_ || _); [apply halts_Panic | apply halts_Ret]. Qed.

Lemma index_halts (b : list byte) (i : Z) : halts (index b i).
Proof.
  unfold index. destruct (i <? 0); [apply halts_Panic|].
  destruct (b !! Z.to_nat i); [apply halts_Ret | apply halts_Panic].
Qed.

Section Mismatch.
Import Lidario.
Variable os_Open : string -> outcome File.
Variable readHeader : File -> outcome LasHeader.
Variable readVLRs : File -> LasHeader -> outcome unit.
Variable Convert : Z -> Z -> Coordinate -> outcome Coordinate.
Variable zCorrection : float -> float -> float -> float.
Variable inSrid : Z.
Variable NumCPU : Z.

#[local] Abbreviation readPoints' := (readPointsOctElem Convert zCorrection inSrid NumCPU).
#[local] Abbreviation readOctree' :=
  (readForOctree os_Open readHeader readVLRs Convert zCorrection inSrid NumCPU).
#[local] Abbreviation parse' := (parsePoint Convert zCorrection inSrid).

Hypothesis Convert_total :
  forall c : Coordinate, exists tr : Coordinate, Convert inSrid 4326 c = Ret tr.

(** With a projection that is defined everywhere the parser returns a
    point or panics. *)
Lemma parsePoint_halts (las : LasFile) (b : list byte) (i : Z) : halts (parse' las b i).
Proof.
  unfold parsePoint.
  repeat first
    [ apply halts_Ret
    | apply halts_bind; [first [apply slice_halts | apply index_halts | idtac] | intros]
    | match goal with
      | |- halts (if ?c then _ else _) => destruct c
      | |- halts (let '(_, _) := ?p in _) => destruct p
      | |- halts (match Convert ?s ?t ?c with _ => _ end) =>
        let tr := fresh in let H := fresh in
        destruct (Convert_total c) as [tr H]; rewrite H
      end ].
Qed.

(** The parser on a record that lies in the buffer as far as the parser
    reads it. *)
Lemma parsePoint_reaches (las : LasFile) (b : list byte) (i : Z) :
  0 <= PointFormatID (Header las) <= 3 ->
  0 <= i * PointRecordLength (Header las) ->
  i * PointRecordLength (Header las)
  + recordReach (PointFormatID (Header las)) (usePointIntensity las) (usePointUserdata las)
  <= len b ->
  exists e : OctElement, parse' las b i = Ret e.
Proof.
  intros Hid HP Hb. unfold parsePoint.
  set (P := i * PointRecordLength (Header las)) in *. clearbody P.
  unfold recordReach, recordSize in Hb.
  assert (Hc : PointFormatID (Header las) = 0 \/ PointFormatID (Header las) = 1
               \/ PointFormatID (Header las) = 2 \/ PointFormatID (Header las) = 3) by lia.
  destruct Hc as [E|[E|[E|E]]]; rewrite E in *; cbn [Z.eqb Pos.eqb orb] in Hb |- *;
    destruct (usePointIntensity las), (usePointUserdata las);
    repeat first
      [ rewrite slice_Ret by lia; cbn [mbind outcome_bind]
      | match goal with
        | |- context [index b ?k] =>
          let H := fresh in
          destruct (index_Ret b k) as [? H]; [lia|]; rewrite H; cbn [mbind outcome_bind]
        end ];
    match goal with
    | |- context [Convert inSrid 4326 ?c] => destruct (Convert_total c) as [tr ->]
    end; eexists; reflexivity.
Qed.

(** The parser on a record of which the buffer holds less than the parser
    reads. *)
Lemma parsePoint_short (las : LasFile) (b : list byte) (i : Z) :
  0 <= PointFormatID (Header las) <= 3 ->
  0 <= i * PointRecordLength (Header las) ->
  len b
  < i * PointRecordLength (Header las)
    + recordReach (PointFormatID (Header las)) (usePointIntensity las) (usePointUserdata las) ->
  exists msg : string, parse' las b i = Panic msg.
Proof.
  intros Hid HP Hb. unfold parsePoint.
  set (P := i * PointRecordLength (Header las)) in *. clearbody P.
  unfold recordReach, recordSize in Hb.
  assert (Hc : PointFormatID (Header las) = 0 \/ PointFormatID (Header las) = 1
               \/ PointFormatID (Header las) = 2 \/ PointFormatID (Header las) = 3) by lia.
  destruct Hc as [E|[E|[E|E]]]; rewrite E in *; cbn [Z.eqb Pos.eqb orb] in Hb |- *;
    destruct (usePointIntensity las), (usePointUserdata las);
    repeat match goal with
    | |- context [slice b ?lo ?hi] =>
      destruct (Z_le_gt_dec hi (len b));
      [ rewrite (slice_Ret b lo hi) by lia; cbn [mbind outcome_bind]
      | rewrite (slice_Panic b lo hi) by lia; eexists; reflexivity ]
    | |- context [index b ?k] =>
      destruct (Z_lt_ge_dec k (len b));
      [ let H := fresh in
        destruct (index_Ret b k) as [? H]; [lia|]; rewrite H; cbn [mbind outcome_bind]
      | rewrite (index_Panic b k) by lia; eexists; reflexivity ]
    end; lia.
Qed.

Lemma loadAll_panics (p : Z -> outcome OctElement) (ixs : list Z) :
  (forall i, i ∈ ixs -> halts (p i)) ->
  (exists j msg, j ∈ ixs /\ p j = Panic msg) ->
  forall loader : list OctElement, exists msg : string, loadAll p ixs (Ret loader) = Panic msg.
Proof.
  unfold loadAll. induction ixs as [|i ixs IH]; intros Hh (j & msg & Hj & Hp) loader.
  - inversion Hj.
  - cbn [fold_left mbind outcome_bind].
    destruct (Hh i ltac:(left)) as [[e He]|[m Hm]].
    + rewrite He. cbn [mbind outcome_bind]. apply IH.
      * intros k Hk. apply Hh. now right.
      * apply elem_of_cons in Hj. destruct Hj as [->|Hj]; [congruence|].
        exists j, msg. auto.
    + rewrite Hm. cbn [mbind outcome_bind]. exists m.
      fold (loadAll p ixs (Panic m)). apply loadAll_stuck. discriminate.
Qed.

(** What [readPointsOctElem] comes to once the flags are selected,
    whatever the record length. *)
Lemma readPointsOctElem_loadAll_with (fuel : nat) (las las' : LasFile) (f : File)
    (loader : list OctElement) :
  selectOptionalFields las = Ret las' ->
  0 <= NumberPoints (Header las) ->
  0 <= NumberPoints (Header las) * PointRecordLength (Header las) ->
  1 <= NumCPU ->
  (Z.to_nat (NumberPoints (Header las)) <= fuel)%nat ->
  readPoints' fuel las f loader
  = (elems ← loadAll (parse' las' (pointBuffer las f))
                (seqZ 0 (NumberPoints (Header las))) (Ret loader);
     Ret (las', elems)).
Proof.
  intros Hs HN HNL Hcpu Hfuel. unfold readPointsOctElem.
  destruct (_ <? 0) eqn:E; [zbool; lia|]. clear E.
  unfold pointBuffer. cbn zeta.
  destruct (ReadAt f _ _) as [data err]. cbn [fst].
  rewrite Hs. cbn [mbind outcome_bind].
  destruct (NumCPU =? 0) eqn:E; [zbool; lia|]. clear E.
  assert (Hq : 0 <= Z.quot (NumberPoints (Header las)) NumCPU).
  { rewrite Z.quot_div_nonneg by lia. apply Z.div_pos; lia. }
  destruct (blocks_from (NumberPoints (Header las)) _ fuel Hq 0) as (bl & Hbl & Hc & _);
    [lia | rewrite Z.sub_0_r; exact Hfuel |].
  rewrite Hbl. cbn [mbind outcome_bind].
  rewrite workers_loadAll.
  apply contiguous_indices in Hc. destruct Hc as [_ ->]. rewrite Z.sub_0_r. reflexivity.
Qed.

Lemma recordReach_min (id : Z) (i u : bool) : 14 <= recordReach id i u.
Proof.
  unfold recordReach, recordSize.
  destruct i, u, ((id =? 1) || (id =? 3)), ((id =? 2) || (id =? 3)); lia.
Qed.

(** C1, as amended. When the record length is none of the four legal
    lengths of the format, [readForOctree] raises no format error and
    returns no error at all: the two flags stay as they were and the
    points are read by [readPointsOctElem] under these flags. When the
    record length is at least the number of bytes that the parser reads of
    a record (or the file has no points), every one of the NumberPoints
    records is parsed and handed to the loader and the call returns nil;
    when it is less, the parser runs past the end of the buffer and the
    call panics. (The projection is taken to be defined everywhere.) *)
Theorem record_length_mismatch_unchecked (fuel : nat) (las : LasFile) (f : File)
    (header : LasHeader) (loader : list OctElement) :
  os_Open (fileName las) = Ret f ->
  readHeader f = Ret header ->
  readVLRs f header = Ret tt ->
  fileMode las <> "rh" ->
  0 <= PointFormatID header <= 3 ->
  ~ In (PointRecordLength header) (legalLengths (PointFormatID header)) ->
  0 <= NumberPoints header ->
  1 <= NumCPU ->
  (Z.to_nat (NumberPoints header) <= fuel)%nat ->
  let las' := {| fileName := fileName las; fileMode := fileMode las; Header := header;
                 usePointIntensity := usePointIntensity las;
                 usePointUserdata := usePointUserdata las |} in
  let reach := recordReach (PointFormatID header) (usePointIntensity las)
                 (usePointUserdata las) in
  selectOptionalFields las' = Ret las'
  /\ neverErr (readOctree' fuel las loader)
  /\ (NumberPoints header = 0 \/ reach <= PointRecordLength header ->
      exists elems : list OctElement,
        readOctree' fuel las loader = Ret (las', loader ++ elems)
        /\ len elems = NumberPoints header
        /\ Forall2 (fun i e => parse' las' (pointBuffer las' f) i = Ret e)
             (seqZ 0 (NumberPoints header)) elems)
  /\ (1 <= NumberPoints header -> PointRecordLength header < reach ->
      exists msg : string, readOctree' fuel las loader = Panic msg).
Proof.
  intros Ho Hh Hv Hm Hid Hlen HN Hcpu Hfuel las' reach.
  assert (Hs : selectOptionalFields las' = Ret las')
    by (apply selectOptionalFields_mismatch; assumption).
  assert (Hr : readOctree' fuel las loader = readPoints' fuel las' f loader).
  { unfold readForOctree. rewrite Ho. cbn [mbind outcome_bind].
    rewrite Hh. cbn [mbind outcome_bind]. rewrite Hv. cbn [mbind outcome_bind].
    cbn [fileMode]. fold las'.
    destruct (String.eqb (fileMode las) "rh") eqn:E; [apply String.eqb_eq in E; contradiction|].
    cbn [negb]. rewrite Hs. reflexivity. }
  pose proof (recordReach_min (PointFormatID header) (usePointIntensity las)
                (usePointUserdata las)) as Hmin. fold reach in Hmin.
  split; [exact Hs|]. split; [rewrite Hr; apply readPointsOctElem_neverErr|]. split.
  - intros Hcase.
    assert (HNL : 0 <= NumberPoints header * PointRecordLength header)
      by (destruct Hcase as [->|HL]; [lia | nia]).
    rewrite Hr, (readPointsOctElem_loadAll_with fuel las' las' f loader Hs HN HNL Hcpu Hfuel).
    destruct (loadAll_Ret (parse' las' (pointBuffer las' f)) (seqZ 0 (NumberPoints header)))
      with (loader := loader) as (elems & Hload & Hall).
    { intros i Hin. apply elem_of_seqZ in Hin.
      destruct Hcase as [E|HL]; [lia|].
      apply parsePoint_reaches; cbn [Header usePointIntensity usePointUserdata las'].
      - exact Hid.
      - nia.
      - rewrite pointBuffer_len by exact HNL. cbn [Header las']. fold reach. nia. }
    exists elems. cbn [Header las'] in Hload |- *. rewrite Hload. cbn [mbind outcome_bind].
    split; [reflexivity|]. split; [|exact Hall].
    apply Forall2_length in Hall. rewrite length_seqZ in Hall. unfold len. lia.
  - intros HN1 HL. rewrite Hr.
    destruct (Z_lt_ge_dec (NumberPoints header * PointRecordLength header) 0) as [Hneg|HNL].
    + unfold readPointsOctElem. cbn [Header las'].
      destruct (_ <? 0) eqn:E; [|zbool; lia]. eexists; reflexivity.
    + rewrite (readPointsOctElem_loadAll_with fuel las' las' f loader Hs HN
                 ltac:(cbn [Header las']; lia) Hcpu Hfuel).
      destruct (loadAll_panics (parse' las' (pointBuffer las' f))
                  (seqZ 0 (NumberPoints header))) with (loader := loader) as [msg Hp].
      * intros i _. apply parsePoint_halts.
      * destruct (parsePoint_short las' (pointBuffer las' f) (NumberPoints header - 1))
          as [msg Hp]; cbn [Header usePointIntensity usePointUserdata las'].
        -- exact Hid.
        -- nia.
        -- rewrite pointBuffer_len by (cbn [Header las']; lia). cbn [Header las'].
           fold reach. nia.
        -- exists (NumberPoints header - 1), msg. split; [|exact Hp].
           apply elem_of_seqZ. lia.
      * exists msg. cbn [Header las'] in Hp |- *. rewrite Hp. reflexivity.
Qed.

End Mismatch.

Section MismatchExamples.
Import Lidario Example.

Lemma record_length_mismatch_unchecked_witness :
  let las := lasWith emptyHeader in
  let read := fun h : LasHeader =>
    readForOctree (fun _ => Ret (fileOfBytes (zeros 26))) (fun _ => Ret h) (fun _ _ => Ret tt)
      sameCoordinate noCorrection 4326 1 2 las [] in
  let las' := fun h : LasHeader =>
    {| fileName := fileName las; fileMode := fileMode las; Header := h;
       usePointIntensity := usePointIntensity las;
       usePointUserdata := usePointUserdata las |} in
  (exists elems : list OctElement,
     read (headerOf 0 21 1) = Ret (las' (headerOf 0 21 1), [] ++ elems)
     /\ len elems = NumberPoints (headerOf 0 21 1)
     /\ Forall2 (fun i e => parsePoint sameCoordinate noCorrection 4326 (las' (headerOf 0 21 1))
                              (pointBuffer (las' (headerOf 0 21 1)) (fileOfBytes (zeros 26))) i
                            = Ret e)
          (seqZ 0 (NumberPoints (headerOf 0 21 1))) elems)
  /\ (exists msg : string, read (headerOf 0 13 2) = Panic msg).
Proof.
  intros las read las'. split.
  - apply (record_length_mismatch_unchecked (fun _ => Ret (fileOfBytes (zeros 26)))
             (fun _ => Ret (headerOf 0 21 1)) (fun _ _ => Ret tt) sameCoordinate noCorrection
             4326 1 (fun c => ex_intro _ c eq_refl) 2%nat las (fileOfBytes (zeros 26))
             (headerOf 0 21 1) []);
      first [ reflexivity | discriminate | lia
            | right; vm_compute; discriminate
            | vm_compute; first [lia | discriminate | split; discriminate
                                | intuition discriminate] ].
  - apply (record_length_mismatch_unchecked (fun _ => Ret (fileOfBytes (zeros 26)))
             (fun _ => Ret (headerOf 0 13 2)) (fun _ _ => Ret tt) sameCoordinate noCorrection
             4326 1 (fun c => ex_intro _ c eq_refl) 2%nat las (fileOfBytes (zeros 26))
             (headerOf 0 13 2) []);
      first [ reflexivity | discriminate | lia
            | vm_compute; first [lia | discriminate | reflexivity | split; discriminate
                                | intuition discriminate] ].
Defined.

End MismatchExamples.

(* ===================================================================== *)
(** * More on the geometric error                                         *)
(* ===================================================================== *)

Section GeometricErrorMore.
Import TileWriter.
Context {BBox : Type}.
Variable GetVolume : BBox -> R.
Variable CanContain : BBox -> OctElement -> bool.
Variable nodes : gmap ptr (OctNode BBox).

Lemma computeGeometricError_real (fuel : nat) (node : OctNode BBox)
    (ps : list (OctNode BBox)) :
  ancestors nodes (Parent node) ps ->
  (length ps <= fuel)%nat ->
  int64_range (LocalChildrenCount node) ->
  int64_range (renderedPoints CanContain node ps) ->
  int64_range (renderedPoints CanContain node ps + GlobalChildrenCount node) ->
  int64_range (renderedPoints CanContain node ps + GlobalChildrenCount node
               - LocalChildrenCount node) ->
  computeGeometricError (FO := Float64_real) GetVolume CanContain nodes fuel node
  = Ret (Rpower (GetVolume (BoundingBox node) / IZR (renderedPoints CanContain node ps)) 0.333
         - Rpower (GetVolume (BoundingBox node)
                   / IZR (renderedPoints CanContain node ps + GlobalChildrenCount node
                          - LocalChildrenCount node)) 0.333)%R.
Proof.
  intros Hanc Hfuel HL HT HTG HD. unfold computeGeometricError.
  rewrite (countRendered_ancestors CanContain nodes _ _ ps Hanc);
    [| exact Hfuel | unfold int64_range in HL; lia
     | unfold renderedPoints, int64_range in HT; lia].
  cbn [mbind outcome_bind]. fold (renderedPoints CanContain node ps).
  rewrite (wrap64_small (renderedPoints CanContain node ps + GlobalChildrenCount node))
    by exact HTG.
  rewrite wrap64_small by exact HD. reflexivity.
Qed.

(** X15. In exact arithmetic the geometric error of a node is not
    negative, provided that the box has a volume, that at least one point
    is rendered with the node and that the points below the node include
    its own; and it is zero when the node has no points below it but its
    own. *)
Theorem geometric_error_nonnegative (fuel : nat) (node : OctNode BBox)
    (ps : list (OctNode BBox)) :
  ancestors nodes (Parent node) ps ->
  (length ps <= fuel)%nat ->
  int64_range (LocalChildrenCount node) ->
  int64_range (renderedPoints CanContain node ps) ->
  int64_range (renderedPoints CanContain node ps + GlobalChildrenCount node) ->
  int64_range (renderedPoints CanContain node ps + GlobalChildrenCount node
               - LocalChildrenCount node) ->
  (0 < GetVolume (BoundingBox node))%R ->
  0 < renderedPoints CanContain node ps ->
  LocalChildrenCount node <= GlobalChildrenCount node ->
  exists r : R,
    computeGeometricError (FO := Float64_real) GetVolume CanContain nodes fuel node = Ret r
    /\ (0 <= r)%R
    /\ (GlobalChildrenCount node = LocalChildrenCount node -> r = 0%R).
Proof.
  intros Hanc Hfuel HL HT HTG HD HV HT0 HLG.
  rewrite (computeGeometricError_real fuel node ps Hanc Hfuel HL HT HTG HD).
  eexists. split; [reflexivity|].
  set (T := renderedPoints CanContain node ps) in *.
  set (V := GetVolume (BoundingBox node)) in *.
  split.
  - assert (H1 : (0 < IZR T)%R) by (apply IZR_lt; exact HT0).
    assert (H2 : (IZR T <= IZR (T + GlobalChildrenCount node - LocalChildrenCount node))%R)
      by (apply IZR_le; lia).
    assert (H3 : (0 < V / IZR (T + GlobalChildrenCount node - LocalChildrenCount node))%R)
      by (apply Rdiv_lt_0_compat; lra).
    assert (H4 : (V / IZR (T + GlobalChildrenCount node - LocalChildrenCount node)
                  <= V / IZR T)%R).
    { unfold Rdiv. apply Rmult_le_compat_l; [lra|]. apply Rinv_le_contravar; assumption. }
    pose proof (Rle_Rpower_l _ _ 0.333%R ltac:(lra) (conj H3 H4)). lra.
  - intros E. replace (T + GlobalChildrenCount node - LocalChildrenCount node) with T by lia.
    lra.
Qed.

End GeometricErrorMore.

(* ===================================================================== *)
(** * The reader that keeps the points in the file structure              *)
(* ===================================================================== *)

Section ReaderV1.
Import Lidario.
Variable os_Open : string -> outcome File.
Variable readHeader : File -> outcome LasHeader.
Variable readVLRs : File -> LasHeader -> outcome unit.
Variable NumCPU : Z.

(** The decoder of this version is the parser of the other one, without
    projection and without correction of the elevation. *)
Lemma decodePoint_parsePoint (las : LasFile) (b : list byte) (i : Z) :
  LidarioV1.decodePoint las b i
  = parsePoint (fun _ _ c => Ret c) (fun _ _ z => z) 0 las b i.
Proof. reflexivity. Qed.

Lemma decodePoint_in_bounds (las : LasFile) (b : list byte) (i : Z) :
  0 <= PointFormatID (Header las) <= 3 ->
  PointRecordLength (Header las)
  = recordSize (PointFormatID (Header las)) (usePointIntensity las) (usePointUserdata las) ->
  0 <= i ->
  (i + 1) * PointRecordLength (Header las) <= len b ->
  exists e : OctElement, LidarioV1.decodePoint las b i = Ret e.
Proof.
  intros Hid HL Hi Hb. rewrite decodePoint_parsePoint.
  apply parsePoint_in_bounds; try assumption.
  intros c. exists c. reflexivity.
Qed.

Lemma storeAll_stuck (d : Z -> outcome OctElement) (ixs : list Z)
    (o : outcome (list OctElement)) :
  (forall l, o <> Ret l) -> storeAll d ixs o = o.
Proof.
  intros H. unfold storeAll. induction ixs as [|i ixs IH]; [reflexivity|].
  cbn [fold_left]. destruct o as [l| | | |]; cbn [mbind outcome_bind]; try exact IH.
  exfalso. exact (H l eq_refl).
Qed.

Lemma storeAll_app (d : Z -> outcome OctElement) (l1 l2 : list Z)
    (o : outcome (list OctElement)) :
  storeAll d (l1 ++ l2) o = storeAll d l2 (storeAll d l1 o).
Proof. unfold storeAll. apply fold_left_app. Qed.

Lemma worker_storeAll (las : LasFile) (b : list byte) (data : list OctElement)
    (block : Z * Z) :
  LidarioV1.worker las b data block
  = storeAll (LidarioV1.decodePoint las b) (blockIndices block) (Ret data).
Proof.
  destruct block as [st en]. unfold LidarioV1.worker, storeAll, blockIndices, seqZ.
  cbn [fst snd].
  generalize (seq 0 (Z.to_nat (en - st + 1))) as ks.
  generalize (Ret data : outcome (list OctElement)) as acc.
  intros acc ks. revert acc. induction ks as [|k ks IH]; intros acc; [reflexivity|].
  cbn [fold_left fmap list_fmap]. rewrite IH.
  replace (Z.of_nat k + st) with (st + Z.of_nat k) by lia. reflexivity.
Qed.

Lemma workers_storeAll (las : LasFile) (b : list byte) (bl : list (Z * Z)) :
  forall acc : outcome (list OctElement),
    fold_left (fun acc block => data ← acc; LidarioV1.worker las b data block) bl acc
    = storeAll (LidarioV1.decodePoint las b) (concat (map blockIndices bl)) acc.
Proof.
  induction bl as [|block bl IH]; intros acc; [reflexivity|].
  cbn [fold_left map concat]. rewrite IH, storeAll_app. f_equal.
  destruct acc as [data| | | |]; cbn [mbind outcome_bind];
    try (symmetry; apply storeAll_stuck; discriminate).
  apply worker_storeAll.
Qed.

(** Storing decoded points at their indices: the slice keeps its length,
    holds at every index that was visited the point decoded for it, and is
    unchanged elsewhere. *)
Lemma storeAll_lookup (d : Z -> outcome OctElement) (ixs : list Z) :
  forall data0 : list OctElement,
    (forall i, i ∈ ixs -> 0 <= i < len data0 /\ exists e, d i = Ret e) ->
    exists data : list OctElement,
      storeAll d ixs (Ret data0) = Ret data
      /\ length data = length data0
      /\ forall j : Z,
           0 <= j ->
           (j ∈ ixs -> exists e, d j = Ret e /\ data !! Z.to_nat j = Some e)
           /\ (j ∉ ixs -> data !! Z.to_nat j = data0 !! Z.to_nat j).
Proof.
  unfold storeAll. induction ixs as [|i ixs IH]; intros data0 H.
  - exists data0. split; [reflexivity|]. split; [reflexivity|].
    intros j Hj. split; [intros Hin; inversion Hin | reflexivity].
  - destruct (H i) as [Hi [e He]]; [left|].
    cbn [fold_left mbind outcome_bind]. rewrite He. cbn [mbind outcome_bind].
    unfold LidarioV1.assign.
    destruct (i <? 0) eqn:E1; [zbool; lia|].
    destruct (len data0 <=? i) eqn:E2; [zbool; lia|]. cbn [orb].
    destruct (IH (<[Z.to_nat i := e]> data0)) as (data & Hd & Hlen & Hall).
    { intros k Hk. destruct (H k) as [Hk1 Hk2]; [now right|].
      unfold len in *. rewrite length_insert. auto. }
    exists data. split; [exact Hd|]. rewrite length_insert in Hlen. split; [exact Hlen|].
    intros j Hj. destruct (Hall j Hj) as [Hin Hout]. split.
    + intros Hji. destruct (decide (j ∈ ixs)) as [Hjx|Hjx]; [auto|].
      apply elem_of_cons in Hji. destruct Hji as [->|Hji]; [|contradiction].
      exists e. split; [exact He|]. rewrite (Hout Hjx).
      apply list_lookup_insert_eq. unfold len in Hi. lia.
    + intros Hji. apply not_elem_of_cons in Hji. destruct Hji as [Hne Hjx].
      rewrite (Hout Hjx). apply list_lookup_insert_ne. lia.
Qed.

(** A slice that holds at every index the point decoded for it is
    determined by the decoder. *)
Lemma decoded_unique (d : Z -> outcome OctElement) (n : Z) (l1 l2 : list OctElement) :
  len l1 = n -> len l2 = n ->
  (forall j, 0 <= j < n -> exists e, d j = Ret e /\ l1 !! Z.to_nat j = Some e) ->
  (forall j, 0 <= j < n -> exists e, d j = Ret e /\ l2 !! Z.to_nat j = Some e) ->
  l1 = l2.
Proof.
  intros H1 H2 A1 A2. apply list_eq. intros i. unfold len in *.
  destruct (decide (Z.of_nat i < n)) as [Hi|Hi].
  - destruct (A1 (Z.of_nat i)) as (e1 & D1 & L1); [lia|].
    destruct (A2 (Z.of_nat i)) as (e2 & D2 & L2); [lia|].
    rewrite Nat2Z.id in L1, L2. rewrite L1, L2. rewrite D1 in D2. now inversion D2.
  - rewrite !lookup_ge_None_2 by lia. reflexivity.
Qed.

Lemma storeAll_complete (d : Z -> outcome OctElement) (n : Z) (ixs : list Z)
    (data0 : list OctElement) :
  len data0 = n ->
  (forall j, j ∈ ixs <-> 0 <= j < n) ->
  (forall j, 0 <= j < n -> exists e, d j = Ret e) ->
  exists data : list OctElement,
    storeAll d ixs (Ret data0) = Ret data
    /\ len data = n
    /\ forall j, 0 <= j < n -> exists e, d j = Ret e /\ data !! Z.to_nat j = Some e.
Proof.
  intros Hlen Hix Hd.
  destruct (storeAll_lookup d ixs data0) as (data & Hs & Hl & Hall).
  { intros i Hi. apply Hix in Hi. split; [lia | apply Hd; exact Hi]. }
  exists data. split; [exact Hs|]. split; [unfold len in *; lia|].
  intros j Hj. destruct (Hall j ltac:(lia)) as [Hin _]. apply Hin, Hix, Hj.
Qed.

(** What [readPointsOctElem] of this version comes to, for a legal
    header. *)
Lemma readPointsOctElemV1_storeAll (fuel : nat) (las : LidarioV1.LasFile) (f : File) :
  let fl0 := LidarioV1.fields las in
  0 <= PointFormatID (Header fl0) <= 3 ->
  In (PointRecordLength (Header fl0)) (legalLengths (PointFormatID (Header fl0))) ->
  0 <= NumberPoints (Header fl0) ->
  1 <= NumCPU ->
  (Z.to_nat (NumberPoints (Header fl0)) <= fuel)%nat ->
  exists fl : LasFile,
    selectOptionalFields fl0 = Ret fl
    /\ Header fl = Header fl0
    /\ PointRecordLength (Header fl0)
       = recordSize (PointFormatID (Header fl0)) (usePointIntensity fl) (usePointUserdata fl)
    /\ LidarioV1.readPointsOctElem NumCPU fuel las f
       = (data ← storeAll (LidarioV1.decodePoint fl (pointBuffer fl0 f))
                   (seqZ 0 (NumberPoints (Header fl0)))
                   (Ret (replicate (Z.to_nat (NumberPoints (Header fl0)))
                           LidarioV1.zeroOctElement));
          Ret {| LidarioV1.fields := fl; LidarioV1.pointDataOctElement := data |}).
Proof.
  intros fl0 Hid Hlen HN Hcpu Hfuel.
  destruct (selectOptionalFields_legal fl0 Hid Hlen) as (iy & ud & Hs & HL).
  eexists. split; [exact Hs|]. split; [reflexivity|]. split; [exact HL|].
  assert (H15 : 15 <= PointRecordLength (Header fl0)).
  { rewrite HL. unfold recordSize. destruct iy, ud, (_ || _), (_ || _); lia. }
  unfold LidarioV1.readPointsOctElem. fold fl0.
  destruct (NumberPoints (Header fl0) <? 0) eqn:E; [zbool; lia|]. clear E.
  destruct (_ <? 0) eqn:E; [zbool; nia|]. clear E.
  unfold pointBuffer. cbn zeta.
  destruct (ReadAt f _ _) as [data err]. cbn [fst].
  rewrite Hs. cbn [mbind outcome_bind].
  destruct (NumCPU =? 0) eqn:E; [zbool; lia|]. clear E.
  assert (Hq : 0 <= Z.quot (NumberPoints (Header fl0)) NumCPU).
  { rewrite Z.quot_div_nonneg by lia. apply Z.div_pos; lia. }
  destruct (blocks_from (NumberPoints (Header fl0)) _ fuel Hq 0) as (bl & Hbl & Hc & _);
    [lia | rewrite Z.sub_0_r; exact Hfuel |].
  rewrite Hbl. cbn [mbind outcome_bind].
  rewrite workers_storeAll.
  apply contiguous_indices in Hc. destruct Hc as [_ ->]. rewrite Z.sub_0_r. reflexivity.
Qed.

Lemma decodable (fl0 fl : LasFile) (f : File) :
  0 <= PointFormatID (Header fl0) <= 3 ->
  0 <= NumberPoints (Header fl0) ->
  Header fl = Header fl0 ->
  PointRecordLength (Header fl0)
  = recordSize (PointFormatID (Header fl0)) (usePointIntensity fl) (usePointUserdata fl) ->
  forall j, 0 <= j < NumberPoints (Header fl0) ->
            exists e, LidarioV1.decodePoint fl (pointBuffer fl0 f) j = Ret e.
Proof.
  intros Hid HN Hh HL j Hj.
  assert (H15 : 15 <= PointRecordLength (Header fl0)).
  { rewrite HL. unfold recordSize.
    destruct (usePointIntensity fl), (usePointUserdata fl), (_ || _), (_ || _); lia. }
  apply decodePoint_in_bounds; rewrite ?Hh; try assumption; try lia.
  rewrite pointBuffer_len by nia. nia.
Qed.

(** X16. After [readPointsOctElem] of this version, for a header with a
    legal record length, [GetOctElements] has NumberPoints elements and
    [GetOctElement] returns, for every index of a point, the point
    decoded from the record of that index; for any other index it
    panics. *)
Theorem GetOctElement_after_read (fuel : nat) (las : LidarioV1.LasFile) (f : File) :
  let fl0 := LidarioV1.fields las in
  0 <= PointFormatID (Header fl0) <= 3 ->
  In (PointRecordLength (Header fl0)) (legalLengths (PointFormatID (Header fl0))) ->
  0 <= NumberPoints (Header fl0) ->
  1 <= NumCPU ->
  (Z.to_nat (NumberPoints (Header fl0)) <= fuel)%nat ->
  exists las' : LidarioV1.LasFile,
    LidarioV1.readPointsOctElem NumCPU fuel las f = Ret las'
    /\ selectOptionalFields fl0 = Ret (LidarioV1.fields las')
    /\ len (LidarioV1.GetOctElements las') = NumberPoints (Header fl0)
    /\ (forall i, 0 <= i < NumberPoints (Header fl0) ->
                  exists e, LidarioV1.decodePoint (LidarioV1.fields las') (pointBuffer fl0 f) i
                            = Ret e
                            /\ LidarioV1.GetOctElement las' i = Ret e)
    /\ (forall i, ~ 0 <= i < NumberPoints (Header fl0) ->
                  LidarioV1.GetOctElement las' i = Panic "index out of range").
Proof.
  intros fl0 Hid Hlen HN Hcpu Hfuel.
  destruct (readPointsOctElemV1_storeAll fuel las f Hid Hlen HN Hcpu Hfuel)
    as (fl & Hs & Hh & HL & Hr). fold fl0 in Hs, Hh, HL, Hr.
  destruct (storeAll_complete (LidarioV1.decodePoint fl (pointBuffer fl0 f))
              (NumberPoints (Header fl0)) (seqZ 0 (NumberPoints (Header fl0)))
              (replicate (Z.to_nat (NumberPoints (Header fl0))) LidarioV1.zeroOctElement))
    as (data & Hst & Hlen' & Hall).
  { unfold len. rewrite length_replicate. lia. }
  { intros j. rewrite elem_of_seqZ. lia. }
  { apply decodable; assumption. }
  exists {| LidarioV1.fields := fl; LidarioV1.pointDataOctElement := data |}.
  rewrite Hr, Hst. cbn [mbind outcome_bind LidarioV1.fields].
  split; [reflexivity|]. split; [exact Hs|]. split; [exact Hlen'|]. split.
  - intros i Hi. destruct (Hall i Hi) as (e & He & Hl). exists e. split; [exact He|].
    unfold LidarioV1.GetOctElement. cbn [LidarioV1.pointDataOctElement].
    destruct (i <? 0) eqn:E; [zbool; lia|]. now rewrite Hl.
  - intros i Hi. unfold LidarioV1.GetOctElement. cbn [LidarioV1.pointDataOctElement].
    destruct (i <? 0) eqn:E; [reflexivity|]. zbool.
    rewrite lookup_ge_None_2; [reflexivity|]. unfold len in Hlen'. lia.
Qed.

(** X17. The slice that [readPointsOctElem] of this version fills does
    not depend on the order in which the records are decoded and stored:
    every order that visits each index of a point gives the slice that
    the workers give when they run one after the other. *)
Theorem stored_points_any_order (fuel : nat) (las : LidarioV1.LasFile) (f : File)
    (ixs : list Z) :
  let fl0 := LidarioV1.fields las in
  0 <= PointFormatID (Header fl0) <= 3 ->
  In (PointRecordLength (Header fl0)) (legalLengths (PointFormatID (Header fl0))) ->
  0 <= NumberPoints (Header fl0) ->
  1 <= NumCPU ->
  (Z.to_nat (NumberPoints (Header fl0)) <= fuel)%nat ->
  (forall j, j ∈ ixs <-> 0 <= j < NumberPoints (Header fl0)) ->
  exists las' : LidarioV1.LasFile,
    LidarioV1.readPointsOctElem NumCPU fuel las f = Ret las'
    /\ storeAll (LidarioV1.decodePoint (LidarioV1.fields las') (pointBuffer fl0 f)) ixs
         (Ret (replicate (Z.to_nat (NumberPoints (Header fl0))) LidarioV1.zeroOctElement))
       = Ret (LidarioV1.GetOctElements las').
Proof.
  intros fl0 Hid Hlen HN Hcpu Hfuel Hix.
  destruct (readPointsOctElemV1_storeAll fuel las f Hid Hlen HN Hcpu Hfuel)
    as (fl & Hs & Hh & HL & Hr). fold fl0 in Hs, Hh, HL, Hr.
  assert (Hrep : len (replicate (Z.to_nat (NumberPoints (Header fl0)))
                        LidarioV1.zeroOctElement) = NumberPoints (Header fl0)).
  { unfold len. rewrite length_replicate. lia. }
  destruct (storeAll_complete (LidarioV1.decodePoint fl (pointBuffer fl0 f))
              (NumberPoints (Header fl0)) (seqZ 0 (NumberPoints (Header fl0))) _ Hrep)
    as (data & Hst & Hlen' & Hall).
  { intros j. rewrite elem_of_seqZ. lia. }
  { apply decodable; assumption. }
  destruct (storeAll_complete (LidarioV1.decodePoint fl (pointBuffer fl0 f))
              (NumberPoints (Header fl0)) ixs _ Hrep Hix)
    as (data2 & Hst2 & Hlen2 & Hall2).
  { apply decodable; assumption. }
  exists {| LidarioV1.fields := fl; LidarioV1.pointDataOctElement := data |}.
  rewrite Hr, Hst. cbn [mbind outcome_bind LidarioV1.fields LidarioV1.GetOctElements
                         LidarioV1.pointDataOctElement].
  split; [reflexivity|]. rewrite Hst2. f_equal.
  exact (decoded_unique _ _ _ _ Hlen2 Hlen' Hall2 Hall).
Qed.

End ReaderV1.

(* ===================================================================== *)
(** * The additional properties at work                                   *)
(* ===================================================================== *)

Section MoreExamples.
Import TileWriter Headers Lidario Example.

Lemma pnts_file_length_witness :
  let wu := unit_of 1%nat "out" in
  let run := writeBinaryPnts noFault noFault join keep zeroBits leaves 2 wu emptyDisk in
  run = (Ret tt, snd run)
  /\ exists (node : OctNode R) (out : list byte) (ft bt : string) (x y z : float),
       let N := len (Items node) in
       leaves !! wOctNode wu = Some node
       /\ fs_files (snd run) !! join (wBasePath wu) "content.pnts" = Some (out, 511)
       /\ generateFeatureTableJson 2 x y z N 0 = Ret ft
       /\ generateBatchTableJson 2 N 0 = Ret bt
       /\ slice out 0 4 = Ret (bytes_of_string "pnts")
       /\ headerField out 4 = 1
       /\ len out = 28 + len_string ft + 15 * N + len_string bt + 2 * N
       /\ headerField out 8 = (len out - (len_string bt + 2 * N)) mod 2 ^ 32.
Proof.
  split; [vm_compute; reflexivity|].
  apply (pnts_file_length noFault noFault join keep zeroBits leaves 0
           (unit_of 1%nat "out") emptyDisk).
  vm_compute. reflexivity.
Defined.

Lemma pnts_content_witness :
  let wu := unit_of 1%nat "out" in
  let cs := [{| cX := 0; cY := 0; cZ := 0 |}] in
  let fs1 := {| fs_dirs := {["out"]} ∪ ∅; fs_files := ∅ |} in
  exists ft bt : string,
    generateFeatureTableJson 2 (centre cs).1.1 (centre cs).1.2 (centre cs).2
      (len (Items onePointLeaf)) 0 = Ret ft
    /\ generateBatchTableJson 2 (len (Items onePointLeaf)) 0 = Ret bt
    /\ writeBinaryPnts noFault noFault join keep zeroBits leaves 2 wu emptyDisk
       = (Ret tt,
          {| fs_dirs := fs_dirs fs1;
             fs_files :=
               <[join (wBasePath wu) "content.pnts"
                 := (layoutBytes
                       {| l_featureTable := ft; l_batchTable := bt;
                          l_positions :=
                            ConvertTruncateFloat64ToFloat32ByteArray zeroBits
                              (relativeTo (centre cs) cs);
                          l_colors := rgb (Items onePointLeaf);
                          l_intensities := map eIntensity (Items onePointLeaf);
                          l_classifications := map eClassification (Items onePointLeaf) |},
                     511)]>
                 (fs_files fs1) |}).
Proof.
  intros wu cs fs1.
  apply (pnts_content noFault noFault join keep zeroBits leaves 0 wu onePointLeaf cs
           emptyDisk fs1).
  - reflexivity.
  - repeat constructor.
  - vm_compute. reflexivity.
  - reflexivity.
Defined.

Lemma writeBinaryPnts_error_witness :
  let wu := unit_of 1%nat "b" in
  let fault := refuse "b/content.pnts" "disk full" in
  let fs' := snd (writeBinaryPnts noFault fault join keep zeroBits leaves 2 wu emptyDisk) in
  let file := join (wBasePath wu) "content.pnts" in
  writeBinaryPnts noFault fault join keep zeroBits leaves 2 wu emptyDisk = (Err "disk full", fs')
  /\ fs_files fs' !! file = Some ([], 511)
  /\ fs_dirs emptyDisk ⊆ fs_dirs fs'
  /\ (forall name : string, name <> file -> fs_files fs' !! name = fs_files emptyDisk !! name)
  /\ ((fs_files fs' = fs_files emptyDisk
       /\ ("disk full" = "not a directory"
           \/ exists (fs0 : FileSys) (d : string),
                d ∈ pathsTo (wBasePath wu) /\ @noFault error fs0 d = Some "disk full"))
      \/ (fs_files fs' = fs_files emptyDisk
          /\ exists (node : OctNode R) (item : OctElement),
               leaves !! wOctNode wu = Some node /\ In item (Items node)
               /\ keep {| cX := eX item; cY := eY item; cZ := eZ item |} (Srid (wOpts wu))
                  = Err "disk full")
      \/ (exists (fs1 : FileSys) (done : option nat),
            ensureFolder noFault (wBasePath wu) emptyDisk = (Ret tt, fs1)
            /\ fault fs1 file = Some ("disk full", done)
            /\ match done with
               | None => fs_files fs' = fs_files emptyDisk
               | Some n =>
                 exists (node : OctNode R) (out : list byte),
                   leaves !! wOctNode wu = Some node
                   /\ pntsBytes keep zeroBits 2 (Srid (wOpts wu)) (Items node) = Ret out
                   /\ fst <$> fs_files fs' !! file = Some (take n out)
               end)).
Proof.
  intros wu fault fs' file.
  assert (H : writeBinaryPnts noFault fault join keep zeroBits leaves 2 wu emptyDisk
              = (Err "disk full", fs')) by (vm_compute; reflexivity).
  split; [exact H|]. split; [vm_compute; reflexivity|].
  exact (writeBinaryPnts_error noFault fault join keep zeroBits leaves 2 wu emptyDisk fs'
           "disk full" H).
Defined.

Lemma generateFeatureTableJson_loops_witness :
  generateFeatureTableJson 1000 0 0 0 0 2 = OutOfFuel.
Proof.
  apply (generateFeatureTableJson_loops 0 0 0 0); vm_compute; reflexivity.
Defined.

Lemma readPointsOctElem_loads_every_point_witness :
  let las := lasWith (headerOf 2 26 3) in
  let f := fileOfBytes (zeros 78) in
  exists (las' : LasFile) (elems : list OctElement),
    readPointsOctElem sameCoordinate noCorrection 4326 2 3 las f [] = Ret (las', [] ++ elems)
    /\ selectOptionalFields las = Ret las'
    /\ len elems = NumberPoints (Header las)
    /\ Forall2 (fun i e => parsePoint sameCoordinate noCorrection 4326 las'
                             (pointBuffer las f) i = Ret e)
         (seqZ 0 (NumberPoints (Header las))) elems.
Proof.
  intros las f.
  apply (readPointsOctElem_loads_every_point sameCoordinate noCorrection 4326 2 3%nat las f []).
  - vm_compute. split; discriminate.
  - vm_compute. tauto.
  - vm_compute. discriminate.
  - lia.
  - vm_compute. lia.
  - intros c. exists c. reflexivity.
Defined.


Lemma unknown_point_format_panics_witness :
  readForOctree (fun _ => Ret (fileOfBytes (zeros 20))) (fun _ => Ret (headerOf 4 20 1))
    (fun _ _ => Ret tt) sameCoordinate noCorrection 4326 1 1 (lasWith emptyHeader) []
  = Panic "index out of range".
Proof.
  apply (unknown_point_format_panics (fun _ => Ret (fileOfBytes (zeros 20)))
           (fun _ => Ret (headerOf 4 20 1)) (fun _ _ => Ret tt) sameCoordinate noCorrection
           4326 1 1%nat (lasWith emptyHeader) (fileOfBytes (zeros 20)) (headerOf 4 20 1) []).
  - reflexivity.
  - reflexivity.
  - reflexivity.
  - discriminate.
  - vm_compute. intros [_ H]. apply H. reflexivity.
Defined.

Lemma selectOptionalFields_twice_witness :
  let las' := {| fileName := "cloud.las"; fileMode := "r"; Header := headerOf 2 26 3;
                 usePointIntensity := true; usePointUserdata := true |} in
  selectOptionalFields las' = Ret las'.
Proof.
  intros las'.
  apply (selectOptionalFields_twice (lasWith (headerOf 2 26 3)) las'). reflexivity.
Defined.

Lemma legal_length_is_sum_of_fields_witness :
  let las := lasWith (headerOf 3 32 1) in
  exists las' : LasFile,
    selectOptionalFields las = Ret las'
    /\ Header las' = Header las
    /\ PointRecordLength (Header las)
       = recordSize (PointFormatID (Header las)) (usePointIntensity las')
           (usePointUserdata las').
Proof.
  intros las. apply (legal_length_is_sum_of_fields las).
  - vm_compute. split; discriminate.
  - vm_compute. tauto.
Defined.

Lemma doWork_inner_node_witness :
  let wu := unit_of 0%nat "out" in
  let work := doWork (FO := Float64_real) noFault noFault join keep noRegion volume everything
                zeroBits tree noJson 2 in
  let fs' := snd (work wu emptyDisk) in
  work wu emptyDisk = (Ret tt, fs')
  /\ exists pnts json : list byte,
       pntsBytes keep zeroBits 2 (Srid (wOpts wu)) (Items root) = Ret pnts
       /\ createTilesetJson (FO := Float64_real) noRegion volume everything tree noJson 2 root
            (wOpts wu) = Ret json
       /\ fst <$> fs_files fs' !! join (wBasePath wu) "content.pnts" = Some pnts
       /\ fst <$> fs_files fs' !! join (wBasePath wu) "tileset.json" = Some json
       /\ forall name : string,
            name <> join (wBasePath wu) "content.pnts" ->
            name <> join (wBasePath wu) "tileset.json" ->
            fs_files fs' !! name = fs_files emptyDisk !! name.
Proof.
  intros wu work fs'.
  assert (H : work wu emptyDisk = (Ret tt, fs')) by (vm_compute; reflexivity).
  split; [exact H|].
  apply (doWork_inner_node (FO := Float64_real) noFault noFault join keep noRegion volume
           everything zeroBits tree noJson 2 wu root emptyDisk fs').
  - reflexivity.
  - reflexivity.
  - discriminate.
  - exact H.
Defined.


Lemma Consume_outcome_witness :
  let fault := refuse "b/content.pnts" "disk full" in
  let us := [unit_of 0%nat "a"; unit_of 1%nat "b"; unit_of 0%nat "c"] in
  let run := Consume (FO := Float64_real) noFault fault join keep noRegion volume everything
               zeroBits leaves noJson 2 us 0 emptyDisk in
  run = (Ret {| sent := ["disk full"]; taken := 2 |}, snd run)
  /\ (({| sent := ["disk full"]; taken := 2 |} = {| sent := []; taken := 0 + length us |}
       /\ allDone (FO := Float64_real) noFault fault join keep noRegion volume everything
            zeroBits leaves noJson 2 us emptyDisk (snd run))
      \/ (exists (pre : list WorkUnit) (u : WorkUnit) (post : list WorkUnit) (e : error)
                 (fs1 : FileSys),
            us = pre ++ u :: post
            /\ allDone (FO := Float64_real) noFault fault join keep noRegion volume everything
                 zeroBits leaves noJson 2 pre emptyDisk fs1
            /\ doWork (FO := Float64_real) noFault fault join keep noRegion volume everything
                 zeroBits leaves noJson 2 u fs1 = (Err e, snd run)
            /\ {| sent := ["disk full"]; taken := 2 |}
               = {| sent := [e]; taken := 0 + length pre + 1 |})).
Proof.
  intros fault us run.
  assert (H : run = (Ret {| sent := ["disk full"]; taken := 2 |}, snd run))
    by (vm_compute; reflexivity).
  split; [exact H|].
  exact (Consume_outcome (FO := Float64_real) noFault fault join keep noRegion volume
           everything zeroBits leaves noJson 2 us 0 emptyDisk (snd run)
           {| sent := ["disk full"]; taken := 2 |} H).
Defined.

Lemma geometric_error_nonnegative_witness :
  exists r : R,
    computeGeometricError (FO := Float64_real) volume everything tree 1 secondChild = Ret r
    /\ (0 <= r)%R
    /\ (GlobalChildrenCount secondChild = LocalChildrenCount secondChild -> r = 0%R).
Proof.
  apply (geometric_error_nonnegative volume everything tree 1%nat secondChild [root]).
  - apply ancestors_parent; [reflexivity | apply ancestors_root].
  - cbn. lia.
  - vm_compute. split; [discriminate | reflexivity].
  - vm_compute. split; [discriminate | reflexivity].
  - vm_compute. split; [discriminate | reflexivity].
  - vm_compute. split; [discriminate | reflexivity].
  - unfold volume, secondChild. cbn [BoundingBox]. lra.
  - vm_compute. reflexivity.
  - vm_compute. discriminate.
Defined.

Lemma GetOctElement_after_read_witness :
  let las := {| LidarioV1.fields := lasWith (headerOf 2 26 3);
                LidarioV1.pointDataOctElement := [] |} in
  let fl0 := LidarioV1.fields las in
  let f := fileOfBytes (zeros 78) in
  exists las' : LidarioV1.LasFile,
    LidarioV1.readPointsOctElem 2 3 las f = Ret las'
    /\ selectOptionalFields fl0 = Ret (LidarioV1.fields las')
    /\ len (LidarioV1.GetOctElements las') = NumberPoints (Header fl0)
    /\ (forall i, 0 <= i < NumberPoints (Header fl0) ->
                  exists e, LidarioV1.decodePoint (LidarioV1.fields las') (pointBuffer fl0 f) i
                            = Ret e
                            /\ LidarioV1.GetOctElement las' i = Ret e)
    /\ (forall i, ~ 0 <= i < NumberPoints (Header fl0) ->
                  LidarioV1.GetOctElement las' i = Panic "index out of range").
Proof.
  intros las fl0 f.
  apply (GetOctElement_after_read 2 3%nat las f).
  - vm_compute. split; discriminate.
  - vm_compute. tauto.
  - vm_compute. discriminate.
  - lia.
  - vm_compute. lia.
Defined.

Lemma stored_points_any_order_witness :
  let las := {| LidarioV1.fields := lasWith (headerOf 2 26 3);
                LidarioV1.pointDataOctElement := [] |} in
  let fl0 := LidarioV1.fields las in
  let f := fileOfBytes (zeros 78) in
  exists las' : LidarioV1.LasFile,
    LidarioV1.readPointsOctElem 2 3 las f = Ret las'
    /\ storeAll (LidarioV1.decodePoint (LidarioV1.fields las') (pointBuffer fl0 f)) [2; 0; 1]
         (Ret (replicate (Z.to_nat (NumberPoints (Header fl0))) LidarioV1.zeroOctElement))
       = Ret (LidarioV1.GetOctElements las').
Proof.
  intros las fl0 f.
  apply (stored_points_any_order 2 3%nat las f [2; 0; 1]).
  - vm_compute. split; discriminate.
  - vm_compute. tauto.
  - vm_compute. discriminate.
  - lia.
  - vm_compute. lia.
  - intros j. change (NumberPoints (Header (LidarioV1.fields las))) with 3.
    rewrite !elem_of_cons, elem_of_nil. lia.
Defined.

End MoreExamples.
